(** * Admission and priority layer of the Nimble miners

    A shallow embedding of
      - [model/lib/blacklist.py]   : [is_request_in_cache], [default_blacklist], [blacklist]
      - [nimminers/lib/priority.py]: [record_request_timestamps], [default_priority], [priority]
    together with the properties the design document states about them.

    Modelling conventions.
      - Python [int] is [Z]; Python [float] (timestamps, stakes, priorities)
        is idealised as exact rational arithmetic [Q] (no rounding, no
        infinities, no NaN).
      - Python [dict] is a [gmap]; Python [list] is [list], with Python's
        indexing and slicing written out (negative indices, [IndexError]).
      - Python exceptions are explicit: a computation is a function from the
        world to a new world and either a returned value or a raised
        exception.  The world persists across a raise, as in Python.
      - [time.time()] reads a clock: every call consumes one reading. *)

From Stdlib Require Import QArith Qminmax Lqa ZArith Lia.

From stdpp Require Import base gmap strings list fin_maps pretty.

Local Open Scope Z_scope.

Local Open Scope string_scope.

(** ** Exceptions and outcomes *)

(** The exception classes that occur in the two modules.  All of them derive
    from [Exception] except [KeyboardInterrupt], which only derives from
    [BaseException]. *)
Inductive exn : Type :=
  | NotImplementedError
  | AttributeError
  | IndexError
  | ValueError
  | TypeError
  | ZeroDivisionError
  | KeyboardInterrupt.

Definition is_Exception (e : exn) : bool :=
  match e with
  | KeyboardInterrupt => false
  | _ => true
  end.

Inductive outcome (A : Type) : Type :=
  | Returned (a : A)
  | Raised (e : exn).

Arguments Returned {A} a.

Arguments Raised {A} e.

Definition returns {A} (o : outcome A) : bool :=
  match o with
  | Returned _ => true
  | Raised _ => false
  end.

(** ** Python values a custom hook may hand back *)

#[warnings="-register-all"]

Inductive pyval : Type :=
  | PyNone
  | PyBool (b : bool)
  | PyInt (z : Z)
  | PyFloat (q : Q)
  | PyStr (s : string)
  | PyTuple (l : list pyval)
  | PyList (l : list pyval).

(** [hasattr(v, "__len__")] *)
Definition hasattr_len (v : pyval) : bool :=
  match v with
  | PyStr _ | PyTuple _ | PyList _ => true
  | _ => false
  end.

(** [v == None] *)
Definition eq_None (v : pyval) : bool :=
  match v with
  | PyNone => true
  | _ => false
  end.

(** Truth value of [v] in an [if]. *)
Definition truthy (v : pyval) : bool :=
  match v with
  | PyNone => false
  | PyBool b => b
  | PyInt z => negb (Z.eqb z 0)
  | PyFloat q => negb (Qeq_bool q 0)
  | PyStr s => negb (Nat.eqb (String.length s) 0)
  | PyTuple l | PyList l => negb (Nat.eqb (length l) 0)
  end.

Fixpoint chars (s : string) : list pyval :=
  match s with
  | EmptyString => []
  | String c s' => PyStr (String c EmptyString) :: chars s'
  end.

(** [a, b = v]: the two targets are bound only when [v] yields exactly two
    items; otherwise [ValueError] is raised and nothing is bound. *)
Definition unpack2 (v : pyval) : outcome (pyval * pyval) :=
  let items :=
    match v with
    | PyStr s => Some (chars s)
    | PyTuple l | PyList l => Some l
    | _ => None
    end in
  match items with
  | Some [a; b] => Returned (a, b)
  | Some _ => Raised ValueError
  | None => Raised TypeError
  end.

(** ** Python list primitives *)

(** [l[i]] with Python's negative indices. *)
Definition py_getitem {A} (l : list A) (i : Z) : outcome A :=
  let n := Z.of_nat (length l) in
  let j := if Z.ltb i 0 then n + i else i in
  if Z.leb 0 j && Z.ltb j n then
    match l !! Z.to_nat j with
    | Some x => Returned x
    | None => Raised IndexError
    end
  else Raised IndexError.

(** [l[i:]] *)
Definition py_slice_from {A} (l : list A) (i : Z) : list A :=
  let n := Z.of_nat (length l) in
  let start := if Z.ltb i 0 then Z.max (n + i) 0 else Z.min i n in
  drop (Z.to_nat start) l.

(** [[x] * n] *)
Definition py_repeat {A} (x : A) (n : Z) : list A :=
  replicate (Z.to_nat n) x.

(** [l.index(x)] *)
Fixpoint py_index (l : list string) (x : string) : outcome nat :=
  match l with
  | [] => Raised ValueError
  | y :: l' =>
      if bool_decide (y = x) then Returned O
      else match py_index l' x with
           | Returned i => Returned (S i)
           | Raised e => Raised e
           end
  end.

(** Indexing a tensor by a non-negative position. *)
Definition tensor_getitem {A} (t : list A) (uid : nat) : outcome A :=
  match t !! uid with
  | Some x => Returned x
  | None => Raised IndexError
  end.

(** ** Numbers *)

Definition Qltb (a b : Q) : bool :=
  match (a ?= b)%Q with
  | Lt => true
  | _ => false
  end.

(** [max(a, b)]: the first argument is kept unless the second is greater. *)
Definition py_max (a b : Q) : Q := if Qltb a b then b else a.

(** [a / d] with [d] an [int]. *)
Definition py_truediv (a : Q) (d : Z) : outcome Q :=
  if Z.eqb d 0 then Raised ZeroDivisionError else Returned (a / inject_Z d)%Q.

(** ** Data model *)

(** The fields of [self.config] read by the two modules; a field
    [config.miner.blacklist.whitelist] is named [miner_blacklist_whitelist]. *)
Record Config : Type := {
  miner_blacklist_blacklist : list string;
  miner_blacklist_whitelist : list string;
  miner_blacklist_force_validator_permit : bool;
  miner_blacklist_allow_non_registered : bool;
  miner_blacklist_request_cache_block_span : Z;
  miner_blacklist_min_request_period : Z;
  miner_priority_default : Q;
  miner_priority_time_stake_multiplicate : Z;
  miner_priority_len_request_timestamps : Z;
  wandb_on : bool
}.

(** The network snapshot; [S_] is the stake vector [megastring.S]. *)
Record Megastring : Type := {
  block : Z;
  hotkeys : list string;
  S_ : list Q;
  validator_permit : list bool
}.

(** The request: [nucleon.boson.hotkey] and [nucleon.messages]. *)
Record Inference : Type := {
  boson_hotkey : string;
  messages : list string
}.

(** The miner object [self]. *)
Record Miner : Type := {
  config : Config;
  megastring : option Megastring;
  request_cache : gmap string Z;
  request_timestamps : gmap string (list Q)
}.

(** The miner together with the process clock: [clock w i] is what the
    [i]-th call of [time.time()] returns, [ticks w] counts the calls made. *)
Record World : Type := {
  self : Miner;
  clock : nat -> Q;
  ticks : nat
}.

Definition set_self (w : World) (s : Miner) : World :=
  {| self := s; clock := clock w; ticks := ticks w |}.

Definition set_request_cache (s : Miner) (c : gmap string Z) : Miner :=
  {| config := config s; megastring := megastring s;
     request_cache := c; request_timestamps := request_timestamps s |}.

Definition set_request_timestamps (s : Miner) (t : gmap string (list Q)) : Miner :=
  {| config := config s; megastring := megastring s;
     request_cache := request_cache s; request_timestamps := t |}.

Definition set_megastring (s : Miner) (m : option Megastring) : Miner :=
  {| config := config s; megastring := m;
     request_cache := request_cache s; request_timestamps := request_timestamps s |}.

(** The world as [Miner.__init__] leaves it: an empty request cache and no
    timestamp history. *)
Definition initial (cfg : Config) (m : option Megastring) (clk : nat -> Q) : World :=
  {| self := {| config := cfg; megastring := m;
                request_cache := ∅; request_timestamps := ∅ |};
     clock := clk;
     ticks := 0 |}.

(** ** Computations *)

Definition M (A : Type) : Type := World -> World * outcome A.

Definition ret {A} (a : A) : M A := fun w => (w, Returned a).

Definition raise {A} (e : exn) : M A := fun w => (w, Raised e).

Definition bind {A B} (c : M A) (k : A -> M B) : M B :=
  fun w =>
    match c w with
    | (w', Returned a) => k a w'
    | (w', Raised e) => (w', Raised e)
    end.

Definition lift {A} (o : outcome A) : M A := fun w => (w, o).

Declare Scope py_scope.

Delimit Scope py_scope with py.

Notation "x <- c ;; k" := (bind c (fun x => k))
  (at level 100, c at next level, right associativity) : py_scope.

Local Open Scope py_scope.

Definition get_self : M Miner := fun w => (w, Returned (self w)).

Definition put_self (s : Miner) : M unit := fun w => (set_self w s, Returned tt).

(** [time.time()] *)
Definition time_time : M Q :=
  fun w => ({| self := self w; clock := clock w; ticks := S (ticks w) |},
            Returned (clock w (ticks w))).

(** [self.megastring.<attr>]: [AttributeError] when [self.megastring] is [None]. *)
Definition self_megastring : M Megastring :=
  s <- get_self ;;
  match megastring s with
  | Some m => ret m
  | None => raise AttributeError
  end.

(** ** [model/lib/blacklist.py] *)

(** The reason of the request-period rejection:
    [f"{hotkey} request frequency exceeded {len(history)} requests in {min_request_period} minutes."] *)
Definition frequency_reason (hotkey : string) (history : list Q) (min_request_period : Z) : string :=
  hotkey ++ " request frequency exceeded " ++ pretty (Z.of_nat (length history))
         ++ " requests in " ++ pretty min_request_period ++ " minutes.".

(** [default_blacklist(self, nucleon)].  The request-period block and the
    final [return False, "passed blacklist"] are the continuation
    [request_period] of the two places from which the code falls through to
    them. *)
Definition default_blacklist (nucleon : Inference) : M (bool * string) :=
  s <- get_self ;;
  let cfg := config s in
  let hotkey := boson_hotkey nucleon in
  (* request period, and the final return *)
  let request_period : M (bool * string) :=
    match request_timestamps s !! hotkey with
    | Some history =>
        now <- time_time ;;
        oldest <- lift (py_getitem history 0) ;;
        let period := (now - oldest)%Q in
        if Qltb period (inject_Z (miner_blacklist_min_request_period cfg * 60)) then
          ret (true, frequency_reason hotkey history (miner_blacklist_min_request_period cfg))
        else ret (false, "passed blacklist")
    | None => ret (false, "passed blacklist")
    end in
  if bool_decide (hotkey ∈ miner_blacklist_whitelist cfg) then
    ret (false, "whitelisted hotkey")
  else if bool_decide (hotkey ∈ miner_blacklist_blacklist cfg) then
    ret (true, "blacklisted hotkey")
  else if negb (miner_blacklist_allow_non_registered cfg)
          && match megastring s with
             | Some m => negb (bool_decide (hotkey ∈ hotkeys m))
             | None => false
             end then
    ret (true, "hotkey not registered")
  else if miner_blacklist_force_validator_permit cfg then
    m <- self_megastring ;;
    if bool_decide (hotkey ∈ hotkeys m) then
      uid <- lift (py_index (hotkeys m) hotkey) ;;
      permit <- lift (tensor_getitem (validator_permit m) uid) ;;
      if negb permit then ret (true, "validator permit required")
      else request_period
    else ret (true, "validator permit required, but hotkey not registered")
  else request_period.

(** The request cache.  [json.dumps] and [hashlib.sha256(...).hexdigest()]
    are library functions; the cache only needs them to be functions. *)
Section RequestCache.

Variable json_dumps : list string -> string.

Variable sha256_hexdigest : string -> string.

(** The fingerprint of a request. *)
Definition request_key_of (nucleon : Inference) : string :=
  sha256_hexdigest (json_dumps (messages nucleon)).

(** The keys collected by the sanitising loop over [request_cache.items()]. *)
Definition keys_to_remove (cache : gmap string Z) (span current_block : Z) : list string :=
  (filter (fun kb : string * Z => kb.2 + span < current_block) (map_to_list cache)).*1.

(** [for key in keys: del cache[key]] *)
Definition del_keys (cache : gmap string Z) (keys : list string) : gmap string Z :=
  foldl (fun c key => delete key c) cache keys.

(** [is_request_in_cache(self, nucleon)]: the body runs under [self.lock],
    one call is one step. *)
Definition is_request_in_cache (nucleon : Inference) : M bool :=
  let request_key := request_key_of nucleon in
  m <- self_megastring ;;
  let current_block := block m in
  s <- get_self ;;
  let '(should_blacklist, cache) :=
    match request_cache s !! request_key with
    | Some _ => (true, request_cache s)
    | None => (false, <[request_key := current_block]> (request_cache s))
    end in
  let span := miner_blacklist_request_cache_block_span (config s) in
  let cache := del_keys cache (keys_to_remove cache span current_block) in
  _ <- put_self (set_request_cache s cache) ;;
  ret should_blacklist.

End RequestCache.

(** The override dispatch of the admission policy.  [float(s)] on a string
    is a library function: [float_of_str s] is its value, [None] when it
    raises [ValueError]. *)
Section Blacklist.

Variable float_of_str : string -> option Q.

(** [float(v)] *)
Definition py_float (v : pyval) : outcome Q :=
  match v with
  | PyNone => Raised TypeError
  | PyBool b => Returned (if b then 1 else 0)%Q
  | PyInt z => Returned (inject_Z z)
  | PyFloat q => Returned q
  | PyStr s =>
      match float_of_str s with
      | Some q => Returned q
      | None => Raised ValueError
      end
  | PyTuple _ | PyList _ => Raised TypeError
  end.

(** [does_blacklist, reason = default_blacklist(self, nucleon)] inside an
    [except] clause: when the call raises, the targets keep their [None]. *)
Definition blacklist_except (nucleon : Inference) (w : World) : World * (pyval * pyval) :=
  match default_blacklist nucleon w with
  | (w', Returned (b, r)) => (w', (PyBool b, PyStr r))
  | (w', Raised _) => (w', (PyNone, PyNone))
  end.

(** The [try] body and the [except] clauses: the world and the locals
    [(does_blacklist, reason)] with which the [finally] clause starts.  An
    exception still in flight there is not kept: the [finally] clause ends
    in [return], which discards it. *)
Definition blacklist_try (func : Inference -> M pyval) (nucleon : Inference)
  (w : World) : World * (pyval * pyval) :=
  let except (e : exn) (w1 : World) :=
    match e with
    | NotImplementedError => blacklist_except nucleon w1
    | _ => if is_Exception e then blacklist_except nucleon w1
           else (w1, (PyNone, PyNone))
    end in
  match func nucleon w with
  | (w1, Returned blacklist_result) =>
      if hasattr_len blacklist_result then
        match unpack2 blacklist_result with
        | Returned (d, r) => (w1, (d, r))
        | Raised e => except e w1
        end
      else (w1, (blacklist_result, PyStr "no reason provided"))
  | (w1, Raised e) => except e w1
  end.

(** The [finally] clause, entered with the locals [does_blacklist] and
    [reason]; it ends in [return does_blacklist, reason]. *)
Definition blacklist_finally (nucleon : Inference) (does_blacklist reason : pyval)
  : M (pyval * pyval) :=
  dr <- (if eq_None does_blacklist then
           br <- default_blacklist nucleon ;;
           ret (PyBool br.1, PyStr br.2)
         else ret (does_blacklist, reason)) ;;
  s <- get_self ;;
  _ <- (if truthy dr.1 && wandb_on (config s) then
          (* wandb.log({"blacklisted": float(does_blacklist), ...}) *)
          _ <- lift (py_float dr.1) ;; ret tt
        else ret tt) ;;
  ret dr.

(** [blacklist(self, func, nucleon)] *)
Definition blacklist (func : Inference -> M pyval) (nucleon : Inference) : M (pyval * pyval) :=
  fun w =>
    let '(w1, (does_blacklist, reason)) := blacklist_try func nucleon w in
    blacklist_finally nucleon does_blacklist reason w1.

End Blacklist.

(** [_blacklist] and [_priority] of the base class [Miner]. *)
Definition not_implemented (nucleon : Inference) : M pyval :=
  raise NotImplementedError.

(** ** [nimminers/lib/priority.py] *)

(** [record_request_timestamps(self, nucleon)]: create the history from the
    sentinel zeros when it is missing, append the time read, keep the slice
    [[-timestamp_length:]]. *)
Definition record_request_timestamps (nucleon : Inference) : M (gmap string (list Q)) :=
  s <- get_self ;;
  let timestamp_length := miner_priority_len_request_timestamps (config s) in
  let hotkey := boson_hotkey nucleon in
  let history :=
    match request_timestamps s !! hotkey with
    | Some h => h
    | None => py_repeat 0%Q timestamp_length
    end in
  now <- time_time ;;
  let history := (history ++ [now])%list in
  let history := py_slice_from history (- timestamp_length) in
  let stamps := <[hotkey := history]> (request_timestamps s) in
  _ <- put_self (set_request_timestamps s stamps) ;;
  ret stamps.

(** [default_priority(self, nucleon)] *)
Definition default_priority (nucleon : Inference) : M Q :=
  s <- get_self ;;
  let hotkey := boson_hotkey nucleon in
  let registered :=
    match megastring s with
    | Some m => bool_decide (hotkey ∈ hotkeys m)
    | None => false
    end in
  if negb registered then ret (miner_priority_default (config s))
  else
    m <- self_megastring ;;
    uid <- lift (py_index (hotkeys m) hotkey) ;;
    stake_amount <- lift (tensor_getitem (S_ m) uid) ;;
    priority <-
      match request_timestamps s !! hotkey with
      | Some history =>
          now <- time_time ;;
          back <- lift (py_getitem history (-10)) ;;
          let period := (now - back)%Q in
          period_scale <-
            lift (py_truediv period (miner_priority_time_stake_multiplicate (config s) * 60)) ;;
          ret (py_max period_scale 1 * stake_amount)%Q
      | None => ret (miner_priority_default (config s))
      end ;;
    _ <- record_request_timestamps nucleon ;;
    ret priority.

(** [priority(self, func, nucleon)].  The [finally] clause ends in
    [return priority], which discards an exception still in flight; an
    exception raised inside the [finally] clause itself propagates. *)
Definition priority (func : Inference -> M pyval) (nucleon : Inference) : M pyval :=
  fun w =>
    (* try / except: the local [priority] with which [finally] starts *)
    let '(w1, p) :=
      match func nucleon w with
      | (w1, Returned p) => (w1, p)
      | (w1, Raised NotImplementedError) =>
          match default_priority nucleon w1 with
          | (w2, Returned q) => (w2, PyFloat q)
          | (w2, Raised _) => (w2, PyNone)
          end
      | (w1, Raised _) => (w1, PyNone)
      end in
    (* finally *)
    (if eq_None p then
       q <- default_priority nucleon ;; ret (PyFloat q)
     else ret p) w1.

(** ** Serving *)

(** Serving a sequence of requests, one call after the other. *)
Fixpoint serve {A} (f : Inference -> M A) (requests : list Inference) (w : World)
  : list (outcome A) * World :=
  match requests with
  | [] => ([], w)
  | nucleon :: rest =>
      let '(w1, o) := f nucleon w in
      let '(os, w2) := serve f rest w1 in
      (o :: os, w2)
  end.

Section Serving.

Variable json_dumps : list string -> string.
Variable sha256_hexdigest : string -> string.
Variable float_of_str : string -> option Q.

(** One step of the serving process: an entry point of the base class
    ([Miner.blacklist], [Miner.priority], the cache check of [Miner._predict]),
    a record operation, or the replacement of the snapshot. *)
Inductive step : World -> World -> Prop :=
  | step_blacklist (nucleon : Inference) (w : World) :
      step w (blacklist float_of_str not_implemented nucleon w).1
  | step_priority (nucleon : Inference) (w : World) :
      step w (priority not_implemented nucleon w).1
  | step_cache (nucleon : Inference) (w : World) :
      step w (is_request_in_cache json_dumps sha256_hexdigest nucleon w).1
  | step_record (nucleon : Inference) (w : World) :
      step w (record_request_timestamps nucleon w).1
  | step_sync (m : option Megastring) (w : World) :
      step w (set_self w (set_megastring (self w) m)).

(** The worlds the serving process reaches from construction. *)
Inductive reachable (cfg : Config) : World -> Prop :=
  | reachable_initial (m : option Megastring) (clk : nat -> Q) :
      reachable cfg (initial cfg m clk)
  | reachable_step (w w' : World) :
      reachable cfg w -> step w w' -> reachable cfg w'.

End Serving.

(** * Notions used in the statements *)

(** The world after one reading of the clock. *)
Definition tick (w : World) : World :=
  {| self := self w; clock := clock w; ticks := S (ticks w) |}.

(** The history stored for [hotkey] by a record operation that reads the
    time [now]. *)
Definition recorded_history (s : Miner) (hotkey : string) (now : Q) : list Q :=
  let timestamp_length := miner_priority_len_request_timestamps (config s) in
  py_slice_from
    (default (py_repeat 0%Q timestamp_length) (request_timestamps s !! hotkey) ++ [now])%list
    (- timestamp_length).

(** The world after a record operation for [hotkey]. *)
Definition recorded (w : World) (hotkey : string) : World :=
  {| self := set_request_timestamps (self w)
               (<[hotkey := recorded_history (self w) hotkey (clock w (ticks w))]>
                  (request_timestamps (self w)));
     clock := clock w;
     ticks := S (ticks w) |}.

(** Every stored history has the configured length. *)
Definition histories_full (w : World) : Prop :=
  forall hotkey history,
    request_timestamps (self w) !! hotkey = Some history ->
    Z.of_nat (length history) = miner_priority_len_request_timestamps (config (self w)).

(** Two worlds with the same miner, up to the request cache, the snapshot and
    the clock readings consumed. *)
Definition same_histories (w w' : World) : Prop :=
  config (self w') = config (self w)
  /\ request_timestamps (self w') = request_timestamps (self w).

(** The registration rule does not reject: unregistered callers are allowed,
    or the snapshot is absent, or the caller is registered. *)
Definition registration_passes (s : Miner) (hotkey : string) : Prop :=
  miner_blacklist_allow_non_registered (config s) = true
  \/ megastring s = None
  \/ exists m, megastring s = Some m /\ hotkey ∈ hotkeys m.

(** The permit rule does not reject: permits are not required, or the caller
    is registered and holds one. *)
Definition permit_passes (s : Miner) (hotkey : string) : Prop :=
  miner_blacklist_force_validator_permit (config s) = false
  \/ exists m uid, megastring s = Some m
                   /\ py_index (hotkeys m) hotkey = Returned uid
                   /\ validator_permit m !! uid = Some true.

(** The reasons of the rejections decided before the request-period rule. *)
Definition earlier_rejections : list string :=
  ["blacklisted hotkey"; "hotkey not registered"; "validator permit required";
   "validator permit required, but hotkey not registered"].

(** The last character of a string. *)
Fixpoint string_last (s : string) : option Ascii.ascii :=
  match s with
  | EmptyString => None
  | String c EmptyString => Some c
  | String _ s' => string_last s'
  end.

(** The outcome of a call, with its returned value mapped by [f]. *)
Definition outcome_map {A B} (f : A -> B) (o : outcome A) : outcome B :=
  match o with
  | Returned a => Returned (f a)
  | Raised e => Raised e
  end.

(** The pair [default_blacklist] returns, as Python values. *)
Definition admission_result (br : bool * string) : pyval * pyval :=
  (PyBool br.1, PyStr br.2).

(** What makes the admission dispatch fall back: the hook raised, or it
    returned [None] or an empty sequence. *)
Definition falls_back_admission (o : outcome pyval) : Prop :=
  match o with
  | Raised _ => True
  | Returned v => v = PyNone \/ v = PyTuple [] \/ v = PyList [] \/ v = PyStr ""
  end.

(** What makes the priority dispatch fall back: the hook raised, or it
    returned [None]. *)
Definition falls_back_priority (o : outcome pyval) : Prop :=
  match o with
  | Raised _ => True
  | Returned v => v = PyNone
  end.

(** [scores nucleon w stake elapsed p]: in [w] the caller is registered with
    stake [stake], has a history whose lookback lies [elapsed] seconds before
    the time the call reads, and [default_priority] returns [p]. *)
Definition scores (nucleon : Inference) (w : World) (stake elapsed p : Q) : Prop :=
  exists m uid history back,
    megastring (self w) = Some m
    /\ hotkeys m !! uid = Some (boson_hotkey nucleon)
    /\ (forall j, (j < uid)%nat -> hotkeys m !! j <> Some (boson_hotkey nucleon))
    /\ S_ m !! uid = Some stake
    /\ request_timestamps (self w) !! boson_hotkey nucleon = Some history
    /\ py_getitem history (-10) = Returned back
    /\ elapsed = (clock w (ticks w) - back)%Q
    /\ (default_priority nucleon w).2 = Returned p.

(** * Example configurations and worlds *)

Module Example.

Definition cfg : Config := {|
  miner_blacklist_blacklist := ["mallory"; "alice"];
  miner_blacklist_whitelist := ["alice"];
  miner_blacklist_force_validator_permit := false;
  miner_blacklist_allow_non_registered := false;
  miner_blacklist_request_cache_block_span := 7200;
  miner_blacklist_min_request_period := 5;
  miner_priority_default := 0;
  miner_priority_time_stake_multiplicate := 10;
  miner_priority_len_request_timestamps := 50;
  wandb_on := false
|}.

Definition with_permit (c : Config) (force allow : bool) : Config := {|
  miner_blacklist_blacklist := miner_blacklist_blacklist c;
  miner_blacklist_whitelist := miner_blacklist_whitelist c;
  miner_blacklist_force_validator_permit := force;
  miner_blacklist_allow_non_registered := allow;
  miner_blacklist_request_cache_block_span := miner_blacklist_request_cache_block_span c;
  miner_blacklist_min_request_period := miner_blacklist_min_request_period c;
  miner_priority_default := miner_priority_default c;
  miner_priority_time_stake_multiplicate := miner_priority_time_stake_multiplicate c;
  miner_priority_len_request_timestamps := miner_priority_len_request_timestamps c;
  wandb_on := wandb_on c
|}.

Definition with_len (c : Config) (len : Z) : Config := {|
  miner_blacklist_blacklist := miner_blacklist_blacklist c;
  miner_blacklist_whitelist := miner_blacklist_whitelist c;
  miner_blacklist_force_validator_permit := miner_blacklist_force_validator_permit c;
  miner_blacklist_allow_non_registered := miner_blacklist_allow_non_registered c;
  miner_blacklist_request_cache_block_span := miner_blacklist_request_cache_block_span c;
  miner_blacklist_min_request_period := miner_blacklist_min_request_period c;
  miner_priority_default := miner_priority_default c;
  miner_priority_time_stake_multiplicate := miner_priority_time_stake_multiplicate c;
  miner_priority_len_request_timestamps := len;
  wandb_on := wandb_on c
|}.

(** Three registered identities: [bob] (uid 0, validator), [carol] (uid 1,
    no permit), [alice] (uid 2). *)
Definition snapshot : Megastring := {|
  block := 1000;
  hotkeys := ["bob"; "carol"; "alice"];
  S_ := [10%Q; 20%Q; 30%Q];
  validator_permit := [true; false; true]
|}.

(** The clock starts at 1700000000 s and advances one second per reading. *)
Definition seconds (i : nat) : Q := inject_Z (1700000000 + Z.of_nat i).

Definition world (c : Config) (m : option Megastring) : World := initial c m seconds.

Definition request (hotkey : string) : Inference :=
  {| boson_hotkey := hotkey; messages := ["user: hello"] |}.

Definition w_default : World := world cfg (Some snapshot).

Definition w_permit : World := world (with_permit cfg true false) (Some snapshot).

Definition w_open : World := world (with_permit cfg true true) (Some snapshot).

End Example.

Module CacheExample.

(** Stand-ins for the two library functions. *)
Definition toy_json_dumps (l : list string) : string := "[" ++ String.concat ", " l ++ "]".

Definition toy_digest (s : string) : string := s.

Definition key : string := request_key_of toy_json_dumps toy_digest (Example.request "bob").

(** The snapshot is at block 9000; the payload of the example request was
    first seen at block 1000, and the span is 7200 blocks. *)
Definition late_snapshot : Megastring := {|
  block := 9000;
  hotkeys := hotkeys Example.snapshot;
  S_ := S_ Example.snapshot;
  validator_permit := validator_permit Example.snapshot
|}.

Definition w_stale : World := {|
  self := {| config := Example.cfg; megastring := Some late_snapshot;
             request_cache := {[ key := 1000 ]}; request_timestamps := ∅ |};
  clock := Example.seconds;
  ticks := 0
|}.

End CacheExample.

Module DispatchExample.

(** A stand-in for [float] on strings: no string denotes a number. *)
Definition no_float (s : string) : option Q := None.

(** A hook that fails with an error of its own. *)
Definition broken (nucleon : Inference) : M pyval := raise ValueError.


(** No snapshot yet, and validator permits are required. *)
Definition w_unsynced : World :=
  Example.world (Example.with_permit Example.cfg true false) None.

End DispatchExample.

Module RateExample.

(** [bob] after ten scored requests in a row, with a history length of ten. *)
Definition w_busy : World :=
  Nat.iter 10 (fun w => (priority not_implemented (Example.request "bob") w).1)
    (Example.world (Example.with_len Example.cfg 10) (Some Example.snapshot)).

(** [bob] has one recorded request, five seconds before the current time. *)
Definition w_recent : World :=
  {| self := {| config := Example.cfg; megastring := Some Example.snapshot;
                request_cache := ∅;
                request_timestamps := {[ "bob" := [Example.seconds 0] ]} |};
     clock := Example.seconds;
     ticks := 5 |}.

End RateExample.

Module PriorityExample.

(** [bob] after one scored request: his history has been created. *)
Definition w_scored : World :=
  (priority not_implemented (Example.request "bob") Example.w_default).1.

(** The same world one reading of the clock later. *)
Definition w_later : World := tick w_scored.

(** The same world after a snapshot in which the stake of [bob] is 15. *)
Definition w_richer : World :=
  set_self w_scored
    (set_megastring (self w_scored)
       (Some {| block := 1001; hotkeys := hotkeys Example.snapshot;
                S_ := [15%Q; 20%Q; 30%Q];
                validator_permit := validator_permit Example.snapshot |})).

Definition score (elapsed stake : Q) : Q :=
  (Qmax (elapsed / inject_Z (10 * 60)) 1 * stake)%Q.

End PriorityExample.

(** * The entry points of the base class and further notions *)

(** ** [lib/miner.py]: the entry points attached to the server *)

(** [Miner.blacklist(self, nucleon)]: the dispatch with the hook [_blacklist],
    which raises [NotImplementedError]. *)
Definition Miner_blacklist (float_of_str : string -> option Q) (nucleon : Inference)
  : M (pyval * pyval) :=
  blacklist float_of_str not_implemented nucleon.

(** [Miner.priority(self, nucleon)]: the dispatch with the hook [_priority],
    which raises [NotImplementedError]. *)
Definition Miner_priority (nucleon : Inference) : M pyval :=
  priority not_implemented nucleon.

(** ** Notions used in the further statements *)

(** [len(v)] for the values that have a length. *)
Definition py_len (v : pyval) : option nat :=
  match v with
  | PyStr s => Some (String.length s)
  | PyTuple l | PyList l => Some (length l)
  | _ => None
  end.


(** The world after [k] record operations for the caller of [nucleon]. *)
Definition after_records (k : nat) (nucleon : Inference) (w : World) : World :=
  (serve record_request_timestamps (replicate k nucleon) w).2.

(** The times read by [k] successive readings of the clock of [w]. *)
Definition readings (w : World) (k : nat) : list Q :=
  (fun i => clock w (ticks w + i)%nat) <$> seq 0 k.

(** A history in which no entry is later than an entry after it. *)
Definition time_ordered (history : list Q) : Prop :=
  forall i j x y,
    (i <= j)%nat -> history !! i = Some x -> history !! j = Some y -> (x <= y)%Q.

(** A clock that never runs backwards and never reads a negative time. *)
Definition monotone_clock (clk : nat -> Q) : Prop :=
  (forall i j, (i <= j)%nat -> (clk i <= clk j)%Q) /\ (forall i, (0 <= clk i)%Q).

Module EdgeExample.

(** A configuration whose request cache span is negative. *)
Definition cfg_negative_span : Config := {|
  miner_blacklist_blacklist := [];
  miner_blacklist_whitelist := [];
  miner_blacklist_force_validator_permit := false;
  miner_blacklist_allow_non_registered := false;
  miner_blacklist_request_cache_block_span := -1;
  miner_blacklist_min_request_period := 5;
  miner_priority_default := 0;
  miner_priority_time_stake_multiplicate := 10;
  miner_priority_len_request_timestamps := 50;
  wandb_on := false
|}.

Definition w_negative_span : World :=
  {| self := {| config := cfg_negative_span; megastring := Some Example.snapshot;
                request_cache := {[ "seen" := 990 ]}; request_timestamps := ∅ |};
     clock := Example.seconds;
     ticks := 0 |}.

(** The example payload was first seen at block 995; the snapshot is at block
    1000 and the span is 7200 blocks. *)
Definition w_fresh : World :=
  {| self := {| config := Example.cfg; megastring := Some Example.snapshot;
                request_cache := {[ CacheExample.key := 995 ]};
                request_timestamps := ∅ |};
     clock := Example.seconds;
     ticks := 0 |}.

(** Logging to wandb is on. *)
Definition cfg_wandb : Config := {|
  miner_blacklist_blacklist := [];
  miner_blacklist_whitelist := [];
  miner_blacklist_force_validator_permit := false;
  miner_blacklist_allow_non_registered := false;
  miner_blacklist_request_cache_block_span := 7200;
  miner_blacklist_min_request_period := 5;
  miner_priority_default := 0;
  miner_priority_time_stake_multiplicate := 10;
  miner_priority_len_request_timestamps := 50;
  wandb_on := true
|}.

Definition w_wandb : World := Example.world cfg_wandb (Some Example.snapshot).



Definition word_pair (nucleon : Inference) : M pyval :=
  ret (PyTuple [PyStr "yes"; PyStr "because"]).


(** A hook that returns an empty list. *)
Definition empty_list (nucleon : Inference) : M pyval := ret (PyList []).

(** A priority hook with a constant score. *)
Definition constant_score (nucleon : Inference) : M pyval := ret (PyFloat 1).

(** A snapshot whose stake vector is shorter than its hotkey sequence. *)
Definition short_stake : Megastring := {|
  block := 1000;
  hotkeys := ["bob"; "carol"; "alice"];
  S_ := [];
  validator_permit := [true; false; true]
|}.

(** [bob] with a history of three entries, and a zero doubling period. *)
Definition cfg_zero_period : Config := {|
  miner_blacklist_blacklist := [];
  miner_blacklist_whitelist := [];
  miner_blacklist_force_validator_permit := false;
  miner_blacklist_allow_non_registered := false;
  miner_blacklist_request_cache_block_span := 7200;
  miner_blacklist_min_request_period := 5;
  miner_priority_default := 0;
  miner_priority_time_stake_multiplicate := 0;
  miner_priority_len_request_timestamps := 10;
  wandb_on := false
|}.

Definition with_history (c : Config) (m : Megastring) (history : list Q) : World :=
  {| self := {| config := c; megastring := Some m;
                request_cache := ∅;
                request_timestamps := {[ "bob" := history ]} |};
     clock := Example.seconds;
     ticks := 7 |}.

End EdgeExample.

(** The locals [(does_blacklist, reason)] that the [try] body binds from the
    value the hook returned: the two items of a sequence, or the bare value
    with the standard reason; none when the unpacking raises. *)
Definition hook_verdict (v : pyval) : option (pyval * pyval) :=
  if hasattr_len v then
    match unpack2 v with
    | Returned verdict => Some verdict
    | Raised _ => None
    end
  else Some (v, PyStr "no reason provided").

(** The hook leaves the decision to the default policy: it raised, or it
    returned [None], a sequence that does not have exactly two items, or a
    pair whose first component is [None]. *)
Definition default_decides (o : outcome pyval) : Prop :=
  match o with
  | Raised _ => True
  | Returned v =>
      v = PyNone
      \/ (exists n, py_len v = Some n /\ n <> 2%nat)
      \/ (exists r, unpack2 v = Returned (PyNone, r))
  end.

(** [w'] differs from [w] at most in the history of [hotkey] and in the
    number of clock readings consumed. *)
Definition only_history_of (hotkey : string) (w w' : World) : Prop :=
  config (self w') = config (self w)
  /\ megastring (self w') = megastring (self w)
  /\ request_cache (self w') = request_cache (self w)
  /\ clock w' = clock w
  /\ (ticks w <= ticks w')%nat
  /\ forall other, other <> hotkey ->
       request_timestamps (self w') !! other = request_timestamps (self w) !! other.

(** A history that is in time order and whose entries lie between the
    sentinel zero and [now]. *)
Definition ordered_until (now : Q) (history : list Q) : Prop :=
  time_ordered history
  /\ forall i x, history !! i = Some x -> (0 <= x)%Q /\ (x <= now)%Q.

(** Every stored history is in time order and holds no time later than the
    next reading of the clock. *)
Definition histories_ordered (w : World) : Prop :=
  forall hotkey history,
    request_timestamps (self w) !! hotkey = Some history ->
    ordered_until (clock w (ticks w)) history.

(** The worlds the serving process reaches from [w]. *)
Inductive reachable_from (json_dumps : list string -> string)
  (sha256_hexdigest : string -> string) (float_of_str : string -> option Q)
  (w : World) : World -> Prop :=
  | reachable_from_here :
      reachable_from json_dumps sha256_hexdigest float_of_str w w
  | reachable_from_step (w1 w2 : World) :
      reachable_from json_dumps sha256_hexdigest float_of_str w w1 ->
      step json_dumps sha256_hexdigest float_of_str w1 w2 ->
      reachable_from json_dumps sha256_hexdigest float_of_str w w2.


(** * The model miners *)

(** ** Python string primitives *)

Definition newline : string := String (Ascii.ascii_of_nat 10) EmptyString.

Definition colon : Ascii.ascii := Ascii.ascii_of_nat 58.

(** Sequencing of computations that only return or raise. *)
Definition and_then {A B} (o : outcome A) (k : A -> outcome B) : outcome B :=
  match o with
  | Returned a => k a
  | Raised e => Raised e
  end.

(** [s.split(sep)] for a separator of one character. *)
Fixpoint py_split (sep : Ascii.ascii) (s : string) : list string :=
  match s with
  | EmptyString => [EmptyString]
  | String c s' =>
      if Ascii.eqb c sep then EmptyString :: py_split sep s'
      else match py_split sep s' with
           | [] => [String c EmptyString]
           | segment :: segments => String c segment :: segments
           end
  end.

(** [s.replace(old, new)]: the occurrences of [old] are replaced from left
    to right, without overlap; [skip] counts the characters of an occurrence
    still to be passed over.  For an empty [old], [new] is inserted before
    every character and at the end. *)
Fixpoint replace_from (old new : string) (skip : nat) (s : string) : string :=
  match s with
  | EmptyString => EmptyString
  | String c s' =>
      match skip with
      | S n => replace_from old new n s'
      | O =>
          if String.prefix old s
          then new ++ replace_from old new (String.length old - 1) s'
          else String c (replace_from old new 0 s')
      end
  end.

Fixpoint interleave (new : string) (s : string) : string :=
  match s with
  | EmptyString => new
  | String c s' => new ++ String c (interleave new s')
  end.

Definition py_replace (s old new : string) : string :=
  match old with
  | EmptyString => interleave new s
  | _ => replace_from old new 0 s
  end.

(** [s[0]] on a string. *)
Definition str_getitem_0 (s : string) : outcome string :=
  match s with
  | EmptyString => Raised IndexError
  | String c _ => Returned (String c EmptyString)
  end.

(** [c in s] for a character. *)
Fixpoint occurs (c : Ascii.ascii) (s : string) : bool :=
  match s with
  | EmptyString => false
  | String c' s' => Ascii.eqb c' c || occurs c s'
  end.

(** A [for] loop over pairs that threads the string built so far and stops
    at the first exception. *)
Fixpoint for_pairs (body : string -> string -> string -> outcome string)
  (pairs : list (string * string)) (processed_history : string) : outcome string :=
  match pairs with
  | [] => Returned processed_history
  | (role, message) :: rest =>
      and_then (body processed_history role message) (for_pairs body rest)
  end.

(** ** [nblm/miner.py] *)

Module NBLMMiner.

(** [StopOnTokens.__call__]: [input_ids[0][-1]] is read once for every stop
    token compared. *)
Fixpoint StopOnTokens_call (stop_token_ids : list Z) (input_ids : list (list Z))
  : outcome bool :=
  match stop_token_ids with
  | [] => Returned false
  | stop_id :: rest =>
      and_then (py_getitem input_ids 0) (fun row =>
      and_then (py_getitem row (-1)) (fun last_id =>
      if Z.eqb last_id stop_id then Returned true
      else StopOnTokens_call rest input_ids))
  end.

(** The device handed to the pipeline: the configured string, or the id
    computed from it. *)
Inductive device : Type :=
  | DeviceStr (s : string)
  | DeviceInt (id : Z).

Section Init.

(** [int(s)]: its value, [None] when it raises. *)
Variable int_of_str : string -> option Z.

(** The part of [__init__] that determines the device id from
    [config.nblm.device]; the bare [except] turns every failure of the
    conversion into [ValueError]. *)
Definition init_device (config_nblm_device : string) : outcome device :=
  if String.eqb config_nblm_device "cuda" then Returned (DeviceInt 0)
  else if Nat.eqb (length (py_split colon config_nblm_device)) 2 then
    match and_then (py_getitem (py_split colon config_nblm_device) 1)
            (fun part => match int_of_str part with
                         | Some id => Returned id
                         | None => Raised ValueError
                         end) with
    | Returned id => Returned (DeviceInt id)
    | Raised _ => Raised ValueError
    end
  else Returned (DeviceStr config_nblm_device).

End Init.

(** The body of the loop of [_process_history]. *)
Definition history_body (do_request_injection : bool) (messages : list string)
  (processed_history role message : string) : outcome string :=
  and_then
    (if String.eqb role "system" then
       and_then
         (if negb do_request_injection then Returned true
          else and_then (py_getitem messages 0)
                 (fun first => Returned (negb (String.eqb message first))))
         (fun keep =>
            Returned (if keep : bool
                      then processed_history ++ (("system: " ++ message) ++ newline)
                      else processed_history))
     else Returned processed_history)
    (fun processed_history =>
       let processed_history :=
         if String.eqb role "assistant"
         then processed_history ++ (("assistant: " ++ message) ++ newline)
         else processed_history in
       let processed_history :=
         if String.eqb role "user"
         then processed_history ++ (("user: " ++ message) ++ newline)
         else processed_history in
       Returned processed_history).

(** [_process_history(self, roles, messages)], with the two fields of
    [self.config.nblm] it reads. *)
Definition _process_history (do_request_injection : bool) (system_request : string)
  (roles messages : list string) : outcome string :=
  let processed_history := EmptyString in
  let processed_history :=
    if do_request_injection then processed_history ++ system_request
    else processed_history in
  for_pairs (history_body do_request_injection messages) (zip roles messages)
    processed_history.

(** The prompt handed to the pipeline by [predict]. *)
Definition predict_history (do_request_injection : bool) (system_request : string)
  (roles messages : list string) : outcome string :=
  and_then (_process_history do_request_injection system_request roles messages)
    (fun history => Returned (history ++ "assistant: ")).

(** The completion [predict] stores, from the text the pipeline generated:
    [generated_text.split(":")[-1].replace(str(history), "")]. *)
Definition predict_completion (history generated_text : string) : outcome string :=
  and_then (py_getitem (py_split colon generated_text) (-1))
    (fun answer => Returned (py_replace answer history EmptyString)).

End NBLMMiner.

(** ** [vicuna/miner.py] *)

Module VicunaMiner.

Section ProcessHistory.

(** [message.strip()] *)
Variable strip : string -> string.

(** The body of the loop of [_process_history]; the system message is
    compared with its own first character. *)
Definition history_body (do_prompt_injection : bool)
  (processed_history role message : string) : outcome string :=
  and_then
    (if String.eqb role "system" then
       and_then
         (if negb do_prompt_injection then Returned true
          else and_then (str_getitem_0 message)
                 (fun first => Returned (negb (String.eqb message first))))
         (fun keep =>
            Returned (if keep : bool
                      then processed_history ++ ((EmptyString ++ strip message) ++ " ")
                      else processed_history))
     else Returned processed_history)
    (fun processed_history =>
       let processed_history :=
         if String.eqb role "Assistant"
         then processed_history ++ (("ASSISTANT:" ++ strip message) ++ "</s>")
         else processed_history in
       let processed_history :=
         if String.eqb role "user"
         then processed_history ++ (("USER: " ++ strip message) ++ " ")
         else processed_history in
       Returned processed_history).

(** [_process_history(self, roles, messages)], with the two fields of
    [self.config.vicuna] it reads. *)
Definition _process_history (do_prompt_injection : bool) (system_prompt : string)
  (roles messages : list string) : outcome string :=
  let processed_history := EmptyString in
  let processed_history :=
    if do_prompt_injection then processed_history ++ system_prompt
    else processed_history in
  for_pairs (history_body do_prompt_injection) (zip roles messages) processed_history.

End ProcessHistory.

End VicunaMiner.

(** ** [streaming_template/miner.py] *)

Module StreamingTemplateMiner.

(** A message handed to [send]; [body] is the text that is sent encoded. *)
Record Message : Type := {
  body : string;
  more_body : bool
}.

(** The token ids of the text after [squeeze()].  The tokenizer returns a
    tensor of shape [1 x n], of which [input_ids] below is the one row;
    [squeeze()] removes every dimension of size one, so a text of one token
    gives a tensor without dimensions. *)
Inductive tensor : Type :=
  | Tensor0 (id : Z)
  | Tensor1 (ids : list Z).

Definition squeeze (input_ids : list Z) : tensor :=
  match input_ids with
  | [id] => Tensor0 id
  | _ => Tensor1 input_ids
  end.

(** The loop of [_prompt] over the decoded tokens: the buffer and the
    messages sent so far. *)
Fixpoint prompt_loop (N : nat) (tokens : list string) (buffer : list string)
  (sent : list Message) : list string * list Message :=
  match tokens with
  | [] => (buffer, sent)
  | token :: rest =>
      let buffer := (buffer ++ [token])%list in
      if Nat.eqb (length buffer) N then
        let joined_buffer := String.concat EmptyString buffer in
        prompt_loop N rest []
          (sent ++ [{| body := joined_buffer; more_body := true |}])%list
      else prompt_loop N rest buffer sent
  end.

(** The loop and the send of the remaining tokens that follows it: the
    messages sent for the tokens the model yields, in order. *)
Definition prompt_sends (tokens : list string) : list Message :=
  let N := 3%nat in
  let '(buffer, sent) := prompt_loop N tokens [] [] in
  if negb (Nat.eqb (length buffer) 0) then
    let joined_buffer := String.concat EmptyString buffer in
    (sent ++ [{| body := joined_buffer; more_body := false |}])%list
  else sent.

Section Prompt.

(** [tokenizer.decode(id)] *)
Variable tokenizer_decode : Z -> string.

(** [model(ids)]: the generator over [ids]; a tensor without dimensions
    cannot be iterated over. *)
Definition model (ids : tensor) : outcome (list string) :=
  match ids with
  | Tensor0 _ => Raised TypeError
  | Tensor1 ids => Returned (tokenizer_decode <$> ids)
  end.

(** [_prompt(text, send)], from the token ids of [text]: the messages sent,
    in order, and how the call ends. *)
Definition _prompt (input_ids : list Z) : list Message * outcome unit :=
  let input_ids := squeeze input_ids in
  match model input_ids with
  | Returned tokens => (prompt_sends tokens, Returned tt)
  | Raised e => ([], Raised e)
  end.

End Prompt.

End StreamingTemplateMiner.


(** ** Notions used in the statements about the model miners *)

(** The number of occurrences of a character. *)
Fixpoint count_char (c : Ascii.ascii) (s : string) : nat :=
  match s with
  | EmptyString => O
  | String c' s' => (if Ascii.eqb c' c then 1 else 0) + count_char c s'
  end.

(** [int] for the examples: the two numerals it knows. *)
Definition toy_int_of_str (s : string) : option Z :=
  if String.eqb s "0" then Some 0
  else if String.eqb s "1" then Some 1
  else None.

(** The entries of a conversation the NBLM miner keeps: those of the three
    roles it knows, except, when the system request is injected, the system
    entries whose message is the first message of the request. *)
Definition nblm_kept (do_request_injection : bool) (messages : list string)
  (entry : string * string) : bool :=
  if String.eqb entry.1 "system" then
    negb (do_request_injection
          && match head messages with
             | Some first => String.eqb entry.2 first
             | None => false
             end)
  else String.eqb entry.1 "assistant" || String.eqb entry.1 "user".

(** The line of an entry in the prompt of the NBLM miner. *)
Definition nblm_line (entry : string * string) : string :=
  ((entry.1 ++ ": ") ++ entry.2) ++ newline.

(** The entries of a conversation the Vicuna miner keeps: those of the three
    roles it knows, except, when the system prompt is injected, the system
    entries whose message is a single character. *)
Definition vicuna_kept (do_prompt_injection : bool) (entry : string * string) : bool :=
  if String.eqb entry.1 "system" then
    negb (do_prompt_injection && Nat.eqb (String.length entry.2) 1)
  else String.eqb entry.1 "Assistant" || String.eqb entry.1 "user".

(** The text of an entry in the prompt of the Vicuna miner. *)
Definition vicuna_text (strip : string -> string) (entry : string * string) : string :=
  if String.eqb entry.1 "system" then strip entry.2 ++ " "
  else if String.eqb entry.1 "Assistant" then ("ASSISTANT:" ++ strip entry.2) ++ "</s>"
  else ("USER: " ++ strip entry.2) ++ " ".

(** An empty system message. *)
Definition empty_system_message (entry : string * string) : bool :=
  String.eqb entry.1 "system" && String.eqb entry.2 EmptyString.

(** [strip] for the examples: nothing to strip. *)
Definition toy_strip (s : string) : string := s.

(** [tokenizer.decode] for the examples: the numeral of the id. *)
Definition toy_decode (id : Z) : string := pretty id.

(** * Properties *)

(** ** Auxiliary facts about the Python primitives *)

Ltac py_unfold :=
  unfold self_megastring, time_time, get_self, put_self, lift, raise, ret, bind in *.

Ltac py_red := cbn [negb andb orb fst snd]; cbv beta iota zeta.

Ltac by_compute := apply (bool_decide_unpack _); vm_compute; exact I.

Lemma Qltb_lt (a b : Q) : Qltb a b = true <-> (a < b)%Q.
Proof.
  unfold Qltb. rewrite Qlt_alt. destruct (a ?= b)%Q; split; congruence.
Qed.

Lemma Qltb_ge (a b : Q) : Qltb a b = false <-> (b <= a)%Q.
Proof.
  split; intros H.
  - apply Qnot_lt_le. intros Hlt. apply Qltb_lt in Hlt. congruence.
  - destruct (Qltb a b) eqn:E; [|reflexivity].
    apply Qltb_lt in E. exfalso. apply (Qlt_not_le _ _ E H).
Qed.

Lemma py_index_elem (l : list string) (x : string) :
  x ∈ l ->
  exists uid, py_index l x = Returned uid /\ l !! uid = Some x
              /\ forall j, (j < uid)%nat -> l !! j <> Some x.
Proof.
  induction l as [|y l IH]; intros Hin.
  - inversion Hin.
  - simpl. destruct (decide (y = x)) as [->|Hne].
    + exists O. rewrite bool_decide_eq_true_2 by reflexivity.
      split; [reflexivity|]. split; [reflexivity|]. intros j Hj. lia.
    + rewrite bool_decide_eq_false_2 by assumption.
      apply elem_of_cons in Hin as [Heq | Hin]; [congruence|].
      destruct (IH Hin) as (uid & -> & Hlk & Hfirst).
      exists (S uid). split; [reflexivity|]. split; [exact Hlk|].
      intros [|j] Hj; simpl; [congruence | apply Hfirst; lia].
Qed.

Lemma py_index_Returned (l : list string) (x : string) (uid : nat) :
  py_index l x = Returned uid -> l !! uid = Some x.
Proof.
  revert uid. induction l as [|y l IH]; intros uid; simpl; [discriminate|].
  case_bool_decide as Hy.
  - intros [= <-]. simpl. congruence.
  - destruct (py_index l x) as [i|e]; [|discriminate].
    intros [= <-]. simpl. apply IH. reflexivity.
Qed.

Lemma py_getitem_0 {A} (x : A) (l : list A) : py_getitem (x :: l) 0 = Returned x.
Proof.
  unfold py_getitem. simpl Z.ltb. cbv iota.
  replace (Z.leb 0 0 && Z.ltb 0 (Z.of_nat (length (x :: l)))) with true.
  - reflexivity.
  - symmetry. apply andb_true_iff. split; [reflexivity|].
    apply Z.ltb_lt. simpl length. lia.
Qed.

Lemma py_getitem_nil {A} (i : Z) : py_getitem (@nil A) i = Raised IndexError.
Proof.
  unfold py_getitem. simpl length.
  destruct (Z.ltb i 0) eqn:Ei.
  - apply Z.ltb_lt in Ei. replace (Z.leb 0 (Z.of_nat 0 + i)) with false; [reflexivity|].
    symmetry. apply Z.leb_gt. lia.
  - apply Z.ltb_ge in Ei. replace (Z.ltb i (Z.of_nat 0)) with false.
    + rewrite andb_false_r. reflexivity.
    + symmetry. apply Z.ltb_ge. lia.
Qed.

(** Indexing from the end: [l[-k]] is [l[len(l) - k]] when [1 <= k <= len(l)],
    and raises [IndexError] when [k > len(l)]. *)
Lemma py_getitem_neg {A} (l : list A) (k : Z) :
  0 < k ->
  py_getitem l (- k) =
    if Z.leb k (Z.of_nat (length l)) then
      match l !! Z.to_nat (Z.of_nat (length l) - k) with
      | Some x => Returned x
      | None => Raised IndexError
      end
    else Raised IndexError.
Proof.
  intros Hk. unfold py_getitem.
  replace (Z.ltb (- k) 0) with true by (symmetry; apply Z.ltb_lt; lia).
  replace (Z.of_nat (length l) + - k) with (Z.of_nat (length l) - k) by lia.
  replace (Z.ltb (Z.of_nat (length l) - k) (Z.of_nat (length l))) with true
    by (symmetry; apply Z.ltb_lt; lia).
  rewrite andb_true_r.
  destruct (Z.leb k (Z.of_nat (length l))) eqn:E.
  - apply Z.leb_le in E.
    replace (Z.leb 0 (Z.of_nat (length l) - k)) with true
      by (symmetry; apply Z.leb_le; lia).
    reflexivity.
  - apply Z.leb_gt in E.
    replace (Z.leb 0 (Z.of_nat (length l) - k)) with false
      by (symmetry; apply Z.leb_gt; lia).
    reflexivity.
Qed.

(** ** The default admission policy *)

(** When no earlier rule decides, the request-period rule does. *)
Lemma default_blacklist_request_period (nucleon : Inference) (w : World) :
  boson_hotkey nucleon ∉ miner_blacklist_whitelist (config (self w)) ->
  boson_hotkey nucleon ∉ miner_blacklist_blacklist (config (self w)) ->
  registration_passes (self w) (boson_hotkey nucleon) ->
  permit_passes (self w) (boson_hotkey nucleon) ->
  default_blacklist nucleon w =
    match request_timestamps (self w) !! boson_hotkey nucleon with
    | Some history =>
        match py_getitem history 0 with
        | Returned oldest =>
            (tick w,
             Returned
               (if Qltb (clock w (ticks w) - oldest)
                     (inject_Z (miner_blacklist_min_request_period (config (self w)) * 60))
                then (true, frequency_reason (boson_hotkey nucleon) history
                              (miner_blacklist_min_request_period (config (self w))))
                else (false, "passed blacklist")))
        | Raised e => (tick w, Raised e)
        end
    | None => (w, Returned (false, "passed blacklist"))
    end.
Proof.
  intros Hwl Hbl Hreg Hpermit. unfold default_blacklist. py_unfold. py_red.
  rewrite !bool_decide_eq_false_2 by assumption. py_red.
  assert (negb (miner_blacklist_allow_non_registered (config (self w)))
          && match megastring (self w) with
             | Some m => negb (bool_decide (boson_hotkey nucleon ∈ hotkeys m))
             | None => false
             end = false) as ->.
  { destruct Hreg as [-> | [-> | (m & -> & Hin)]]; [reflexivity|apply andb_false_r|].
    rewrite bool_decide_eq_true_2 by assumption. apply andb_false_r. }
  py_red.
  assert (forall k : World -> World * outcome (bool * string),
            (if miner_blacklist_force_validator_permit (config (self w)) then
               fun w0 : World =>
                 let (w', o) :=
                   match megastring (self w0) with
                   | Some m => fun w1 : World => (w1, Returned m)
                   | None => fun w1 : World => (w1, Raised AttributeError)
                   end w0 in
                 match o with
                 | Returned m =>
                     (if bool_decide (boson_hotkey nucleon ∈ hotkeys m) then
                        fun w1 : World =>
                          match py_index (hotkeys m) (boson_hotkey nucleon) with
                          | Returned uid =>
                              match tensor_getitem (validator_permit m) uid with
                              | Returned permit =>
                                  (if negb permit then
                                     fun w2 : World =>
                                       (w2, Returned (true, "validator permit required"))
                                   else k) w1
                              | Raised e => (w1, Raised e)
                              end
                          | Raised e => (w1, Raised e)
                          end
                      else
                        fun w1 : World =>
                          (w1, Returned
                                 (true, "validator permit required, but hotkey not registered")))
                       w'
                 | Raised e => (w', Raised e)
                 end
             else k) w = k w) as Hskip.
  { intros k. destruct Hpermit as [-> | (m & uid & Hm & Huid & Hp)]; [reflexivity|].
    destruct (miner_blacklist_force_validator_permit (config (self w))); [|reflexivity].
    rewrite Hm. py_red.
    rewrite bool_decide_eq_true_2
      by (apply list_elem_of_lookup; exists uid; apply py_index_Returned; exact Huid).
    rewrite Huid. unfold tensor_getitem. rewrite Hp. reflexivity. }
  rewrite Hskip.
  destruct (request_timestamps (self w) !! boson_hotkey nucleon) as [history|];
    [|reflexivity].
  py_red. destruct (py_getitem history 0) as [oldest|e]; [|reflexivity].
  py_red. destruct (Qltb _ _); reflexivity.
Qed.

(** C1. [default_blacklist] evaluates its rules in the order whitelist,
    blacklist, registration, validator permit, request period, and the first
    rule that matches decides.  A whitelisted caller is accepted with reason
    "whitelisted hotkey" whatever the rest of the world is; a blacklisted
    caller that is not whitelisted is rejected with "blacklisted hotkey"; the
    registration rule decides before the permit rule, and the permit rule
    before the request-period rule (none of the four depends on the recorded
    timestamps); the request-period rule decides only when none of them does,
    and a caller it does not reject is accepted with "passed blacklist". *)
Theorem default_blacklist_first_match (nucleon : Inference) (w : World) :
  let s := self w in
  let cfg := config s in
  let hotkey := boson_hotkey nucleon in
  let now := clock w (ticks w) in
  let window := inject_Z (miner_blacklist_min_request_period cfg * 60) in
  (hotkey ∈ miner_blacklist_whitelist cfg ->
     default_blacklist nucleon w = (w, Returned (false, "whitelisted hotkey")))
  /\ (hotkey ∉ miner_blacklist_whitelist cfg ->
      hotkey ∈ miner_blacklist_blacklist cfg ->
     default_blacklist nucleon w = (w, Returned (true, "blacklisted hotkey")))
  /\ (hotkey ∉ miner_blacklist_whitelist cfg ->
      hotkey ∉ miner_blacklist_blacklist cfg ->
      miner_blacklist_allow_non_registered cfg = false ->
      forall m, megastring s = Some m -> hotkey ∉ hotkeys m ->
     default_blacklist nucleon w = (w, Returned (true, "hotkey not registered")))
  /\ (hotkey ∉ miner_blacklist_whitelist cfg ->
      hotkey ∉ miner_blacklist_blacklist cfg ->
      miner_blacklist_force_validator_permit cfg = true ->
      forall m uid, megastring s = Some m -> hotkey ∈ hotkeys m ->
      py_index (hotkeys m) hotkey = Returned uid ->
      validator_permit m !! uid = Some false ->
     default_blacklist nucleon w = (w, Returned (true, "validator permit required")))
  /\ (hotkey ∉ miner_blacklist_whitelist cfg ->
      hotkey ∉ miner_blacklist_blacklist cfg ->
      miner_blacklist_allow_non_registered cfg = true ->
      miner_blacklist_force_validator_permit cfg = true ->
      forall m, megastring s = Some m -> hotkey ∉ hotkeys m ->
     default_blacklist nucleon w =
       (w, Returned (true, "validator permit required, but hotkey not registered")))
  /\ (hotkey ∉ miner_blacklist_whitelist cfg ->
      hotkey ∉ miner_blacklist_blacklist cfg ->
      registration_passes s hotkey ->
      permit_passes s hotkey ->
      (request_timestamps s !! hotkey = None ->
         default_blacklist nucleon w = (w, Returned (false, "passed blacklist")))
      /\ (forall history oldest,
            request_timestamps s !! hotkey = Some history ->
            history !! 0%nat = Some oldest ->
            ((now - oldest < window)%Q ->
               default_blacklist nucleon w =
                 (tick w,
                  Returned (true, frequency_reason hotkey history
                                    (miner_blacklist_min_request_period cfg))))
            /\ ((window <= now - oldest)%Q ->
               default_blacklist nucleon w =
                 (tick w, Returned (false, "passed blacklist"))))).
Proof.
  intros s cfg hotkey now window. subst s cfg hotkey now window.
  split; [|split; [|split; [|split; [|split]]]].
  - intros Hwl. unfold default_blacklist. py_unfold. py_red.
    rewrite bool_decide_eq_true_2 by assumption. reflexivity.
  - intros Hwl Hbl. unfold default_blacklist. py_unfold. py_red.
    rewrite bool_decide_eq_false_2 by assumption.
    rewrite bool_decide_eq_true_2 by assumption. reflexivity.
  - intros Hwl Hbl Hallow m Hm Hreg. unfold default_blacklist. py_unfold. py_red.
    rewrite !bool_decide_eq_false_2 by assumption.
    rewrite Hallow, Hm. cbv beta iota.
    rewrite bool_decide_eq_false_2 by assumption. reflexivity.
  - intros Hwl Hbl Hforce m uid Hm Hreg Huid Hpermit.
    unfold default_blacklist. py_unfold. py_red.
    rewrite !bool_decide_eq_false_2 by assumption.
    unfold tensor_getitem.
    repeat progress (rewrite ?Hm, ?Hforce, ?Huid, ?Hpermit, ?andb_false_r,
                       ?bool_decide_eq_true_2 by assumption; py_red).
    reflexivity.
  - intros Hwl Hbl Hallow Hforce m Hm Hreg.
    unfold default_blacklist. py_unfold. py_red.
    rewrite !bool_decide_eq_false_2 by assumption.
    repeat progress (rewrite ?Hallow, ?Hforce, ?Hm,
                       ?bool_decide_eq_false_2 by assumption; py_red).
    reflexivity.
  - intros Hwl Hbl Hreg Hpermit.
    rewrite (default_blacklist_request_period nucleon w Hwl Hbl Hreg Hpermit).
    split; [intros ->; reflexivity|].
    intros history oldest -> Holdest.
    destruct history as [|t history]; [discriminate|].
    injection Holdest as ->. rewrite py_getitem_0. split.
    + intros Hlt. apply Qltb_lt in Hlt. rewrite Hlt. reflexivity.
    + intros Hge. apply Qltb_ge in Hge. rewrite Hge. reflexivity.
Qed.

Lemma default_blacklist_first_match_witness :
  default_blacklist (Example.request "alice") Example.w_default
    = (Example.w_default, Returned (false, "whitelisted hotkey"))
  /\ default_blacklist (Example.request "mallory") Example.w_default
    = (Example.w_default, Returned (true, "blacklisted hotkey"))
  /\ default_blacklist (Example.request "dave") Example.w_default
    = (Example.w_default, Returned (true, "hotkey not registered"))
  /\ default_blacklist (Example.request "carol") Example.w_permit
    = (Example.w_permit, Returned (true, "validator permit required"))
  /\ default_blacklist (Example.request "dave") Example.w_open
    = (Example.w_open,
       Returned (true, "validator permit required, but hotkey not registered"))
  /\ default_blacklist (Example.request "bob") Example.w_default
    = (Example.w_default, Returned (false, "passed blacklist"))
  /\ default_blacklist (Example.request "bob") RateExample.w_recent
    = (tick RateExample.w_recent,
       Returned (true, frequency_reason "bob" [Example.seconds 0] 5)).
Proof.
  pose proof (default_blacklist_first_match (Example.request "alice") Example.w_default)
    as (H1 & _).
  pose proof (default_blacklist_first_match (Example.request "mallory") Example.w_default)
    as (_ & H2 & _).
  pose proof (default_blacklist_first_match (Example.request "dave") Example.w_default)
    as (_ & _ & H3 & _).
  pose proof (default_blacklist_first_match (Example.request "carol") Example.w_permit)
    as (_ & _ & _ & H4 & _).
  pose proof (default_blacklist_first_match (Example.request "dave") Example.w_open)
    as (_ & _ & _ & _ & H5 & _).
  pose proof (default_blacklist_first_match (Example.request "bob") Example.w_default)
    as (_ & _ & _ & _ & _ & H6).
  pose proof (default_blacklist_first_match (Example.request "bob") RateExample.w_recent)
    as (_ & _ & _ & _ & _ & H7).
  assert (forall w, megastring (self w) = Some Example.snapshot ->
            registration_passes (self w) "bob") as Hreg.
  { intros w Hm. right. right. exists Example.snapshot. split; [exact Hm | by_compute]. }
  split; [apply H1; by_compute|].
  split; [apply H2; by_compute|].
  split; [apply (H3 ltac:(by_compute) ltac:(by_compute) eq_refl Example.snapshot eq_refl);
          by_compute|].
  split; [apply (H4 ltac:(by_compute) ltac:(by_compute) eq_refl Example.snapshot 1%nat eq_refl);
          [by_compute | reflexivity | reflexivity]|].
  split; [apply (H5 ltac:(by_compute) ltac:(by_compute) eq_refl eq_refl Example.snapshot eq_refl);
          by_compute|].
  split.
  - destruct (H6 ltac:(by_compute) ltac:(by_compute) (Hreg Example.w_default eq_refl)
                (or_introl eq_refl)) as [Hpass _].
    apply Hpass. reflexivity.
  - destruct (H7 ltac:(by_compute) ltac:(by_compute) (Hreg RateExample.w_recent eq_refl)
                (or_introl eq_refl)) as [_ Hperiod].
    destruct (Hperiod [Example.seconds 0] (Example.seconds 0) eq_refl eq_refl)
      as [Hreject _].
    apply Hreject. vm_compute. reflexivity.
Defined.

(** ** The request cache *)

Lemma lookup_del_keys (keys : list string) (cache : gmap string Z) (k : string) :
  del_keys cache keys !! k = if decide (k ∈ keys) then None else cache !! k.
Proof.
  unfold del_keys. revert cache.
  induction keys as [|key keys IH]; intros cache; simpl.
  - destruct (decide (k ∈ [])) as [Hin|_]; [inversion Hin | reflexivity].
  - rewrite IH. destruct (decide (k ∈ keys)) as [Hin|Hnin].
    + rewrite decide_True by (apply list_elem_of_further; exact Hin). reflexivity.
    + destruct (decide (k = key)) as [->|Hne].
      * rewrite decide_True by apply list_elem_of_here. apply lookup_delete_eq.
      * rewrite decide_False by (rewrite elem_of_cons; tauto).
        apply lookup_delete_ne. congruence.
Qed.

Lemma elem_of_keys_to_remove (cache : gmap string Z) (span current_block : Z) (k : string) :
  k ∈ keys_to_remove cache span current_block
  <-> exists b, cache !! k = Some b /\ b + span < current_block.
Proof.
  unfold keys_to_remove. rewrite list_elem_of_fmap. split.
  - intros ([k' b] & -> & Hin). apply list_elem_of_filter in Hin as [Hold Hin].
    apply elem_of_map_to_list in Hin. exists b. split; assumption.
  - intros (b & Hlk & Hold). exists (k, b). split; [reflexivity|].
    apply list_elem_of_filter. split; [exact Hold|].
    apply elem_of_map_to_list. exact Hlk.
Qed.

(** What the sanitising loop leaves: exactly the entries that are not older
    than the block span. *)
Lemma lookup_sanitized (cache : gmap string Z) (span current_block : Z) (k : string) (b : Z) :
  del_keys cache (keys_to_remove cache span current_block) !! k = Some b
  <-> cache !! k = Some b /\ ~ (b + span < current_block).
Proof.
  rewrite lookup_del_keys.
  destruct (decide (k ∈ keys_to_remove cache span current_block)) as [Hin|Hnin].
  - apply elem_of_keys_to_remove in Hin as (b' & Hlk & Hold).
    split; [discriminate|]. intros [Hb Hfresh]. congruence.
  - split.
    + intros Hlk. split; [exact Hlk|]. intros Hold. apply Hnin.
      apply elem_of_keys_to_remove. exists b. split; assumption.
    + intros [Hlk _]. exact Hlk.
Qed.

Section RequestCacheFacts.

Variable json_dumps : list string -> string.

Variable sha256_hexdigest : string -> string.

Abbreviation key_of := (request_key_of json_dumps sha256_hexdigest).

Abbreviation in_cache := (is_request_in_cache json_dumps sha256_hexdigest).

(** One call, with the snapshot present, in closed form. *)
Lemma is_request_in_cache_run (nucleon : Inference) (w : World) (m : Megastring) :
  megastring (self w) = Some m ->
  let cache := request_cache (self w) in
  let span := miner_blacklist_request_cache_block_span (config (self w)) in
  let cache1 := if decide (is_Some (cache !! key_of nucleon)) then cache
                else <[key_of nucleon := block m]> cache in
  in_cache nucleon w =
    (set_self w (set_request_cache (self w)
                   (del_keys cache1 (keys_to_remove cache1 span (block m)))),
     Returned (bool_decide (is_Some (cache !! key_of nucleon)))).
Proof.
  intros Hm cache span cache1. subst cache span cache1.
  unfold is_request_in_cache. py_unfold. py_red. rewrite Hm. py_red.
  destruct (request_cache (self w) !! key_of nucleon) as [b|] eqn:Hlk.
  - rewrite decide_True by eauto. rewrite bool_decide_eq_true_2 by eauto.
    reflexivity.
  - rewrite decide_False by (intros [? ?]; discriminate).
    rewrite bool_decide_eq_false_2 by (intros [? ?]; discriminate).
    reflexivity.
Qed.

(** C2. With the snapshot present, [is_request_in_cache] reports a
    duplicate exactly when the fingerprint of the payload is already a key of
    the cache; a fingerprint that is absent is inserted with the current
    block; then, hit or miss, every entry with
    [block + request_cache_block_span < current_block] is removed and every
    other entry is kept.  So an entry that is older than the span when a call
    is made is gone after that call, and the next call with that fingerprint
    reports it as new; an entry that is kept makes the next call with its
    fingerprint report a duplicate. *)
Theorem is_request_in_cache_dedup (nucleon : Inference) (w : World) (m : Megastring) :
  megastring (self w) = Some m ->
  let key := key_of nucleon in
  let cache := request_cache (self w) in
  let span := miner_blacklist_request_cache_block_span (config (self w)) in
  let current_block := block m in
  let w' := (in_cache nucleon w).1 in
  let cache' := request_cache (self w') in
  ((in_cache nucleon w).2 = Returned true <-> is_Some (cache !! key))
  /\ ((in_cache nucleon w).2 = Returned false <-> cache !! key = None)
  /\ (forall k b,
        cache' !! k = Some b
        <-> (cache !! k = Some b \/ (cache !! key = None /\ k = key /\ b = current_block))
            /\ ~ (b + span < current_block))
  /\ (cache !! key = None -> 0 <= span -> cache' !! key = Some current_block)
  /\ (forall k b, cache !! k = Some b -> b + span < current_block -> cache' !! k = None)
  /\ w' = set_self w (set_request_cache (self w) cache')
  /\ (forall nucleon2 w2 m2,
        megastring (self w2) = Some m2 -> request_cache (self w2) = cache' ->
        (forall b, cache !! key_of nucleon2 = Some b -> b + span < current_block ->
           (in_cache nucleon2 w2).2 = Returned false)
        /\ (forall b, cache' !! key_of nucleon2 = Some b ->
           (in_cache nucleon2 w2).2 = Returned true)).
Proof.
  intros Hm key cache span current_block w' cache'.
  pose proof (is_request_in_cache_run nucleon w m Hm) as Hrun.
  cbv zeta in Hrun. fold key cache span current_block in Hrun.
  assert (Hentries : forall k b,
            cache' !! k = Some b
            <-> (cache !! k = Some b
                 \/ (cache !! key = None /\ k = key /\ b = current_block))
                /\ ~ (b + span < current_block)).
  { intros k b. subst cache' w'. rewrite Hrun. cbn [fst self set_self
      set_request_cache request_cache]. rewrite lookup_sanitized.
    destruct (decide (is_Some (cache !! key))) as [[b0 Hb0]|Hnone].
    - split; [intros [? ?]; split; auto|].
      intros [[?|(Hc & _)] ?]; [split; assumption | congruence].
    - assert (cache !! key = None) as Hkey
        by (destruct (cache !! key); [exfalso; eauto | reflexivity]).
      rewrite lookup_insert. destruct (decide (key = k)) as [<-|Hne].
      + split.
        * intros [[= <-] ?]. split; [right; auto | assumption].
        * intros [[?|(_ & _ & ->)] ?]; [congruence | split; [reflexivity | assumption]].
      + split; [intros [? ?]; split; auto|].
        intros [[?|(_ & -> & _)] ?]; [split; assumption | congruence]. }
  assert (Hdup : forall n2 w2 m2, megastring (self w2) = Some m2 ->
            (in_cache n2 w2).2
            = Returned (bool_decide (is_Some (request_cache (self w2) !! key_of n2)))).
  { intros n2 w2 m2 Hm2. rewrite (is_request_in_cache_run n2 w2 m2 Hm2). reflexivity. }
  split; [|split; [|split; [exact Hentries|split; [|split; [|split]]]]].
  - rewrite (Hdup nucleon w m Hm). fold cache key. case_bool_decide as Hc.
    + split; [intros _; exact Hc | reflexivity].
    + split; [discriminate | contradiction].
  - rewrite (Hdup nucleon w m Hm). fold cache key. case_bool_decide as Hc.
    + split; [discriminate|]. intros Hnone. rewrite Hnone in Hc.
      destruct Hc; discriminate.
    + split; [|reflexivity]. intros _.
      destruct (cache !! key); [exfalso; eauto | reflexivity].
  - intros Hnone Hspan. apply Hentries. split; [right; auto | lia].
  - intros k b Hlk Hold. destruct (cache' !! k) as [b'|] eqn:Hlk'; [|reflexivity].
    apply Hentries in Hlk' as [[Hb|(Hnone & -> & _)] Hfresh]; congruence.
  - subst cache' w'. rewrite Hrun. reflexivity.
  - intros n2 w2 m2 Hm2 Hcache. rewrite (Hdup n2 w2 m2 Hm2), Hcache. split.
    + intros b Hlk Hold. rewrite bool_decide_eq_false_2; [reflexivity|].
      intros [b' Hlk']. apply Hentries in Hlk' as [[Hb|(Hnone & Hk & _)] Hfresh].
      * rewrite Hlk in Hb. injection Hb as ->. contradiction.
      * rewrite Hk in Hlk. congruence.
    + intros b Hlk. rewrite bool_decide_eq_true_2 by eauto. reflexivity.
Qed.

End RequestCacheFacts.

Lemma is_request_in_cache_dedup_witness :
  let call := is_request_in_cache CacheExample.toy_json_dumps CacheExample.toy_digest
                (Example.request "bob") in
  (call CacheExample.w_stale).2 = Returned true
  /\ request_cache (self (call CacheExample.w_stale).1) !! CacheExample.key = None
  /\ (call (call CacheExample.w_stale).1).2 = Returned false.
Proof.
  intros call.
  pose proof (is_request_in_cache_dedup CacheExample.toy_json_dumps CacheExample.toy_digest
                (Example.request "bob") CacheExample.w_stale CacheExample.late_snapshot
                eq_refl) as (Hhit & _ & _ & _ & Hpurge & Hworld & Hnext).
  split; [apply Hhit; exists 1000; reflexivity|].
  split; [apply (Hpurge CacheExample.key 1000); [reflexivity | vm_compute; reflexivity]|].
  assert (megastring (self (call CacheExample.w_stale).1) = Some CacheExample.late_snapshot)
    as Hm2 by (subst call; rewrite Hworld; reflexivity).
  destruct (Hnext (Example.request "bob") (call CacheExample.w_stale).1
              CacheExample.late_snapshot Hm2 eq_refl) as [Hnew _].
  apply (Hnew 1000); [reflexivity | vm_compute; reflexivity].
Defined.

(** ** The rolling timestamp tracker *)

Lemma py_slice_from_neg {A} (l : list A) (n : Z) :
  0 < n -> py_slice_from l (- n) = drop (length l - Z.to_nat n) l.
Proof.
  intros Hn. unfold py_slice_from.
  replace (Z.ltb (- n) 0) with true by (symmetry; apply Z.ltb_lt; lia).
  f_equal. lia.
Qed.

Lemma py_slice_from_0 {A} (l : list A) : py_slice_from l (- 0) = l.
Proof.
  unfold py_slice_from. change (- 0) with 0. change (Z.ltb 0 0) with false.
  cbv iota. replace (Z.to_nat (Z.min 0 (Z.of_nat (length l)))) with O by lia.
  reflexivity.
Qed.

Lemma record_request_timestamps_run (nucleon : Inference) (w : World) :
  let stamps := <[boson_hotkey nucleon :=
                    recorded_history (self w) (boson_hotkey nucleon) (clock w (ticks w))]>
                  (request_timestamps (self w)) in
  record_request_timestamps nucleon w =
    ({| self := set_request_timestamps (self w) stamps;
        clock := clock w; ticks := S (ticks w) |},
     Returned stamps).
Proof.
  unfold record_request_timestamps, recorded_history. py_unfold. py_red.
  destruct (request_timestamps (self w) !! boson_hotkey nucleon); reflexivity.
Qed.

(** The newest entry of a recorded history is the time just read, for every
    non-negative configured length. *)
Lemma recorded_history_last (s : Miner) (hotkey : string) (now : Q) :
  0 <= miner_priority_len_request_timestamps (config s) ->
  last (recorded_history s hotkey now) = Some now.
Proof.
  intros Hlen. unfold recorded_history.
  set (h := default _ _).
  destruct (Z.eq_dec (miner_priority_len_request_timestamps (config s)) 0) as [->|Hne].
  - rewrite py_slice_from_0. apply last_snoc.
  - rewrite py_slice_from_neg by lia. rewrite length_app. simpl length.
    rewrite drop_app_le by lia. apply last_snoc.
Qed.

(** With a configured length of at least one, a recorded history has exactly
    that length as soon as the history it extends is not longer than it: the
    sentinel list is, and so is every history of exactly that length. *)
Lemma recorded_history_length (s : Miner) (hotkey : string) (now : Q) :
  1 <= miner_priority_len_request_timestamps (config s) ->
  (forall h, request_timestamps s !! hotkey = Some h ->
     Z.of_nat (length h) = miner_priority_len_request_timestamps (config s)) ->
  Z.of_nat (length (recorded_history s hotkey now))
  = miner_priority_len_request_timestamps (config s).
Proof.
  intros Hlen Hfull. unfold recorded_history.
  rewrite py_slice_from_neg by lia.
  rewrite length_drop, length_app. simpl length.
  destruct (request_timestamps s !! hotkey) as [h|] eqn:Hlk; simpl default.
  - specialize (Hfull h eq_refl). lia.
  - unfold py_repeat. rewrite length_replicate. lia.
Qed.

(** Drop-oldest: on a history of the configured length the record operation
    removes the first entry and appends the new one; a missing history starts
    from the sentinel zeros. *)
Lemma recorded_history_shift (s : Miner) (hotkey : string) (now : Q) :
  1 <= miner_priority_len_request_timestamps (config s) ->
  (forall h, request_timestamps s !! hotkey = Some h ->
     Z.of_nat (length h) = miner_priority_len_request_timestamps (config s)) ->
  recorded_history s hotkey now =
    (drop 1 (default (replicate (Z.to_nat (miner_priority_len_request_timestamps (config s))) 0%Q)
                     (request_timestamps s !! hotkey)) ++ [now])%list.
Proof.
  intros Hlen Hfull. unfold recorded_history.
  rewrite py_slice_from_neg by lia. rewrite length_app. simpl length.
  fold (py_repeat 0%Q (miner_priority_len_request_timestamps (config s))).
  set (h := default _ _).
  assert (Z.of_nat (length h) = miner_priority_len_request_timestamps (config s)) as Hh.
  { subst h. destruct (request_timestamps s !! hotkey) as [h|] eqn:Hlk; simpl default.
    - apply Hfull. reflexivity.
    - unfold py_repeat. rewrite length_replicate. lia. }
  replace (length h + 1 - Z.to_nat (miner_priority_len_request_timestamps (config s)))%nat
    with 1%nat by lia.
  apply drop_app_le. lia.
Qed.

(** ** The default priority *)

Lemma record_request_timestamps_world (nucleon : Inference) (w : World) :
  (record_request_timestamps nucleon w).1 = recorded w (boson_hotkey nucleon).
Proof. rewrite record_request_timestamps_run. reflexivity. Qed.

Lemma py_max_Qmax (a b : Q) : py_max a b = Qmax a b.
Proof.
  unfold py_max, Qltb, Qmax, GenericMinMax.gmax. destruct (a ?= b)%Q; reflexivity.
Qed.

Lemma py_index_first (l : list string) (x : string) (uid : nat) :
  l !! uid = Some x -> (forall j, (j < uid)%nat -> l !! j <> Some x) ->
  py_index l x = Returned uid.
Proof.
  intros Hlk Hfirst.
  destruct (py_index_elem l x) as (uid' & Hidx & Hlk' & Hfirst').
  { apply list_elem_of_lookup. eauto. }
  rewrite Hidx. f_equal.
  destruct (Nat.lt_trichotomy uid uid') as [Hlt|[Heq|Hgt]].
  - exfalso. apply (Hfirst' uid Hlt Hlk).
  - congruence.
  - exfalso. apply (Hfirst uid' Hgt Hlk').
Qed.

Lemma default_priority_unregistered (nucleon : Inference) (w : World) :
  (megastring (self w) = None
   \/ exists m, megastring (self w) = Some m /\ boson_hotkey nucleon ∉ hotkeys m) ->
  default_priority nucleon w = (w, Returned (miner_priority_default (config (self w)))).
Proof.
  intros H. unfold default_priority. py_unfold. py_red.
  destruct H as [->|(m & -> & Hreg)]; py_red; [reflexivity|].
  rewrite bool_decide_eq_false_2 by assumption. reflexivity.
Qed.

Section DefaultPriorityRegistered.

Variable nucleon : Inference.

Variable w : World.

Variable m : Megastring.

Variable uid : nat.

Hypothesis Hsnapshot : megastring (self w) = Some m.

Hypothesis Huid : py_index (hotkeys m) (boson_hotkey nucleon) = Returned uid.

Lemma default_priority_registered_start :
  default_priority nucleon w =
    match tensor_getitem (S_ m) uid with
    | Returned stake_amount =>
        match request_timestamps (self w) !! boson_hotkey nucleon with
        | Some history =>
            match py_getitem history (-10) with
            | Returned back =>
                match py_truediv (clock w (ticks w) - back)
                        (miner_priority_time_stake_multiplicate (config (self w)) * 60) with
                | Returned period_scale =>
                    (recorded (tick w) (boson_hotkey nucleon),
                     Returned (py_max period_scale 1 * stake_amount)%Q)
                | Raised e => (tick w, Raised e)
                end
            | Raised e => (tick w, Raised e)
            end
        | None =>
            (recorded w (boson_hotkey nucleon),
             Returned (miner_priority_default (config (self w))))
        end
    | Raised e => (w, Raised e)
    end.
Proof.
  assert (boson_hotkey nucleon ∈ hotkeys m) as Hreg.
  { apply list_elem_of_lookup. exists uid. apply py_index_Returned. exact Huid. }
  unfold default_priority. py_unfold. py_red. rewrite Hsnapshot. py_red.
  rewrite bool_decide_eq_true_2 by assumption. py_red.
  rewrite Hsnapshot. py_red. rewrite Huid. py_red.
  destruct (tensor_getitem (S_ m) uid) as [stake_amount|e]; [|reflexivity].
  py_red.
  destruct (request_timestamps (self w) !! boson_hotkey nucleon) as [history|] eqn:Hh.
  - py_red. destruct (py_getitem history (-10)) as [back|e]; [|reflexivity].
    py_red. destruct (py_truediv _ _) as [period_scale|e]; [|reflexivity].
    py_red. rewrite record_request_timestamps_run. reflexivity.
  - py_red. rewrite record_request_timestamps_run. reflexivity.
Qed.

End DefaultPriorityRegistered.

(** C4. [default_priority] returns the configured default priority when the
    snapshot is absent, when the caller is not among the snapshot's hotkeys,
    and when the caller is registered but has no stored history.  For a
    registered caller with a stored history of the configured length, when
    that length is at least ten and [time_stake_multiplicate] is not zero, it
    returns
    [max((now - history[len - 10]) / (time_stake_multiplicate * 60), 1) * S[uid]],
    [uid] being the first position of the caller in the hotkey sequence and
    [now] the time read by the call. *)
Theorem default_priority_value (nucleon : Inference) (w : World) :
  let s := self w in
  let cfg := config s in
  let hotkey := boson_hotkey nucleon in
  let now := clock w (ticks w) in
  let len := miner_priority_len_request_timestamps cfg in
  (megastring s = None ->
     (default_priority nucleon w).2 = Returned (miner_priority_default cfg))
  /\ (forall m, megastring s = Some m -> hotkey ∉ hotkeys m ->
     (default_priority nucleon w).2 = Returned (miner_priority_default cfg))
  /\ (forall m uid stake,
        megastring s = Some m ->
        hotkeys m !! uid = Some hotkey ->
        (forall j, (j < uid)%nat -> hotkeys m !! j <> Some hotkey) ->
        S_ m !! uid = Some stake ->
        (request_timestamps s !! hotkey = None ->
           (default_priority nucleon w).2 = Returned (miner_priority_default cfg))
        /\ (forall history back,
              request_timestamps s !! hotkey = Some history ->
              Z.of_nat (length history) = len ->
              10 <= len ->
              history !! Z.to_nat (len - 10) = Some back ->
              miner_priority_time_stake_multiplicate cfg <> 0 ->
              (default_priority nucleon w).2 =
                Returned (Qmax ((now - back)
                                / inject_Z (miner_priority_time_stake_multiplicate cfg * 60)) 1
                          * stake)%Q)).
Proof.
  intros s cfg hotkey now len. subst s cfg hotkey now len.
  split; [|split].
  - intros Hnone. rewrite default_priority_unregistered by (left; exact Hnone).
    reflexivity.
  - intros m Hm Hreg. rewrite default_priority_unregistered by (right; eauto).
    reflexivity.
  - intros m uid stake Hm Hlk Hfirst Hstake.
    pose proof (py_index_first _ _ _ Hlk Hfirst) as Huid.
    rewrite (default_priority_registered_start nucleon w m uid Hm Huid).
    unfold tensor_getitem. rewrite Hstake. split.
    + intros ->. reflexivity.
    + intros history back -> Hlen H10 Hback Hperiod.
      pose proof (py_getitem_neg history 10 ltac:(lia)) as Hget.
      change (Z.opp 10) with (Zneg 10) in Hget. py_red. rewrite Hget.
      replace (Z.leb 10 (Z.of_nat (length history))) with true
        by (symmetry; apply Z.leb_le; lia).
      rewrite Hlen, Hback. unfold py_truediv.
      replace (Z.eqb (miner_priority_time_stake_multiplicate (config (self w)) * 60) 0)
        with false by (symmetry; apply Z.eqb_neq; lia).
      rewrite py_max_Qmax. reflexivity.
Qed.

Lemma default_priority_value_witness :
  (default_priority (Example.request "bob") (Example.world Example.cfg None)).2
    = Returned 0%Q
  /\ (default_priority (Example.request "dave") Example.w_default).2 = Returned 0%Q
  /\ (default_priority (Example.request "bob") Example.w_default).2 = Returned 0%Q
  /\ (default_priority (Example.request "bob")
        (default_priority (Example.request "bob") Example.w_default).1).2
     = Returned (Qmax ((Example.seconds 1 - 0) / inject_Z (10 * 60)) 1 * 10)%Q.
Proof.
  pose proof (default_priority_value (Example.request "bob")
                (Example.world Example.cfg None)) as (H1 & _).
  pose proof (default_priority_value (Example.request "dave") Example.w_default)
    as (_ & H2 & _).
  pose proof (default_priority_value (Example.request "bob") Example.w_default)
    as (_ & _ & H3).
  pose proof (default_priority_value (Example.request "bob")
                (default_priority (Example.request "bob") Example.w_default).1)
    as (_ & _ & H4).
  split; [apply H1; reflexivity|].
  split; [apply (H2 Example.snapshot); [reflexivity | by_compute]|].
  assert (forall j : nat, (j < 0)%nat ->
            hotkeys Example.snapshot !! j <> Some (boson_hotkey (Example.request "bob")))
    as Hfirst by (intros j Hj; lia).
  destruct (H3 Example.snapshot 0%nat 10%Q eq_refl eq_refl Hfirst eq_refl) as [H3a _].
  destruct (H4 Example.snapshot 0%nat 10%Q eq_refl eq_refl Hfirst eq_refl) as [_ H4b].
  split; [apply H3a; reflexivity|].
  apply (H4b (replicate 49 0%Q ++ [Example.seconds 0])%list 0%Q);
    [vm_compute; reflexivity | reflexivity | vm_compute; discriminate
     | reflexivity | vm_compute; discriminate].
Defined.

(** C4 as stated fails without its conditions on the configuration.  With
    a configured history length of five, a registered caller with a history
    (of five entries) is not scored: [history[-10]] is out of bounds and
    [default_priority] raises [IndexError] instead of returning
    [max(scale, 1) * stake].  With a [time_stake_multiplicate] of zero the
    division raises [ZeroDivisionError]. *)
Lemma default_priority_value_counterexample :
  let w5 := (priority not_implemented (Example.request "bob")
               (Example.world (Example.with_len Example.cfg 5)
                  (Some Example.snapshot))).1 in
  let w10 := EdgeExample.with_history EdgeExample.cfg_zero_period Example.snapshot
               (replicate 10 0%Q) in
  megastring (self w5) = Some Example.snapshot
  /\ py_index (hotkeys Example.snapshot) "bob" = Returned 0%nat
  /\ S_ Example.snapshot !! 0%nat = Some 10%Q
  /\ request_timestamps (self w5) !! "bob" = Some [0; 0; 0; 0; Example.seconds 0]%Q
  /\ (default_priority (Example.request "bob") w5).2 = Raised IndexError
  /\ request_timestamps (self w10) !! "bob" = Some (replicate 10 0%Q)
  /\ (default_priority (Example.request "bob") w10).2 = Raised ZeroDivisionError.
Proof. repeat split; vm_compute; reflexivity. Qed.

Lemma recorded_lookup (w : World) (hotkey : string) :
  request_timestamps (self (recorded w hotkey)) !! hotkey
  = Some (recorded_history (self w) hotkey (clock w (ticks w))).
Proof. unfold recorded. cbn [self set_request_timestamps request_timestamps]. apply lookup_insert_eq. Qed.

(** C5, as the code has it.  Whenever [default_priority] returns a score for a
    caller that is registered in the present snapshot -- with or without a
    prior history, the configured history length being non-negative -- the
    caller has a history afterwards whose newest entry is the last time the
    call read from the clock.  For a caller that is not registered, or when the
    snapshot is absent, the call returns before the tracker: nothing is
    recorded and the world is unchanged. *)
Theorem default_priority_records (nucleon : Inference) (w : World) :
  let hotkey := boson_hotkey nucleon in
  let w' := (default_priority nucleon w).1 in
  (forall m p,
     megastring (self w) = Some m -> hotkey ∈ hotkeys m ->
     0 <= miner_priority_len_request_timestamps (config (self w)) ->
     (default_priority nucleon w).2 = Returned p ->
     (ticks w < ticks w')%nat
     /\ exists history,
          request_timestamps (self w') !! hotkey = Some history
          /\ last history = Some (clock w (ticks w' - 1)%nat))
  /\ ((megastring (self w) = None
       \/ exists m, megastring (self w) = Some m /\ hotkey ∉ hotkeys m) ->
      default_priority nucleon w = (w, Returned (miner_priority_default (config (self w))))).
Proof.
  intros hotkey w'. subst hotkey w'. split; [|apply default_priority_unregistered].
  intros m p Hm Hreg Hlen.
  destruct (py_index_elem _ _ Hreg) as (uid & Huid & _).
  rewrite (default_priority_registered_start nucleon w m uid Hm Huid).
  destruct (tensor_getitem (S_ m) uid) as [stake_amount|e]; [|discriminate].
  destruct (request_timestamps (self w) !! boson_hotkey nucleon) as [history|].
  - destruct (py_getitem history (-10)) as [back|e]; [|discriminate].
    destruct (py_truediv _ _) as [period_scale|e]; [|discriminate].
    intros _. cbn [fst]. split; [simpl; lia|].
    eexists. split; [apply recorded_lookup|].
    rewrite recorded_history_last by exact Hlen.
    simpl. rewrite ?Nat.sub_0_r. reflexivity.
  - intros _. cbn [fst]. split; [simpl; lia|].
    eexists. split; [apply recorded_lookup|].
    rewrite recorded_history_last by exact Hlen.
    simpl. rewrite ?Nat.sub_0_r. reflexivity.
Qed.

Lemma default_priority_records_witness :
  exists history,
    request_timestamps (self (default_priority (Example.request "bob") Example.w_default).1)
      !! "bob" = Some history
    /\ last history = Some (Example.seconds 0).
Proof.
  destruct (default_priority_records (Example.request "bob") Example.w_default) as [H _].
  destruct (H Example.snapshot 0%Q
              eq_refl ltac:(by_compute) ltac:(vm_compute; discriminate)
              ltac:(vm_compute; reflexivity))
    as (_ & history & Hlk & Hlast).
  exists history. split; [exact Hlk | exact Hlast].
Defined.

(** C5 as stated fails for a caller that is not registered: the scorer
    returns the default priority and the caller has no history afterwards. *)
Lemma default_priority_records_counterexample :
  (default_priority (Example.request "dave") Example.w_default).2 = Returned 0%Q
  /\ request_timestamps
       (self (default_priority (Example.request "dave") Example.w_default).1) !! "dave"
     = None.
Proof. split; vm_compute; reflexivity. Qed.

(** ** The history invariant *)

Lemma histories_full_same (w w' : World) :
  same_histories w w' -> histories_full w -> histories_full w'.
Proof.
  intros [Hc Ht] Hfull hotkey history. rewrite Hc, Ht. apply Hfull.
Qed.

Lemma histories_full_recorded (w : World) (hotkey : string) :
  1 <= miner_priority_len_request_timestamps (config (self w)) ->
  histories_full w -> histories_full (recorded w hotkey).
Proof.
  intros Hlen Hfull k history. unfold recorded.
  cbn [self set_request_timestamps request_timestamps config].
  rewrite lookup_insert. destruct (decide (hotkey = k)) as [<-|Hne].
  - intros [= <-]. apply recorded_history_length; [exact Hlen|].
    intros h Hh. apply (Hfull hotkey h Hh).
  - apply Hfull.
Qed.

Lemma default_blacklist_world (nucleon : Inference) (w : World) :
  (default_blacklist nucleon w).1 = w \/ (default_blacklist nucleon w).1 = tick w.
Proof.
  unfold default_blacklist. py_unfold. py_red.
  repeat match goal with
         | |- context [if ?b then _ else _] => destruct b; py_red
         | |- context [match ?o with Some _ => _ | None => _ end] => destruct o; py_red
         | |- context [match ?o with Returned _ => _ | Raised _ => _ end] =>
             destruct o; py_red
         end; auto.
Qed.

(** The world [default_priority] leaves: untouched, one clock reading
    consumed, or a record operation performed (after zero or one reading). *)
Lemma default_priority_world (nucleon : Inference) (w : World) :
  let w' := (default_priority nucleon w).1 in
  w' = w \/ w' = tick w
  \/ w' = recorded w (boson_hotkey nucleon)
  \/ w' = recorded (tick w) (boson_hotkey nucleon).
Proof.
  cbv zeta.
  destruct (megastring (self w)) as [m|] eqn:Hm.
  - destruct (decide (boson_hotkey nucleon ∈ hotkeys m)) as [Hreg|Hreg].
    + destruct (py_index_elem _ _ Hreg) as (uid & Huid & _).
      rewrite (default_priority_registered_start nucleon w m uid Hm Huid).
      destruct (tensor_getitem (S_ m) uid); [|auto].
      destruct (request_timestamps (self w) !! boson_hotkey nucleon); [|auto].
      destruct (py_getitem _ _); [|auto].
      destruct (py_truediv _ _); auto.
    + rewrite default_priority_unregistered by (right; eauto). auto.
  - rewrite default_priority_unregistered by (left; exact Hm). auto.
Qed.

Lemma histories_full_default_priority (nucleon : Inference) (w : World) :
  1 <= miner_priority_len_request_timestamps (config (self w)) ->
  histories_full w -> histories_full (default_priority nucleon w).1.
Proof.
  intros Hlen Hfull.
  destruct (default_priority_world nucleon w) as [-> | [-> | [-> | ->]]].
  - exact Hfull.
  - exact Hfull.
  - apply histories_full_recorded; assumption.
  - apply (histories_full_recorded (tick w)); assumption.
Qed.

Lemma config_default_priority (nucleon : Inference) (w : World) :
  config (self (default_priority nucleon w).1) = config (self w).
Proof.
  destruct (default_priority_world nucleon w) as [-> | [-> | [-> | ->]]]; reflexivity.
Qed.

(** ** Raising is independent of the clock *)

Ltac py_cases :=
  repeat match goal with
         | |- context [if ?b then _ else _] => destruct b eqn:?; py_red
         | |- context [match ?o with Some _ => _ | None => _ end] => destruct o eqn:?; py_red
         | |- context [match ?o with Returned _ => _ | Raised _ => _ end] =>
             destruct o eqn:?; py_red
         end.

Lemma default_blacklist_self (nucleon : Inference) (w : World) :
  self (default_blacklist nucleon w).1 = self w.
Proof.
  destruct (default_blacklist_world nucleon w) as [-> | ->]; reflexivity.
Qed.

(** An exception raised by [default_blacklist] depends on the miner only, not
    on the clock or on the number of readings already made. *)
Lemma default_blacklist_raise_stable (nucleon : Inference) (w w2 : World) (e : exn) :
  (default_blacklist nucleon w).2 = Raised e ->
  self w2 = self w ->
  (default_blacklist nucleon w2).2 = Raised e.
Proof.
  intros H Hs. revert H. unfold default_blacklist. py_unfold. py_red.
  repeat (py_red; rewrite ?Hs;
          repeat match goal with
                 | E : ?x = _ |- context [?x] => rewrite E
                 end;
          match goal with
          | |- context [if ?b then _ else _] => destruct b eqn:?
          | |- context [match ?o with Some _ => _ | None => _ end] => destruct o eqn:?
          | |- context [match ?o with Returned _ => _ | Raised _ => _ end] =>
              destruct o eqn:?
          end);
    py_red; cbn [snd]; intros H; first [discriminate H | exact H].
Qed.

Lemma default_priority_raise (nucleon : Inference) (w : World) (e : exn) :
  (default_priority nucleon w).2 = Raised e ->
  self (default_priority nucleon w).1 = self w
  /\ forall w2, self w2 = self w -> (default_priority nucleon w2).2 = Raised e.
Proof.
  destruct (megastring (self w)) as [m|] eqn:Hm.
  - destruct (decide (boson_hotkey nucleon ∈ hotkeys m)) as [Hreg|Hreg].
    + destruct (py_index_elem _ _ Hreg) as (uid & Huid & _).
      rewrite (default_priority_registered_start nucleon w m uid Hm Huid).
      intros H. split.
      * revert H. py_cases; cbn [fst snd]; try discriminate; reflexivity.
      * intros w2 Hs. rewrite <- Hs in Hm.
        rewrite (default_priority_registered_start nucleon w2 m uid Hm Huid).
        rewrite Hs. revert H. clear. unfold py_truediv.
        py_cases; cbn [fst snd]; intros H; first [discriminate H | exact H].
    + rewrite default_priority_unregistered by (right; eauto). discriminate.
  - rewrite default_priority_unregistered by (left; exact Hm). discriminate.
Qed.

(** ** The override dispatch *)

Section Dispatch.

Variable float_of_str : string -> option Q.

Lemma blacklist_finally_None (nucleon : Inference) (reason : pyval) (w1 : World) :
  blacklist_finally float_of_str nucleon PyNone reason w1
  = ((default_blacklist nucleon w1).1,
     outcome_map admission_result (default_blacklist nucleon w1).2).
Proof.
  unfold blacklist_finally. py_unfold. py_red. cbn [eq_None]. py_red.
  destruct (default_blacklist nucleon w1) as [w2 [[b r]|e]]; py_red; [|reflexivity].
  cbn [truthy]. destruct b, (wandb_on (config (self w2))); reflexivity.
Qed.

Lemma blacklist_finally_admission (nucleon : Inference) (br : bool * string) (w2 : World) :
  blacklist_finally float_of_str nucleon (PyBool br.1) (PyStr br.2) w2
  = (w2, Returned (admission_result br)).
Proof.
  unfold blacklist_finally. py_unfold. py_red. cbn [eq_None truthy]. py_red.
  destruct br as [b r]. cbn [fst snd].
  destruct b, (wandb_on (config (self w2))); reflexivity.
Qed.

(** The dispatch when the [except] clause ran the default policy at [w1]. *)
Lemma blacklist_after_except (nucleon : Inference) (w1 : World) :
  let '(w2, (d, r)) := blacklist_except nucleon w1 in
  (blacklist_finally float_of_str nucleon d r w2).2
  = outcome_map admission_result (default_blacklist nucleon w1).2
  /\ (returns (default_blacklist nucleon w1).2 = true ->
      (blacklist_finally float_of_str nucleon d r w2).1 = (default_blacklist nucleon w1).1).
Proof.
  unfold blacklist_except.
  destruct (default_blacklist nucleon w1) as [w2 [br|e]] eqn:Hrun.
  - destruct br as [b r].
    pose proof (blacklist_finally_admission nucleon (b, r) w2) as Hfin.
    cbn [fst snd] in Hfin. rewrite Hfin. split; reflexivity.
  - rewrite blacklist_finally_None. cbn [fst snd outcome_map]. split; [|discriminate].
    assert (self w2 = self w1) as Hs.
    { pose proof (default_blacklist_self nucleon w1) as H. rewrite Hrun in H. exact H. }
    rewrite (default_blacklist_raise_stable nucleon w1 w2 e); [reflexivity| |exact Hs].
    rewrite Hrun. reflexivity.
Qed.

Lemma blacklist_falls_back (func : Inference -> M pyval) (nucleon : Inference) (w : World) :
  falls_back_admission (func nucleon w).2 ->
  (blacklist float_of_str func nucleon w).2
  = outcome_map admission_result (default_blacklist nucleon (func nucleon w).1).2
  /\ (returns (default_blacklist nucleon (func nucleon w).1).2 = true ->
      (blacklist float_of_str func nucleon w).1
      = (default_blacklist nucleon (func nucleon w).1).1).
Proof.
  unfold blacklist, blacklist_try.
  destruct (func nucleon w) as [w1 [v|e]]; cbn [fst snd falls_back_admission].
  - pose proof (blacklist_after_except nucleon w1) as Hexc.
    intros [-> | [-> | [-> | ->]]]; cbn [hasattr_len unpack2 chars is_Exception].
    + rewrite blacklist_finally_None. split; reflexivity.
    + destruct (blacklist_except nucleon w1) as [w2 [d r]]. exact Hexc.
    + destruct (blacklist_except nucleon w1) as [w2 [d r]]. exact Hexc.
    + destruct (blacklist_except nucleon w1) as [w2 [d r]]. exact Hexc.
  - intros _. pose proof (blacklist_after_except nucleon w1) as Hexc.
    destruct e; cbn [is_Exception];
      try (destruct (blacklist_except nucleon w1) as [w2 [d r]]; exact Hexc).
    rewrite blacklist_finally_None. split; reflexivity.
Qed.

End Dispatch.

Lemma priority_falls_back (func : Inference -> M pyval) (nucleon : Inference) (w : World) :
  falls_back_priority (func nucleon w).2 ->
  (priority func nucleon w).2
  = outcome_map PyFloat (default_priority nucleon (func nucleon w).1).2
  /\ (returns (default_priority nucleon (func nucleon w).1).2 = true ->
      (priority func nucleon w).1 = (default_priority nucleon (func nucleon w).1).1).
Proof.
  unfold priority.
  assert (forall w1,
            (let '(w2, o) := default_priority nucleon w1 in
             (w2, outcome_map PyFloat o))
            = (q <- default_priority nucleon ;; ret (PyFloat q)) w1) as Hfin.
  { intros w1. py_unfold. destruct (default_priority nucleon w1) as [w2 [q|e]]; reflexivity. }
  destruct (func nucleon w) as [w1 [v|e]]; cbn [fst snd falls_back_priority].
  - intros ->. cbn [eq_None]. rewrite <- Hfin.
    destruct (default_priority nucleon w1) as [w2 o]. split; reflexivity.
  - intros _.
    assert ((let '(w2, o) := default_priority nucleon w1 in (w2, outcome_map PyFloat o)).2
            = outcome_map PyFloat (default_priority nucleon w1).2
            /\ (let '(w2, o) := default_priority nucleon w1 in (w2, outcome_map PyFloat o)).1
               = (default_priority nucleon w1).1) as [Hnone2 Hnone1]
      by (destruct (default_priority nucleon w1) as [w2 o]; split; reflexivity).
    destruct e; cbn [eq_None]; try (rewrite <- Hfin, Hnone2, Hnone1; split; reflexivity).
    (* NotImplementedError: the handler runs the default scorer *)
    destruct (default_priority nucleon w1) as [w2 [q|e]] eqn:Hrun; cbn [eq_None fst snd].
    + split; reflexivity.
    + split; [|discriminate]. rewrite <- Hfin.
      destruct (default_priority_raise nucleon w1 e) as [Hs Hstable];
        [rewrite Hrun; reflexivity|].
      rewrite Hrun in Hs. cbn [fst] in Hs.
      specialize (Hstable w2 Hs).
      destruct (default_priority nucleon w2) as [w3 o]. cbn [snd] in *.
      rewrite Hstable. reflexivity.
Qed.

(** C6. When the custom admission hook raises -- [NotImplementedError] or
    anything else --, or returns [None] or an empty sequence, the dispatch
    gives exactly what [default_blacklist] gives in the world the hook left:
    the same returned pair (and then the same world), or the same raise.  The
    same holds for the priority dispatch and [default_priority] when the hook
    raises or returns [None].  In particular a hook that raises on every call
    and leaves the world alone yields, call for call over any sequence of
    requests on which the default policy returns, the results and the final
    world of the default policy. *)
Theorem override_fallback (float_of_str : string -> option Q)
  (func : Inference -> M pyval) (nucleon : Inference) (w : World) :
  let w1 := (func nucleon w).1 in
  (falls_back_admission (func nucleon w).2 ->
     (blacklist float_of_str func nucleon w).2
     = outcome_map admission_result (default_blacklist nucleon w1).2
     /\ (forall br, (default_blacklist nucleon w1).2 = Returned br ->
           blacklist float_of_str func nucleon w
           = ((default_blacklist nucleon w1).1, Returned (PyBool br.1, PyStr br.2))))
  /\ (falls_back_priority (func nucleon w).2 ->
     (priority func nucleon w).2 = outcome_map PyFloat (default_priority nucleon w1).2
     /\ (forall q, (default_priority nucleon w1).2 = Returned q ->
           priority func nucleon w = ((default_priority nucleon w1).1, Returned (PyFloat q))))
  /\ ((forall n w0, exists e, func n w0 = (w0, Raised e)) ->
      forall requests,
        Forall (fun o => returns o = true) (serve default_blacklist requests w).1 ->
        serve (blacklist float_of_str func) requests w
        = (map (outcome_map admission_result) (serve default_blacklist requests w).1,
           (serve default_blacklist requests w).2)).
Proof.
  cbv zeta. split; [|split].
  - intros Hfb.
    destruct (blacklist_falls_back float_of_str func nucleon w Hfb) as [Hres Hworld].
    split; [exact Hres|]. intros br Hbr.
    rewrite (surjective_pairing (blacklist float_of_str func nucleon w)).
    rewrite Hres, Hworld by (rewrite Hbr; reflexivity). rewrite Hbr. reflexivity.
  - intros Hfb.
    destruct (priority_falls_back func nucleon w Hfb) as [Hres Hworld].
    split; [exact Hres|]. intros q Hq.
    rewrite (surjective_pairing (priority func nucleon w)).
    rewrite Hres, Hworld by (rewrite Hq; reflexivity). rewrite Hq. reflexivity.
  - intros Hraise requests. revert w.
    induction requests as [|n rest IH]; intros w0 Hret; [reflexivity|].
    cbn [serve] in *.
    destruct (Hraise n w0) as [e He].
    destruct (blacklist_falls_back float_of_str func n w0) as [Hres Hworld];
      [rewrite He; exact I|].
    rewrite He in Hres, Hworld. cbn [fst] in Hres, Hworld.
    destruct (default_blacklist n w0) as [w1 o] eqn:Hd. cbn [fst snd] in *.
    destruct (serve default_blacklist rest w1) as [os w2] eqn:Hs. cbn [fst snd] in *.
    apply Forall_cons in Hret as [Ho Hos].
    specialize (Hworld Ho).
    rewrite (surjective_pairing (blacklist float_of_str func n w0)).
    rewrite Hres, Hworld.
    specialize (IH w1). rewrite Hs in IH. cbn [fst snd] in IH.
    rewrite (IH Hos). reflexivity.
Qed.


Lemma override_fallback_witness :
  blacklist DispatchExample.no_float not_implemented (Example.request "mallory")
    Example.w_default
  = (Example.w_default, Returned (PyBool true, PyStr "blacklisted hotkey"))
  /\ priority DispatchExample.broken (Example.request "dave") Example.w_default
     = (Example.w_default, Returned (PyFloat 0))
  /\ serve (blacklist DispatchExample.no_float DispatchExample.broken)
       [Example.request "alice"; Example.request "mallory"] Example.w_default
     = ([Returned (PyBool false, PyStr "whitelisted hotkey");
         Returned (PyBool true, PyStr "blacklisted hotkey")],
        Example.w_default).
Proof.
  destruct (override_fallback DispatchExample.no_float not_implemented
              (Example.request "mallory") Example.w_default) as (Hadmit & _ & _).
  destruct (override_fallback DispatchExample.no_float DispatchExample.broken
              (Example.request "dave") Example.w_default) as (_ & Hscore & Hserve).
  split; [|split].
  - destruct (Hadmit I) as [_ H]. apply (H (true, "blacklisted hotkey")).
    vm_compute. reflexivity.
  - destruct (Hscore I) as [_ H]. apply (H 0%Q). vm_compute. reflexivity.
  - apply (Hserve (fun n w0 => ex_intro _ ValueError eq_refl)
             [Example.request "alice"; Example.request "mallory"]).
    repeat constructor.
Defined.

(** C6 as stated fails in its last clause: the fallback does not produce a
    result in all cases.  A hook that raises hands the decision to the
    default policy, and the dispatch raises whenever the default policy
    does: [blacklist] raises [AttributeError] when validator permits are
    required and the snapshot is absent, and [priority] raises [IndexError]
    for a registered caller whose history has five entries.  And an empty
    list returned by a priority hook is no fallback case: [priority]
    returns it as it is, where the default scorer returns a number. *)
Lemma override_fallback_counterexample :
  let w5 := (priority not_implemented (Example.request "bob")
               (Example.world (Example.with_len Example.cfg 5)
                  (Some Example.snapshot))).1 in
  (DispatchExample.broken (Example.request "bob") DispatchExample.w_unsynced).2
    = Raised ValueError
  /\ (blacklist DispatchExample.no_float DispatchExample.broken (Example.request "bob")
        DispatchExample.w_unsynced).2 = Raised AttributeError
  /\ (priority DispatchExample.broken (Example.request "bob") w5).2 = Raised IndexError
  /\ (priority EdgeExample.empty_list (Example.request "bob") Example.w_default).2
     = Returned (PyList [])
  /\ (default_priority (Example.request "bob") Example.w_default).2 = Returned 0%Q.
Proof. repeat split; vm_compute; reflexivity. Qed.


(** C3 fails on the code.  With no snapshot and validator permits required,
    the permit rule reads [self.megastring.hotkeys] of [None]: the default
    policy raises [AttributeError], the [except] clause of the dispatch calls
    it and it raises again, the [finally] clause calls it once more, and that
    last raise reaches the caller.  The registration rule before it skips the
    absent snapshot, and the priority entry point returns the default
    priority. *)
Theorem blacklist_unsynced_raises :
  (default_blacklist (Example.request "bob") DispatchExample.w_unsynced).2
    = Raised AttributeError
  /\ (blacklist DispatchExample.no_float not_implemented (Example.request "bob")
        DispatchExample.w_unsynced).2 = Raised AttributeError
  /\ (default_blacklist (Example.request "bob") (Example.world Example.cfg None)).2
     = Returned (false, "passed blacklist")
  /\ (priority not_implemented (Example.request "bob") DispatchExample.w_unsynced).2
     = Returned (PyFloat 0).
Proof. repeat split; vm_compute; reflexivity. Qed.

(** ** Reachable worlds *)

Section ReachableFacts.

Variable json_dumps : list string -> string.
Variable sha256_hexdigest : string -> string.
Variable float_of_str : string -> option Q.

Lemma blacklist_finally_self (nucleon : Inference) (d r : pyval) (w : World) :
  self (blacklist_finally float_of_str nucleon d r w).1 = self w.
Proof.
  unfold blacklist_finally. py_unfold. py_red.
  pose proof (default_blacklist_self nucleon w) as Hs.
  destruct (eq_None d); py_red.
  - destruct (default_blacklist nucleon w) as [w2 [br|e]]; cbn [fst] in Hs; py_red;
      [|exact Hs].
    destruct (truthy _ && _); py_red; [|exact Hs].
    destruct (py_float _ _); exact Hs.
  - destruct (truthy _ && _); py_red; [|reflexivity].
    destruct (py_float _ _); reflexivity.
Qed.

Lemma blacklist_not_implemented_self (nucleon : Inference) (w : World) :
  self (blacklist float_of_str not_implemented nucleon w).1 = self w.
Proof.
  unfold blacklist, blacklist_try, not_implemented, raise, blacklist_except.
  pose proof (default_blacklist_self nucleon w) as Hs.
  destruct (default_blacklist nucleon w) as [w2 [[b r]|e]]; cbn [fst] in Hs;
    rewrite blacklist_finally_self; exact Hs.
Qed.

Lemma priority_not_implemented_world (nucleon : Inference) (w : World) :
  (priority not_implemented nucleon w).1 = (default_priority nucleon w).1
  \/ (priority not_implemented nucleon w).1
     = (default_priority nucleon (default_priority nucleon w).1).1.
Proof.
  unfold priority, not_implemented, raise.
  destruct (default_priority nucleon w) as [w2 [q|e]]; cbn [eq_None fst]; py_unfold.
  - left. reflexivity.
  - right. destruct (default_priority nucleon w2) as [w3 [q|e']]; reflexivity.
Qed.

Lemma is_request_in_cache_same_histories (nucleon : Inference) (w : World) :
  same_histories w (is_request_in_cache json_dumps sha256_hexdigest nucleon w).1.
Proof.
  destruct (megastring (self w)) as [m|] eqn:Hm.
  - rewrite (is_request_in_cache_run _ _ nucleon w m Hm). split; reflexivity.
  - unfold is_request_in_cache. py_unfold. py_red. rewrite Hm. split; reflexivity.
Qed.

Lemma step_invariant (w w' : World) :
  step json_dumps sha256_hexdigest float_of_str w w' ->
  config (self w') = config (self w)
  /\ (1 <= miner_priority_len_request_timestamps (config (self w)) ->
      histories_full w -> histories_full w').
Proof.
  intros Hstep. destruct Hstep as [n w|n w|n w|n w|m w].
  - rewrite blacklist_not_implemented_self. split; [reflexivity|].
    intros _ Hfull k h. rewrite blacklist_not_implemented_self. apply Hfull.
  - destruct (priority_not_implemented_world n w) as [-> | ->].
    + split; [apply config_default_priority|].
      apply histories_full_default_priority.
    + rewrite !config_default_priority. split; [reflexivity|].
      intros Hlen Hfull. apply histories_full_default_priority.
      * rewrite config_default_priority. exact Hlen.
      * apply histories_full_default_priority; assumption.
  - destruct (is_request_in_cache_same_histories n w) as [Hc Ht].
    split; [exact Hc|]. intros _. apply histories_full_same. split; assumption.
  - rewrite record_request_timestamps_world. split; [reflexivity|].
    apply histories_full_recorded.
  - split; [reflexivity|]. intros _ Hfull. exact Hfull.
Qed.

Lemma reachable_invariant (cfg : Config) (w : World) :
  reachable json_dumps sha256_hexdigest float_of_str cfg w ->
  config (self w) = cfg
  /\ (1 <= miner_priority_len_request_timestamps cfg -> histories_full w).
Proof.
  induction 1 as [m clk|w w' Hreach [IHc IHfull] Hstep].
  - split; [reflexivity|]. intros _ k h Hlk. cbn in Hlk.
    rewrite lookup_empty in Hlk. discriminate.
  - destruct (step_invariant w w' Hstep) as [Hc Hfull].
    split; [congruence|]. intros Hlen. apply Hfull; [rewrite IHc; exact Hlen|].
    apply IHfull. exact Hlen.
Qed.

End ReachableFacts.

(** C7, as the code has it.  With a configured length of at least one,
    every history of every reachable world has exactly the configured length:
    a history is created from that many sentinel zeros, and each record
    operation appends the time read and drops the oldest entry.  The lookback
    [history[0]] is then in bounds, and the lookback [history[-10]] is in
    bounds, and is [history[len - 10]], when the configured length is at
    least ten. *)
Theorem history_length_invariant
  (json_dumps : list string -> string) (sha256_hexdigest : string -> string)
  (float_of_str : string -> option Q) (cfg : Config) (w : World) :
  reachable json_dumps sha256_hexdigest float_of_str cfg w ->
  1 <= miner_priority_len_request_timestamps cfg ->
  let len := miner_priority_len_request_timestamps cfg in
  (forall hotkey history,
     request_timestamps (self w) !! hotkey = Some history ->
     Z.of_nat (length history) = len
     /\ returns (py_getitem history 0) = true
     /\ (10 <= len ->
         returns (py_getitem history (-10)) = true
         /\ py_getitem history (-10) = py_getitem history (len - 10)))
  /\ (forall nucleon,
        request_timestamps (self (record_request_timestamps nucleon w).1)
          !! boson_hotkey nucleon
        = Some (drop 1 (default (replicate (Z.to_nat len) 0%Q)
                          (request_timestamps (self w) !! boson_hotkey nucleon))
                ++ [clock w (ticks w)])%list).
Proof.
  intros Hreach Hlen len.
  destruct (reachable_invariant _ _ _ cfg w Hreach) as [Hcfg Hfull].
  specialize (Hfull Hlen). subst len. split.
  - intros hotkey history Hlk.
    pose proof (Hfull hotkey history Hlk) as Hlength. rewrite Hcfg in Hlength.
    split; [exact Hlength|]. split.
    + destruct history as [|t history]; [simpl in Hlength; lia|].
      rewrite py_getitem_0. reflexivity.
    + intros H10.
      pose proof (py_getitem_neg history 10 ltac:(lia)) as Hget.
      change (Z.opp 10) with (Zneg 10) in Hget. rewrite Hget.
      replace (Z.leb 10 (Z.of_nat (length history))) with true
        by (symmetry; apply Z.leb_le; lia).
      destruct (lookup_lt_is_Some_2 history (Z.to_nat (Z.of_nat (length history) - 10)))
        as [back Hback]; [lia|].
      rewrite Hback. split; [reflexivity|].
      unfold py_getitem.
      replace (Z.ltb (miner_priority_len_request_timestamps cfg - 10) 0) with false
        by (symmetry; apply Z.ltb_ge; lia).
      replace (Z.leb 0 (miner_priority_len_request_timestamps cfg - 10)
               && Z.ltb (miner_priority_len_request_timestamps cfg - 10)
                    (Z.of_nat (length history))) with true.
      * rewrite <- Hlength, Hback. reflexivity.
      * symmetry. apply andb_true_iff. split; [apply Z.leb_le | apply Z.ltb_lt]; lia.
  - intros nucleon. rewrite record_request_timestamps_world, recorded_lookup.
    rewrite <- Hcfg. f_equal. apply recorded_history_shift.
    + rewrite Hcfg. exact Hlen.
    + intros h Hh. apply (Hfull _ _ Hh).
Qed.

Lemma history_length_invariant_witness :
  request_timestamps
    (self (record_request_timestamps (Example.request "bob")
             (priority not_implemented (Example.request "bob") Example.w_default).1).1)
    !! "bob"
  = Some (drop 1 (default (replicate (Z.to_nat 50) 0%Q)
                    (request_timestamps
                       (self (priority not_implemented (Example.request "bob")
                                Example.w_default).1) !! "bob"))
          ++ [Example.seconds 1])%list.
Proof.
  assert (reachable CacheExample.toy_json_dumps CacheExample.toy_digest
            DispatchExample.no_float Example.cfg
            (priority not_implemented (Example.request "bob") Example.w_default).1)
    as Hreach.
  { eapply reachable_step; [apply reachable_initial | apply step_priority]. }
  destruct (history_length_invariant _ _ _ Example.cfg _ Hreach
              ltac:(vm_compute; discriminate)) as [_ H].
  apply (H (Example.request "bob")).
Defined.

(** C7 as stated fails for small configured lengths.  With a length of 5 the
    history of a served caller has five entries and its lookback [history[-10]]
    is out of bounds, so the next scoring of that caller raises [IndexError];
    with a length of 0 the slice [history[-0:]] keeps everything and the
    history of a served caller has one entry. *)
Lemma history_length_invariant_counterexample :
  let w5 := (priority not_implemented (Example.request "bob")
               (Example.world (Example.with_len Example.cfg 5)
                  (Some Example.snapshot))).1 in
  let w0 := (priority not_implemented (Example.request "bob")
               (Example.world (Example.with_len Example.cfg 0)
                  (Some Example.snapshot))).1 in
  request_timestamps (self w5) !! "bob" = Some [0; 0; 0; 0; Example.seconds 0]%Q
  /\ py_getitem [0; 0; 0; 0; Example.seconds 0]%Q (-10) = Raised IndexError
  /\ (priority not_implemented (Example.request "bob") w5).2 = Raised IndexError
  /\ request_timestamps (self w0) !! "bob" = Some [Example.seconds 0].
Proof. repeat split; vm_compute; reflexivity. Qed.

(** ** The request-period rule *)

Lemma py_getitem_0_lookup {A} (l : list A) (x : A) :
  py_getitem l 0 = Returned x -> l !! 0%nat = Some x.
Proof.
  destruct l as [|y l].
  - rewrite py_getitem_nil. discriminate.
  - rewrite py_getitem_0. intros [= ->]. reflexivity.
Qed.

(** Case analysis along the branches of a computation, keeping the tests
    already decided. *)
Ltac py_branches :=
  repeat (py_red;
          repeat match goal with
                 | E : ?x = _ |- context [?x] => rewrite E
                 end;
          match goal with
          | |- context [if ?b then _ else _] => destruct b eqn:?
          | |- context [match ?o with Some _ => _ | None => _ end] => destruct o eqn:?
          | |- context [match ?o with Returned _ => _ | Raised _ => _ end] =>
              destruct o eqn:?
          end);
  py_red.

Lemma string_last_app (s t : string) :
  t <> "" -> string_last (s ++ t) = string_last t.
Proof.
  intros Ht. induction s as [|c s IH]; [reflexivity|].
  change (String c s ++ t) with (String c (s ++ t)). cbn [string_last].
  destruct (s ++ t) eqn:E; [|exact IH].
  destruct s; [|discriminate]. simpl in E. contradiction.
Qed.

(** The reason of the request-period rule ends in a full stop; no reason of
    an earlier rule does. *)
Lemma frequency_reason_not_earlier (hotkey : string) (history : list Q) (period : Z) :
  frequency_reason hotkey history period ∉ earlier_rejections.
Proof.
  assert (string_last (frequency_reason hotkey history period) = Some (Ascii.ascii_of_nat 46)) as Hlast.
  { unfold frequency_reason.
    repeat (rewrite string_last_app;
            [|match goal with
              | |- (String _ _ ++ _) <> _ => discriminate
              | |- (?a ++ ?b) <> _ =>
                  let E := fresh in
                  intros E; destruct a; [|discriminate E]; simpl in E;
                  first [discriminate E | revert E]
              | |- _ => discriminate
              end]).
    reflexivity. }
  unfold earlier_rejections. intros Hin.
  repeat (apply elem_of_cons in Hin as [Heq|Hin];
          [rewrite Heq in Hlast; discriminate Hlast|]).
  inversion Hin.
Qed.

Lemma default_blacklist_rejection (nucleon : Inference) (w : World) (r : string) :
  (default_blacklist nucleon w).2 = Returned (true, r) ->
  r ∈ earlier_rejections
  \/ exists history oldest,
       request_timestamps (self w) !! boson_hotkey nucleon = Some history
       /\ history !! 0%nat = Some oldest
       /\ (clock w (ticks w) - oldest
           < inject_Z (miner_blacklist_min_request_period (config (self w)) * 60))%Q
       /\ r = frequency_reason (boson_hotkey nucleon) history
                (miner_blacklist_min_request_period (config (self w))).
Proof.
  unfold default_blacklist, earlier_rejections. py_unfold. py_branches;
    cbn [snd]; intros H; try discriminate H; injection H as <-;
    try (left; set_solver).
  all: right; eexists _, _; split; [reflexivity|];
    split; [apply py_getitem_0_lookup; eassumption|];
    split; [apply Qltb_lt; assumption | reflexivity].
Qed.

(** C8. A caller whose oldest recorded timestamp is still the sentinel zero
    is not rejected by the request-period rule once the current time is at
    least the configured window: [default_blacklist] does not return the
    rejection of that rule, and whatever rejection it returns carries the
    reason of an earlier rule.  In general a rejection that does not come from
    an earlier rule is the one of the request-period rule, and it occurs only
    when the caller has a history and [now - history[0]] is below
    [min_request_period * 60]. *)
Theorem sentinel_history_not_rate_limited (nucleon : Inference) (w : World) :
  let hotkey := boson_hotkey nucleon in
  let now := clock w (ticks w) in
  let period := miner_blacklist_min_request_period (config (self w)) in
  let window := inject_Z (period * 60) in
  (forall history,
     request_timestamps (self w) !! hotkey = Some history ->
     history !! 0%nat = Some 0%Q ->
     (window <= now)%Q ->
     (default_blacklist nucleon w).2
       <> Returned (true, frequency_reason hotkey history period)
     /\ forall r, (default_blacklist nucleon w).2 = Returned (true, r) ->
                  r ∈ earlier_rejections)
  /\ (forall r,
        (default_blacklist nucleon w).2 = Returned (true, r) ->
        r ∉ earlier_rejections ->
        exists history oldest,
          request_timestamps (self w) !! hotkey = Some history
          /\ history !! 0%nat = Some oldest
          /\ (now - oldest < window)%Q
          /\ r = frequency_reason hotkey history period).
Proof.
  cbv zeta.
  assert (forall history r,
            request_timestamps (self w) !! boson_hotkey nucleon = Some history ->
            history !! 0%nat = Some 0%Q ->
            (inject_Z (miner_blacklist_min_request_period (config (self w)) * 60)
             <= clock w (ticks w))%Q ->
            (default_blacklist nucleon w).2 = Returned (true, r) ->
            r ∈ earlier_rejections) as Hsentinel.
  { intros history r Hh Hzero Hlarge Hrej.
    destruct (default_blacklist_rejection nucleon w r Hrej)
      as [Hearly|(history' & oldest & Hh' & Holdest & Hlt & _)]; [exact Hearly|].
    exfalso. rewrite Hh in Hh'. injection Hh' as <-.
    rewrite Hzero in Holdest. injection Holdest as <-.
    lra. }
  split.
  - intros history Hh Hzero Hlarge. split.
    + intros Hrej.
      apply (frequency_reason_not_earlier (boson_hotkey nucleon) history
               (miner_blacklist_min_request_period (config (self w)))).
      apply (Hsentinel history _ Hh Hzero Hlarge Hrej).
    + intros r Hrej. apply (Hsentinel history r Hh Hzero Hlarge Hrej).
  - intros r Hrej Hlate.
    destruct (default_blacklist_rejection nucleon w r Hrej)
      as [Hearly|(history & oldest & Hh & Holdest & Hlt & Hr)]; [contradiction|].
    exists history, oldest. repeat split; assumption.
Qed.

Lemma sentinel_history_not_rate_limited_witness :
  (default_blacklist (Example.request "bob") PriorityExample.w_scored).2
    <> Returned (true, frequency_reason "bob"
                         (replicate 49 0%Q ++ [Example.seconds 0])%list 5)
  /\ exists history oldest,
       request_timestamps (self RateExample.w_busy) !! "bob" = Some history
       /\ history !! 0%nat = Some oldest
       /\ (clock RateExample.w_busy (ticks RateExample.w_busy) - oldest
           < inject_Z (5 * 60))%Q.
Proof.
  destruct (sentinel_history_not_rate_limited (Example.request "bob")
              PriorityExample.w_scored) as [Hsentinel _].
  destruct (sentinel_history_not_rate_limited (Example.request "bob") RateExample.w_busy)
    as [_ Honly].
  split.
  - apply (Hsentinel (replicate 49 0%Q ++ [Example.seconds 0])%list).
    + vm_compute. reflexivity.
    + reflexivity.
    + vm_compute. intros Habs. discriminate Habs.
  - destruct (Honly "bob request frequency exceeded 10 requests in 5 minutes.")
      as (history & oldest & Hh & Holdest & Hlt & _).
    + vm_compute. reflexivity.
    + by_compute.
    + exists history, oldest. repeat split; assumption.
Defined.

(** ** Monotonicity of the score *)

Lemma scores_value (nucleon : Inference) (w : World) (stake elapsed p : Q) :
  scores nucleon w stake elapsed p ->
  miner_priority_time_stake_multiplicate (config (self w)) <> 0
  /\ p = (Qmax (elapsed / inject_Z (miner_priority_time_stake_multiplicate (config (self w)) * 60))
            1 * stake)%Q.
Proof.
  intros (m & uid & history & back & Hm & Hlk & Hfirst & Hstake & Hh & Hback & -> & Hp).
  pose proof (py_index_first _ _ _ Hlk Hfirst) as Huid.
  rewrite (default_priority_registered_start nucleon w m uid Hm Huid) in Hp.
  unfold tensor_getitem in Hp. rewrite Hstake, Hh, Hback in Hp.
  unfold py_truediv in Hp.
  destruct (Z.eqb_spec (miner_priority_time_stake_multiplicate (config (self w)) * 60) 0)
    as [Hz|Hnz]; [discriminate|].
  cbn [snd] in Hp. injection Hp as <-. rewrite py_max_Qmax.
  split; [lia | reflexivity].
Qed.

(** C9. For registered callers with a history, under one configuration with
    a positive [time_stake_multiplicate]: with the same elapsed time the score
    does not decrease when the stake grows, and with the same non-negative
    stake the score does not decrease when the elapsed time grows (in
    particular once the scale is at least one). *)
Theorem default_priority_monotone (nucleon : Inference) (w1 w2 : World)
  (stake1 stake2 elapsed1 elapsed2 p1 p2 : Q) :
  scores nucleon w1 stake1 elapsed1 p1 ->
  scores nucleon w2 stake2 elapsed2 p2 ->
  miner_priority_time_stake_multiplicate (config (self w1))
  = miner_priority_time_stake_multiplicate (config (self w2)) ->
  ((elapsed1 == elapsed2)%Q -> (stake1 <= stake2)%Q -> (p1 <= p2)%Q)
  /\ (0 < miner_priority_time_stake_multiplicate (config (self w1)) ->
      (stake1 == stake2)%Q -> (0 <= stake1)%Q -> (elapsed1 <= elapsed2)%Q ->
      (p1 <= p2)%Q).
Proof.
  intros Hs1 Hs2 Hcfg.
  destruct (scores_value _ _ _ _ _ Hs1) as [Hnz ->].
  destruct (scores_value _ _ _ _ _ Hs2) as [_ ->].
  rewrite <- Hcfg.
  set (d := inject_Z (miner_priority_time_stake_multiplicate (config (self w1)) * 60)).
  assert (forall x, (1 <= Qmax x 1)%Q) as Hone by (intros x; apply Q.le_max_r).
  split.
  - intros He Hstake.
    assert (Qmax (elapsed1 / d) 1 == Qmax (elapsed2 / d) 1)%Q as Hm
      by (rewrite He; reflexivity).
    rewrite <- Hm. apply Qmult_le_l; [|exact Hstake].
    specialize (Hone (elapsed1 / d)%Q). lra.
  - intros Hpos Hstake Hnonneg He.
    assert (0 < d)%Q as Hd.
    { subst d. change 0%Q with (inject_Z 0). rewrite <- Zlt_Qlt. lia. }
    assert (elapsed1 / d <= elapsed2 / d)%Q as Hscale.
    { unfold Qdiv. apply Qmult_le_compat_r; [exact He|].
      apply Qlt_le_weak. apply Qinv_lt_0_compat. exact Hd. }
    assert (Qmax (elapsed1 / d) 1 <= Qmax (elapsed2 / d) 1)%Q as Hm
      by (apply Q.max_le_compat_r; exact Hscale).
    rewrite <- Hstake. apply Qmult_le_compat_r; assumption.
Qed.

Lemma default_priority_monotone_witness :
  (PriorityExample.score (Example.seconds 1 - 0) 10
   <= PriorityExample.score (Example.seconds 1 - 0) 15)%Q
  /\ (PriorityExample.score (Example.seconds 1 - 0) 10
      <= PriorityExample.score (Example.seconds 2 - 0) 10)%Q.
Proof.
  assert (forall j : nat, (j < 0)%nat ->
            hotkeys Example.snapshot !! j <> Some (boson_hotkey (Example.request "bob")))
    as Hfirst by (intros j Hj; lia).
  assert (scores (Example.request "bob") PriorityExample.w_scored 10
            (Example.seconds 1 - 0) (PriorityExample.score (Example.seconds 1 - 0) 10))
    as Hscored.
  { exists Example.snapshot, 0%nat, (replicate 49 0%Q ++ [Example.seconds 0])%list, 0%Q.
    split; [reflexivity|]. split; [reflexivity|]. split; [exact Hfirst|].
    split; [reflexivity|]. split; [vm_compute; reflexivity|].
    split; [reflexivity|]. split; [reflexivity|]. vm_compute. reflexivity. }
  assert (scores (Example.request "bob") PriorityExample.w_richer 15
            (Example.seconds 1 - 0) (PriorityExample.score (Example.seconds 1 - 0) 15))
    as Hricher.
  { eexists _, 0%nat, (replicate 49 0%Q ++ [Example.seconds 0])%list, 0%Q.
    split; [reflexivity|]. split; [reflexivity|]. split; [exact Hfirst|].
    split; [reflexivity|]. split; [vm_compute; reflexivity|].
    split; [reflexivity|]. split; [reflexivity|]. vm_compute. reflexivity. }
  assert (scores (Example.request "bob") PriorityExample.w_later 10
            (Example.seconds 2 - 0) (PriorityExample.score (Example.seconds 2 - 0) 10))
    as Hlater.
  { exists Example.snapshot, 0%nat, (replicate 49 0%Q ++ [Example.seconds 0])%list, 0%Q.
    split; [reflexivity|]. split; [reflexivity|]. split; [exact Hfirst|].
    split; [reflexivity|]. split; [vm_compute; reflexivity|].
    split; [reflexivity|]. split; [reflexivity|]. vm_compute. reflexivity. }
  split.
  - apply (proj1 (default_priority_monotone _ _ _ _ _ _ _ _ _ Hscored Hricher eq_refl)).
    + reflexivity.
    + vm_compute. intros Habs. discriminate Habs.
  - apply (proj2 (default_priority_monotone _ _ _ _ _ _ _ _ _ Hscored Hlater eq_refl)).
    + reflexivity.
    + reflexivity.
    + vm_compute. intros Habs. discriminate Habs.
    + vm_compute. intros Habs. discriminate Habs.
Defined.

(** * Further properties of the admission and priority layer *)

(** ** The request cache, continued *)

Section RequestCacheMore.

Variable json_dumps : list string -> string.
Variable sha256_hexdigest : string -> string.

(** X1. Without a snapshot the cache check raises [AttributeError] when it
    reads the current block, before the fingerprint is looked up: nothing is
    inserted and nothing is swept, the world is the one before the call. *)
Theorem is_request_in_cache_unsynced (nucleon : Inference) (w : World) :
  megastring (self w) = None ->
  is_request_in_cache json_dumps sha256_hexdigest nucleon w = (w, Raised AttributeError).
Proof.
  intros Hm. unfold is_request_in_cache. py_unfold. py_red. rewrite Hm. reflexivity.
Qed.

(** The entries of the cache after a call, with the snapshot present. *)
Lemma is_request_in_cache_lookup (nucleon : Inference) (w : World) (m : Megastring)
  (k : string) (b : Z) :
  megastring (self w) = Some m ->
  request_cache (self (is_request_in_cache json_dumps sha256_hexdigest nucleon w).1) !! k
    = Some b
  <-> (request_cache (self w) !! k = Some b
       \/ (request_cache (self w) !! request_key_of json_dumps sha256_hexdigest nucleon = None
           /\ k = request_key_of json_dumps sha256_hexdigest nucleon /\ b = block m))
      /\ ~ (b + miner_blacklist_request_cache_block_span (config (self w)) < block m).
Proof.
  intros Hm. rewrite (is_request_in_cache_run _ _ nucleon w m Hm).
  cbn [fst self set_self set_request_cache request_cache]. rewrite lookup_sanitized.
  set (key := request_key_of json_dumps sha256_hexdigest nucleon).
  destruct (decide (is_Some (request_cache (self w) !! key))) as [[b0 Hb0]|Hnone].
  - split; [intros [? ?]; split; auto|].
    intros [[?|(Hc & _)] ?]; [split; assumption | congruence].
  - assert (request_cache (self w) !! key = None) as Hkey
      by (destruct (request_cache (self w) !! key); [exfalso; eauto | reflexivity]).
    rewrite lookup_insert. destruct (decide (key = k)) as [<-|Hne].
    + split.
      * intros [[= <-] ?]. split; [right; auto | assumption].
      * intros [[?|(_ & _ & ->)] ?]; [congruence | split; [reflexivity | assumption]].
    + split; [intros [? ?]; split; auto|].
      intros [[?|(_ & -> & _)] ?]; [split; assumption | congruence].
Qed.

(** X2. A duplicate does not renew its entry: after a hit on an entry that
    is not yet older than the span, the fingerprint is still mapped to the
    block at which it was first seen.  And a call touches no other
    fingerprint except to remove it: an entry found afterwards under another
    key was there before, with the same block. *)
Theorem is_request_in_cache_keeps_first_seen (nucleon : Inference) (w : World)
  (m : Megastring) :
  megastring (self w) = Some m ->
  let key := request_key_of json_dumps sha256_hexdigest nucleon in
  let cache' :=
    request_cache (self (is_request_in_cache json_dumps sha256_hexdigest nucleon w).1) in
  (forall b,
     request_cache (self w) !! key = Some b ->
     ~ (b + miner_blacklist_request_cache_block_span (config (self w)) < block m) ->
     cache' !! key = Some b)
  /\ (forall k b, k <> key -> cache' !! k = Some b -> request_cache (self w) !! k = Some b).
Proof.
  intros Hm key cache'. subst key cache'. split.
  - intros b Hb Hfresh. apply (is_request_in_cache_lookup nucleon w m _ b Hm).
    split; [left; exact Hb | exact Hfresh].
  - intros k b Hne Hlk. apply (is_request_in_cache_lookup nucleon w m k b Hm) in Hlk.
    destruct Hlk as [[Hold|(_ & Hk & _)] _]; [exact Hold | contradiction].
Qed.

(** X3. A negative block span disables the cache: every entry that is not
    from a later block than the current one is swept, the entry just inserted
    included, so the cache is empty after the call. *)
Theorem is_request_in_cache_negative_span (nucleon : Inference) (w : World)
  (m : Megastring) :
  megastring (self w) = Some m ->
  miner_blacklist_request_cache_block_span (config (self w)) < 0 ->
  (forall k b, request_cache (self w) !! k = Some b -> b <= block m) ->
  request_cache (self (is_request_in_cache json_dumps sha256_hexdigest nucleon w).1) = ∅.
Proof.
  intros Hm Hspan Hpast. apply map_empty. intros k.
  destruct (request_cache (self (is_request_in_cache _ _ nucleon w).1) !! k) as [b|] eqn:Hlk;
    [|reflexivity].
  exfalso. apply (is_request_in_cache_lookup nucleon w m k b Hm) in Hlk.
  destruct Hlk as [[Hold|(_ & _ & ->)] Hfresh]; [|lia].
  specialize (Hpast k b Hold). lia.
Qed.

End RequestCacheMore.

Lemma is_request_in_cache_unsynced_witness :
  is_request_in_cache CacheExample.toy_json_dumps CacheExample.toy_digest
    (Example.request "bob") (Example.world Example.cfg None)
  = (Example.world Example.cfg None, Raised AttributeError).
Proof.
  apply (is_request_in_cache_unsynced CacheExample.toy_json_dumps CacheExample.toy_digest
           (Example.request "bob") (Example.world Example.cfg None)).
  reflexivity.
Defined.

Lemma is_request_in_cache_keeps_first_seen_witness :
  request_cache
    (self (is_request_in_cache CacheExample.toy_json_dumps CacheExample.toy_digest
             (Example.request "bob") EdgeExample.w_fresh).1) !! CacheExample.key
  = Some 995.
Proof.
  destruct (is_request_in_cache_keeps_first_seen CacheExample.toy_json_dumps
              CacheExample.toy_digest (Example.request "bob") EdgeExample.w_fresh
              Example.snapshot eq_refl) as [Hkeep _].
  apply Hkeep; [reflexivity|]. vm_compute. intros Habs. discriminate Habs.
Defined.

Lemma is_request_in_cache_negative_span_witness :
  request_cache
    (self (is_request_in_cache CacheExample.toy_json_dumps CacheExample.toy_digest
             (Example.request "bob") EdgeExample.w_negative_span).1) = ∅.
Proof.
  apply (is_request_in_cache_negative_span CacheExample.toy_json_dumps
           CacheExample.toy_digest (Example.request "bob") EdgeExample.w_negative_span
           Example.snapshot eq_refl).
  - reflexivity.
  - intros k b Hlk.
    change (request_cache (self EdgeExample.w_negative_span))
      with ({[ "seen" := 990 ]} : gmap string Z) in Hlk.
    apply lookup_singleton_Some in Hlk as [_ <-].
    vm_compute. intros Habs. discriminate Habs.
Defined.

(** ** The admission policy and its dispatch, continued *)

Lemma default_blacklist_clock (nucleon : Inference) (w : World) :
  clock (default_blacklist nucleon w).1 = clock w
  /\ (ticks w <= ticks (default_blacklist nucleon w).1)%nat
  /\ (ticks (default_blacklist nucleon w).1 <= S (ticks w))%nat.
Proof.
  destruct (default_blacklist_world nucleon w) as [-> | ->]; simpl;
    (split; [reflexivity|]); split; lia.
Qed.

Lemma blacklist_except_self (nucleon : Inference) (w : World) :
  self (blacklist_except nucleon w).1 = self w.
Proof.
  unfold blacklist_except. pose proof (default_blacklist_self nucleon w) as Hs.
  destruct (default_blacklist nucleon w) as [w2 [[b r]|e]]; exact Hs.
Qed.

(** X4. Admission only reads.  [default_blacklist] leaves the miner (its
    configuration, snapshot, request cache and timestamp histories) as it
    found it and reads the clock at most once; and whatever the hook does,
    the dispatch adds no change of the miner to it.  In particular
    [Miner.blacklist] never records a request. *)
Theorem blacklist_only_reads (float_of_str : string -> option Q)
  (func : Inference -> M pyval) (nucleon : Inference) (w : World) :
  self (default_blacklist nucleon w).1 = self w
  /\ clock (default_blacklist nucleon w).1 = clock w
  /\ (ticks w <= ticks (default_blacklist nucleon w).1)%nat
  /\ (ticks (default_blacklist nucleon w).1 <= S (ticks w))%nat
  /\ self (blacklist float_of_str func nucleon w).1 = self (func nucleon w).1
  /\ self (Miner_blacklist float_of_str nucleon w).1 = self w.
Proof.
  assert (forall f w0, self (blacklist float_of_str f nucleon w0).1 = self (f nucleon w0).1)
    as Hdispatch.
  { intros f w0. unfold blacklist, blacklist_try.
    destruct (f nucleon w0) as [w1 [v|e]]; cbn [fst].
    - destruct (hasattr_len v).
      + destruct (unpack2 v) as [[d r]|e].
        * apply blacklist_finally_self.
        * pose proof (blacklist_except_self nucleon w1) as Hs.
          destruct e; cbn [is_Exception];
            first [ destruct (blacklist_except nucleon w1) as [w2 [d r]]; cbn [fst] in Hs;
                    rewrite blacklist_finally_self; exact Hs
                  | apply blacklist_finally_self ].
      + apply blacklist_finally_self.
    - pose proof (blacklist_except_self nucleon w1) as Hs.
      destruct e; cbn [is_Exception];
        first [ destruct (blacklist_except nucleon w1) as [w2 [d r]]; cbn [fst] in Hs;
                rewrite blacklist_finally_self; exact Hs
              | apply blacklist_finally_self ]. }
  split; [apply default_blacklist_self|].
  destruct (default_blacklist_clock nucleon w) as (Hc & Ht1 & Ht2).
  split; [exact Hc|]. split; [exact Ht1|]. split; [exact Ht2|].
  split; [apply Hdispatch|].
  unfold Miner_blacklist. rewrite Hdispatch. reflexivity.
Qed.

Lemma py_getitem_0_Raised {A} (l : list A) (e : exn) :
  py_getitem l 0 = Raised e -> l = [] /\ e = IndexError.
Proof.
  destruct l as [|x l].
  - rewrite py_getitem_nil. intros [= <-]. split; reflexivity.
  - rewrite py_getitem_0. discriminate.
Qed.

Lemma py_index_Raised (l : list string) (x : string) (e : exn) :
  py_index l x = Raised e -> x ∉ l.
Proof.
  intros Hr Hin. destruct (py_index_elem l x Hin) as (uid & Huid & _). congruence.
Qed.

(** X5. The default admission policy raises in three situations only, each
    for a caller that is neither whitelisted nor blacklisted: [AttributeError]
    when validator permits are required and the snapshot is absent;
    [IndexError] when permits are required and the permit vector is too short
    for the caller's uid; [IndexError] when the caller's stored history is
    empty.  In every other world it returns a pair. *)
Theorem default_blacklist_raises_only (nucleon : Inference) (w : World) (e : exn) :
  (default_blacklist nucleon w).2 = Raised e ->
  let s := self w in
  let hotkey := boson_hotkey nucleon in
  (hotkey ∉ miner_blacklist_whitelist (config s))
  /\ (hotkey ∉ miner_blacklist_blacklist (config s))
  /\ ((e = AttributeError
       /\ miner_blacklist_force_validator_permit (config s) = true
       /\ megastring s = None)
      \/ (e = IndexError
          /\ miner_blacklist_force_validator_permit (config s) = true
          /\ exists m uid,
               megastring s = Some m
               /\ py_index (hotkeys m) hotkey = Returned uid
               /\ (length (validator_permit m) <= uid)%nat)
      \/ (e = IndexError /\ request_timestamps s !! hotkey = Some [])).
Proof.
  cbv zeta. unfold default_blacklist. py_unfold. py_branches; cbn [snd];
    intros H; try discriminate H; injection H as <-;
    repeat match goal with
           | E : bool_decide _ = false |- _ => apply bool_decide_eq_false in E
           | E : bool_decide _ = true |- _ => apply bool_decide_eq_true in E
           end;
    (split; [assumption|]); (split; [assumption|]).
  all: try (left; repeat split; assumption).
  all: try match goal with
           | E : py_index _ _ = Raised _, Hin : _ ∈ _ |- _ =>
               exfalso; apply (py_index_Raised _ _ _ E Hin)
           end.
  all: try match goal with
           | E : py_getitem ?l 0 = Raised _ |- _ =>
               apply py_getitem_0_Raised in E as [-> ->];
               right; right; split; reflexivity
           end.
  all: try match goal with
       | E : tensor_getitem (validator_permit ?m) ?uid = Raised _ |- _ =>
           unfold tensor_getitem in E;
           destruct (validator_permit m !! uid) eqn:Hp; [discriminate E|];
           injection E as Heq; subst; apply lookup_ge_None in Hp;
           right; left; split; [reflexivity|]; split; [reflexivity|];
           exists m, uid; split; [reflexivity|]; split; assumption
       end.
Qed.

Lemma default_blacklist_raises_only_witness :
  ("bob" ∉ miner_blacklist_whitelist (config (self DispatchExample.w_unsynced)))
  /\ ("bob" ∉ miner_blacklist_blacklist (config (self DispatchExample.w_unsynced)))
  /\ ((AttributeError = AttributeError
       /\ miner_blacklist_force_validator_permit (config (self DispatchExample.w_unsynced))
          = true
       /\ megastring (self DispatchExample.w_unsynced) = None)
      \/ (AttributeError = IndexError
          /\ miner_blacklist_force_validator_permit (config (self DispatchExample.w_unsynced))
             = true
          /\ exists m uid,
               megastring (self DispatchExample.w_unsynced) = Some m
               /\ py_index (hotkeys m) "bob" = Returned uid
               /\ (length (validator_permit m) <= uid)%nat)
      \/ (AttributeError = IndexError
          /\ request_timestamps (self DispatchExample.w_unsynced) !! "bob" = Some [])).
Proof.
  apply (default_blacklist_raises_only (Example.request "bob") DispatchExample.w_unsynced
           AttributeError).
  vm_compute. reflexivity.
Defined.

(** ** What the admission dispatch does with the value of a hook *)

Lemma length_chars (s : string) : length (chars s) = String.length s.
Proof.
  induction s as [|c s IH]; [reflexivity|]. simpl. rewrite IH. reflexivity.
Qed.

Lemma PyNone_cases (v : pyval) : v = PyNone \/ v <> PyNone.
Proof.
  destruct v; first [left; reflexivity | right; discriminate].
Qed.

Lemma unpack2_cases (v : pyval) :
  (hasattr_len v = false /\ unpack2 v = Raised TypeError)
  \/ (hasattr_len v = true /\ unpack2 v = Raised ValueError
      /\ exists n, py_len v = Some n /\ n <> 2%nat)
  \/ (hasattr_len v = true /\ py_len v = Some 2%nat
      /\ exists d r, unpack2 v = Returned (d, r)).
Proof.
  assert (forall l : list pyval,
            (match l with [a; b] => Returned (a, b) | _ => Raised ValueError end
             = Raised ValueError /\ length l <> 2%nat)
            \/ (length l = 2%nat
                /\ exists d r, match l with [a; b] => Returned (a, b) | _ => Raised ValueError end
                               = Returned (d, r))) as Hl.
  { intros [|a [|b [|c l]]]; simpl; try (left; split; [reflexivity|lia]).
    right. split; [reflexivity|]. eauto. }
  destruct v as [| | | |s|l|l]; try (left; split; reflexivity); right; unfold unpack2;
    cbn [hasattr_len py_len].
  - destruct (Hl (chars s)) as [[-> Hn]|[Hn (d & r & ->)]]; rewrite length_chars in Hn.
    + left. eauto.
    + right. rewrite Hn. eauto.
  - destruct (Hl l) as [[-> Hn]|[Hn (d & r & ->)]].
    + left. eauto.
    + right. rewrite Hn. eauto.
  - destruct (Hl l) as [[-> Hn]|[Hn (d & r & ->)]].
    + left. eauto.
    + right. rewrite Hn. eauto.
Qed.

Section DispatchMore.

Variable float_of_str : string -> option Q.

(** When the default policy decides, the [finally] clause starts either with
    [does_blacklist] still [None], in the world the hook left, or with what
    the [except] clause bound. *)
Lemma blacklist_try_default_decides (func : Inference -> M pyval) (nucleon : Inference)
  (w : World) :
  default_decides (func nucleon w).2 ->
  (exists r, blacklist_try func nucleon w = ((func nucleon w).1, (PyNone, r)))
  \/ blacklist_try func nucleon w = blacklist_except nucleon (func nucleon w).1.
Proof.
  unfold blacklist_try. destruct (func nucleon w) as [w1 [v|e]]; cbn [fst snd default_decides].
  - intros [-> | [(n & Hn & Hne) | (r & Hr)]].
    + left. eexists. reflexivity.
    + destruct (unpack2_cases v) as [[Hh _] | [(Hh & Hu & _) | (_ & Hlen & _)]].
      * destruct v; discriminate.
      * rewrite Hh, Hu. right. reflexivity.
      * congruence.
    + destruct (unpack2_cases v) as [[_ Hu] | [(_ & Hu & _) | (Hh & _ & _)]];
        try congruence.
      rewrite Hh, Hr. left. eexists. reflexivity.
  - intros _. destruct e; cbn [is_Exception]; first [right; reflexivity | left; eauto].
Qed.

Lemma blacklist_default_decides (func : Inference -> M pyval) (nucleon : Inference)
  (w : World) :
  default_decides (func nucleon w).2 ->
  (blacklist float_of_str func nucleon w).2
  = outcome_map admission_result (default_blacklist nucleon (func nucleon w).1).2.
Proof.
  intros Hd. unfold blacklist.
  destruct (blacklist_try_default_decides func nucleon w Hd) as [[r ->] | ->].
  - rewrite blacklist_finally_None. reflexivity.
  - pose proof (blacklist_after_except float_of_str nucleon (func nucleon w).1) as H.
    destruct (blacklist_except nucleon (func nucleon w).1) as [w2 [d r]].
    exact (proj1 H).
Qed.


Lemma blacklist_finally_value (nucleon : Inference) (d r : pyval) (w1 : World) :
  d <> PyNone ->
  blacklist_finally float_of_str nucleon d r w1
  = (w1, if truthy d && wandb_on (config (self w1))
         then match py_float float_of_str d with
              | Returned _ => Returned (d, r)
              | Raised e => Raised e
              end
         else Returned (d, r)).
Proof.
  intros Hd. unfold blacklist_finally. py_unfold. py_red.
  destruct (eq_None d) eqn:E; [destruct d; try discriminate E; contradiction|].
  py_red. destruct (truthy d && wandb_on (config (self w1))); py_red; [|reflexivity].
  destruct (py_float float_of_str d); reflexivity.
Qed.


End DispatchMore.



Lemma blacklist_try_verdict (func : Inference -> M pyval) (nucleon : Inference)
  (w : World) (v d r : pyval) :
  (func nucleon w).2 = Returned v ->
  hook_verdict v = Some (d, r) ->
  blacklist_try func nucleon w = ((func nucleon w).1, (d, r)).
Proof.
  intros Hv Hverdict. unfold blacklist_try.
  destruct (func nucleon w) as [w1 [v'|e]]; cbn [snd] in Hv; [|discriminate Hv].
  injection Hv as ->. cbn [fst]. unfold hook_verdict in Hverdict.
  destruct (hasattr_len v).
  - destruct (unpack2 v) as [[d' r']|e]; [|discriminate Hverdict].
    injection Hverdict as -> ->. reflexivity.
  - injection Hverdict as <- <-. reflexivity.
Qed.

(** X7. When the admission dispatch raises.  [blacklist] lets an exception
    out in exactly two situations.  Either the default policy decides and
    raises (see X5).  Or the verdict bound from the value of the hook, which
    is the first item of a pair or the bare value itself, is truthy, logging
    to wandb is on, and [float] fails on that verdict.  The exception is the
    one raised there; an exception raised by the hook itself never gets
    out.  The statement holds whatever [float] does on the verdict: its
    failure on a bare value is covered by the second situation. *)
Theorem blacklist_raises_iff (float_of_str : string -> option Q)
  (func : Inference -> M pyval) (nucleon : Inference) (w : World) (e : exn) :
  let w1 := (func nucleon w).1 in
  (blacklist float_of_str func nucleon w).2 = Raised e
  <-> (default_decides (func nucleon w).2
       /\ (default_blacklist nucleon w1).2 = Raised e)
      \/ (exists v d r,
            (func nucleon w).2 = Returned v
            /\ hook_verdict v = Some (d, r)
            /\ truthy d = true
            /\ wandb_on (config (self w1)) = true
            /\ py_float float_of_str d = Raised e).
Proof.
  cbv zeta. split.
  - intros Hr.
    assert (default_decides (func nucleon w).2 ->
            default_decides (func nucleon w).2
            /\ (default_blacklist nucleon (func nucleon w).1).2 = Raised e) as Hdef.
    { intros Hd. split; [exact Hd|].
      rewrite (blacklist_default_decides float_of_str func nucleon w Hd) in Hr.
      destruct (default_blacklist nucleon (func nucleon w).1).2; [discriminate Hr|].
      cbn [outcome_map] in Hr. injection Hr as ->. reflexivity. }
    assert (forall v d r,
              (func nucleon w).2 = Returned v -> hook_verdict v = Some (d, r) ->
              d <> PyNone ->
              truthy d = true /\ wandb_on (config (self (func nucleon w).1)) = true
              /\ py_float float_of_str d = Raised e) as Hlog.
    { intros v d r Hv Hverdict Hd. revert Hr. unfold blacklist.
      rewrite (blacklist_try_verdict func nucleon w v d r Hv Hverdict).
      rewrite blacklist_finally_value by exact Hd. cbn [snd].
      destruct (truthy d); cbn [andb]; [|discriminate].
      destruct (wandb_on (config (self (func nucleon w).1))); [|discriminate].
      destruct (py_float float_of_str d); [discriminate|].
      intros [= ->]. repeat split. }
    destruct (func nucleon w) as [w1 [v|e0]] eqn:Hf; cbn [fst snd] in *;
      [|left; apply Hdef; exact I].
    destruct (unpack2_cases v) as [[Hh Hu] | [(Hh & Hu & Hn) | (Hh & Hlen & d & r & Hu)]].
    + destruct (PyNone_cases v) as [->|Hv]; [left; apply Hdef; left; reflexivity|].
      assert (hook_verdict v = Some (v, PyStr "no reason provided")) as Hverdict
        by (unfold hook_verdict; rewrite Hh; reflexivity).
      right. exists v, v, (PyStr "no reason provided").
      split; [reflexivity|]. split; [exact Hverdict|].
      apply (Hlog v v _ eq_refl Hverdict Hv).
    + left. apply Hdef. right. left. exact Hn.
    + destruct (PyNone_cases d) as [->|Hd];
        [left; apply Hdef; right; right; eauto|].
      assert (hook_verdict v = Some (d, r)) as Hverdict
        by (unfold hook_verdict; rewrite Hh, Hu; reflexivity).
      right. exists v, d, r. split; [reflexivity|]. split; [exact Hverdict|].
      apply (Hlog v d r eq_refl Hverdict Hd).
  - intros [[Hd He] | (v & d & r & Hv & Hverdict & Ht & Hw & Hfl)].
    + rewrite (blacklist_default_decides float_of_str func nucleon w Hd), He. reflexivity.
    + unfold blacklist. rewrite (blacklist_try_verdict func nucleon w v d r Hv Hverdict).
      rewrite blacklist_finally_value by (intros ->; discriminate Ht).
      rewrite Ht, Hw, Hfl. reflexivity.
Qed.

Lemma blacklist_raises_iff_witness :
  (blacklist DispatchExample.no_float EdgeExample.word_pair (Example.request "alice")
     EdgeExample.w_wandb).2
  = Raised ValueError.
Proof.
  apply (proj2 (blacklist_raises_iff DispatchExample.no_float EdgeExample.word_pair
                  (Example.request "alice") EdgeExample.w_wandb ValueError)).
  right. exists (PyTuple [PyStr "yes"; PyStr "because"]), (PyStr "yes"), (PyStr "because").
  repeat split.
Defined.

(** ** The priority dispatch and the default scorer, continued *)

(** X8. A priority hook that returns a value other than [None] decides
    alone: [priority] returns that value and [default_priority] is never
    run.  Served through such a hook, the miner records no request at all,
    whatever the requests are; so a miner that starts without histories never
    rejects a caller by the request-period rule of the admission policy. *)
Theorem priority_hook_never_records (func : Inference -> M pyval)
  (requests : list Inference) (w : World) :
  (forall nucleon w0, exists v, v <> PyNone /\ func nucleon w0 = (w0, Returned v)) ->
  serve (priority func) requests w = (map (fun nucleon => (func nucleon w).2) requests, w)
  /\ (request_timestamps (self w) = ∅ ->
      forall nucleon r,
        (default_blacklist nucleon (serve (priority func) requests w).2).2
          = Returned (true, r) ->
        r ∈ earlier_rejections).
Proof.
  intros Hfunc.
  assert (serve (priority func) requests w
          = (map (fun nucleon => (func nucleon w).2) requests, w)) as Hserve.
  { induction requests as [|nucleon rest IH]; [reflexivity|].
    cbn [serve map]. unfold priority at 1.
    destruct (Hfunc nucleon w) as (v & Hv & ->). cbn [fst snd].
    destruct v; try contradiction; cbn [eq_None]; unfold ret; rewrite IH; reflexivity. }
  split; [exact Hserve|].
  intros Hempty nucleon r. rewrite Hserve. cbn [snd]. intros Hr.
  destruct (default_blacklist_rejection nucleon w r Hr) as [Hin | (history & _ & Hh & _)];
    [exact Hin|].
  rewrite Hempty, lookup_empty in Hh. discriminate Hh.
Qed.

Lemma priority_hook_never_records_witness :
  (serve (priority EdgeExample.constant_score)
     [Example.request "bob"; Example.request "bob"] Example.w_default).1
  = [Returned (PyFloat 1); Returned (PyFloat 1)]
  /\ request_timestamps
       (self (serve (priority EdgeExample.constant_score)
                [Example.request "bob"; Example.request "bob"] Example.w_default).2)
     = ∅.
Proof.
  assert (forall (nucleon : Inference) (w0 : World),
            exists v, v <> PyNone /\ EdgeExample.constant_score nucleon w0 = (w0, Returned v))
    as Hfunc.
  { intros nucleon w0. exists (PyFloat 1). split; [discriminate | reflexivity]. }
  destruct (priority_hook_never_records EdgeExample.constant_score
              [Example.request "bob"; Example.request "bob"] Example.w_default Hfunc)
    as [Hserve _].
  rewrite Hserve. split; reflexivity.
Defined.

(** X9. A failed scoring records nothing.  [Miner.priority] raises exactly
    when [default_priority] does, with the same exception (the retry in the
    [finally] clause fails in the same way); and when they raise, the miner
    is as it was before the call: the exceptions of [default_priority] all
    occur before the record operation. *)
Theorem priority_failure_records_nothing (nucleon : Inference) (w : World) (e : exn) :
  ((Miner_priority nucleon w).2 = Raised e <-> (default_priority nucleon w).2 = Raised e)
  /\ ((default_priority nucleon w).2 = Raised e ->
      self (default_priority nucleon w).1 = self w
      /\ self (Miner_priority nucleon w).1 = self w).
Proof.
  unfold Miner_priority, priority, not_implemented, raise.
  destruct (default_priority nucleon w) as [w2 [q|e2]] eqn:Hd; cbn [eq_None fst snd];
    py_unfold.
  - split; [split; discriminate | discriminate].
  - assert ((default_priority nucleon w).2 = Raised e2) as Hr by (rewrite Hd; reflexivity).
    destruct (default_priority_raise nucleon w e2 Hr) as [Hs Hagain].
    rewrite Hd in Hs. cbn [fst] in Hs.
    pose proof (Hagain w2 Hs) as Hr2.
    destruct (default_priority_raise nucleon w2 e2 Hr2) as [Hs2 _].
    destruct (default_priority nucleon w2) as [w3 [q|e3]]; cbn [fst snd] in *;
      [discriminate Hr2|].
    injection Hr2 as ->.
    split; [split; intros H; injection H as ->; reflexivity|].
    intros _. split; [exact Hs | congruence].
Qed.

Lemma priority_failure_records_nothing_witness :
  (Miner_priority (Example.request "bob")
     (EdgeExample.with_history Example.cfg Example.snapshot [1; 2; 3]%Q)).2
  = Raised IndexError
  /\ self (Miner_priority (Example.request "bob")
             (EdgeExample.with_history Example.cfg Example.snapshot [1; 2; 3]%Q)).1
     = self (EdgeExample.with_history Example.cfg Example.snapshot [1; 2; 3]%Q).
Proof.
  destruct (priority_failure_records_nothing (Example.request "bob")
              (EdgeExample.with_history Example.cfg Example.snapshot [1; 2; 3]%Q)
              IndexError) as [Hiff Hself].
  assert ((default_priority (Example.request "bob")
             (EdgeExample.with_history Example.cfg Example.snapshot [1; 2; 3]%Q)).2
          = Raised IndexError) as Hr by (vm_compute; reflexivity).
  split; [apply (proj2 Hiff); exact Hr | apply (proj2 (Hself Hr))].
Defined.

Lemma only_history_of_refl (hotkey : string) (w : World) : only_history_of hotkey w w.
Proof.
  unfold only_history_of. repeat split; auto.
Qed.

Lemma only_history_of_trans (hotkey : string) (w1 w2 w3 : World) :
  only_history_of hotkey w1 w2 -> only_history_of hotkey w2 w3 ->
  only_history_of hotkey w1 w3.
Proof.
  intros (Hc1 & Hm1 & Hr1 & Hk1 & Ht1 & Ho1) (Hc2 & Hm2 & Hr2 & Hk2 & Ht2 & Ho2).
  unfold only_history_of. repeat split; try congruence; try lia.
  intros other Hne. rewrite (Ho2 other Hne). apply (Ho1 other Hne).
Qed.

Lemma only_history_of_tick (hotkey : string) (w : World) : only_history_of hotkey w (tick w).
Proof.
  unfold only_history_of, tick. cbn. repeat split; auto.
Qed.

Lemma only_history_of_recorded (hotkey : string) (w : World) :
  only_history_of hotkey w (recorded w hotkey).
Proof.
  unfold only_history_of, recorded. cbn. repeat split; auto.
  intros other Hne. apply lookup_insert_ne. congruence.
Qed.

Lemma only_history_of_default_priority (nucleon : Inference) (w : World) :
  only_history_of (boson_hotkey nucleon) w (default_priority nucleon w).1.
Proof.
  destruct (default_priority_world nucleon w) as [-> | [-> | [-> | ->]]].
  - apply only_history_of_refl.
  - apply only_history_of_tick.
  - apply only_history_of_recorded.
  - eapply only_history_of_trans;
      [apply only_history_of_tick | apply only_history_of_recorded].
Qed.

(** X10. Scoring touches the history of the caller only.  A record
    operation, [default_priority] and [Miner.priority] leave the
    configuration, the snapshot, the request cache and the history of every
    other identity as they were; they only consume clock readings and
    rewrite the history of the caller. *)
Theorem priority_touches_caller_only (nucleon : Inference) (w : World) :
  only_history_of (boson_hotkey nucleon) w (record_request_timestamps nucleon w).1
  /\ only_history_of (boson_hotkey nucleon) w (default_priority nucleon w).1
  /\ only_history_of (boson_hotkey nucleon) w (Miner_priority nucleon w).1.
Proof.
  split; [|split].
  - rewrite record_request_timestamps_world. apply only_history_of_recorded.
  - apply only_history_of_default_priority.
  - unfold Miner_priority.
    destruct (priority_not_implemented_world nucleon w) as [-> | ->].
    + apply only_history_of_default_priority.
    + eapply only_history_of_trans; apply only_history_of_default_priority.
Qed.

Lemma py_getitem_neg10 (history : list Q) :
  ((length history < 10)%nat /\ py_getitem history (-10) = Raised IndexError)
  \/ ((10 <= length history)%nat
      /\ exists back, py_getitem history (-10) = Returned back
                      /\ history !! (length history - 10)%nat = Some back).
Proof.
  pose proof (py_getitem_neg history 10 ltac:(lia)) as Hget.
  change (Z.opp 10) with (Zneg 10) in Hget. rewrite Hget.
  destruct (Z.leb_spec 10 (Z.of_nat (length history))) as [Hle|Hlt].
  - right. split; [lia|].
    replace (Z.to_nat (Z.of_nat (length history) - 10)) with (length history - 10)%nat by lia.
    destruct (lookup_lt_is_Some_2 history (length history - 10)%nat) as [back Hback]; [lia|].
    rewrite Hback. eauto.
  - left. split; [lia | reflexivity].
Qed.

(** X11. When the default scorer raises.  [default_priority] raises only for
    a caller registered in the present snapshot, and then in exactly three
    situations: the stake vector is too short for the caller's uid
    ([IndexError]); the caller has a history of fewer than ten entries
    ([IndexError], from [history[-10]]); the caller has a history of at
    least ten entries and [time_stake_multiplicate] is zero
    ([ZeroDivisionError]).  A caller without a history is always scored. *)
Theorem default_priority_raises_iff (nucleon : Inference) (w : World) (e : exn) :
  (default_priority nucleon w).2 = Raised e
  <-> exists m uid,
        megastring (self w) = Some m
        /\ py_index (hotkeys m) (boson_hotkey nucleon) = Returned uid
        /\ ((e = IndexError /\ (length (S_ m) <= uid)%nat)
            \/ ((uid < length (S_ m))%nat
                /\ exists history,
                     request_timestamps (self w) !! boson_hotkey nucleon = Some history
                     /\ ((e = IndexError /\ (length history < 10)%nat)
                         \/ (e = ZeroDivisionError
                             /\ (10 <= length history)%nat
                             /\ miner_priority_time_stake_multiplicate (config (self w))
                                = 0)))).
Proof.
  split.
  - destruct (megastring (self w)) as [m|] eqn:Hm;
      [|rewrite default_priority_unregistered by (left; exact Hm); discriminate].
    destruct (decide (boson_hotkey nucleon ∈ hotkeys m)) as [Hreg|Hreg];
      [|rewrite default_priority_unregistered by (right; eauto); discriminate].
    destruct (py_index_elem _ _ Hreg) as (uid & Huid & _).
    rewrite (default_priority_registered_start nucleon w m uid Hm Huid).
    intros H. exists m, uid. split; [reflexivity|]. split; [exact Huid|].
    revert H. unfold tensor_getitem.
    destruct (S_ m !! uid) as [stake|] eqn:Hstake.
    + intros H. right. split; [apply lookup_lt_Some in Hstake; exact Hstake|].
      destruct (request_timestamps (self w) !! boson_hotkey nucleon) as [history|];
        [|discriminate H].
      exists history. split; [reflexivity|].
      destruct (py_getitem_neg10 history) as [[Hlen Hg] | (Hlen & back & Hg & _)];
        rewrite Hg in H.
      * injection H as <-. left. split; [reflexivity | exact Hlen].
      * right. unfold py_truediv in H.
        destruct (Z.eqb_spec (miner_priority_time_stake_multiplicate (config (self w)) * 60) 0)
          as [Hz|Hnz]; [|discriminate H].
        injection H as <-. split; [reflexivity|]. split; [exact Hlen | lia].
    + intros H. injection H as <-. left. split; [reflexivity|].
      apply lookup_ge_None in Hstake. exact Hstake.
  - intros (m & uid & Hm & Huid & Hcases).
    rewrite (default_priority_registered_start nucleon w m uid Hm Huid).
    unfold tensor_getitem.
    destruct Hcases as [[-> Hshort] | (Hlt & history & Hh & Hcases)].
    + rewrite (proj2 (lookup_ge_None (S_ m) uid) Hshort). reflexivity.
    + destruct (lookup_lt_is_Some_2 (S_ m) uid Hlt) as [stake ->]. rewrite Hh.
      destruct (py_getitem_neg10 history) as [[Hlen Hg] | (Hlen & back & Hg & _)];
        rewrite Hg.
      * destruct Hcases as [[-> _] | (_ & Hge & _)]; [reflexivity | lia].
      * destruct Hcases as [[_ Hshort] | (-> & _ & Hz)]; [lia|].
        unfold py_truediv. rewrite Hz. reflexivity.
Qed.

Lemma default_priority_raises_iff_witness :
  (default_priority (Example.request "bob")
     (EdgeExample.with_history Example.cfg EdgeExample.short_stake (replicate 10 0%Q))).2
  = Raised IndexError
  /\ (default_priority (Example.request "bob")
        (EdgeExample.with_history Example.cfg Example.snapshot [1; 2; 3]%Q)).2
     = Raised IndexError
  /\ (default_priority (Example.request "bob")
        (EdgeExample.with_history EdgeExample.cfg_zero_period Example.snapshot
           (replicate 10 0%Q))).2
     = Raised ZeroDivisionError.
Proof.
  split; [|split].
  - apply (proj2 (default_priority_raises_iff _ _ _)).
    exists EdgeExample.short_stake, 0%nat. split; [reflexivity|]. split; [reflexivity|].
    left. split; [reflexivity | cbn; lia].
  - apply (proj2 (default_priority_raises_iff _ _ _)).
    exists Example.snapshot, 0%nat. split; [reflexivity|]. split; [reflexivity|].
    right. split; [cbn; lia|]. exists [1; 2; 3]%Q. split; [reflexivity|].
    left. split; [reflexivity | cbn; lia].
  - apply (proj2 (default_priority_raises_iff _ _ _)).
    exists Example.snapshot, 0%nat. split; [reflexivity|]. split; [reflexivity|].
    right. split; [cbn; lia|]. exists (replicate 10 0%Q). split; [reflexivity|].
    right. split; [reflexivity|]. split; [cbn; lia | reflexivity].
Defined.

(** X12. The score of a registered caller with a history is never below the
    stake (for a non-negative stake): the scale is floored at one.  With a
    positive doubling period it is the stake itself while the lookback is at
    most one period old, and the stake times the number of periods elapsed
    after that. *)
Theorem default_priority_at_least_stake (nucleon : Inference) (w : World)
  (stake elapsed p : Q) :
  scores nucleon w stake elapsed p ->
  (0 <= stake)%Q ->
  let period := inject_Z (miner_priority_time_stake_multiplicate (config (self w)) * 60) in
  (stake <= p)%Q
  /\ (0 < miner_priority_time_stake_multiplicate (config (self w)) ->
      ((elapsed <= period)%Q -> (p == stake)%Q)
      /\ ((period <= elapsed)%Q -> (p == elapsed / period * stake)%Q)).
Proof.
  intros Hs Hstake period. destruct (scores_value _ _ _ _ _ Hs) as [Hnz ->].
  fold period. split.
  - pose proof (Q.le_max_r (elapsed / period) 1) as Hone.
    apply Qle_trans with (1 * stake)%Q;
      [rewrite Qmult_1_l; apply Qle_refl | apply Qmult_le_compat_r; assumption].
  - intros Hpos.
    assert (0 < period)%Q as Hd.
    { subst period. change 0%Q with (inject_Z 0). rewrite <- Zlt_Qlt. lia. }
    split; intros He.
    + assert (elapsed / period <= 1)%Q as Hscale.
      { apply Qle_shift_div_r; [exact Hd|]. lra. }
      rewrite (Q.max_r _ _ Hscale). ring.
    + assert (1 <= elapsed / period)%Q as Hscale.
      { apply Qle_shift_div_l; [exact Hd|]. lra. }
      rewrite (Q.max_l _ _ Hscale). reflexivity.
Qed.

Lemma default_priority_at_least_stake_witness :
  (10 <= PriorityExample.score (Example.seconds 1 - 0) 10)%Q.
Proof.
  assert (forall j : nat, (j < 0)%nat ->
            hotkeys Example.snapshot !! j <> Some (boson_hotkey (Example.request "bob")))
    as Hfirst by (intros j Hj; lia).
  assert (scores (Example.request "bob") PriorityExample.w_scored 10
            (Example.seconds 1 - 0) (PriorityExample.score (Example.seconds 1 - 0) 10))
    as Hscored.
  { exists Example.snapshot, 0%nat, (replicate 49 0%Q ++ [Example.seconds 0])%list, 0%Q.
    split; [reflexivity|]. split; [reflexivity|]. split; [exact Hfirst|].
    split; [reflexivity|]. split; [vm_compute; reflexivity|].
    split; [reflexivity|]. split; [reflexivity|]. vm_compute. reflexivity. }
  apply (proj1 (default_priority_at_least_stake _ _ _ _ _ Hscored
                  ltac:(vm_compute; intros Habs; discriminate Habs))).
Defined.

(** ** The sliding window of recorded requests *)

Lemma after_records_S (k : nat) (nucleon : Inference) (w : World) :
  after_records (S k) nucleon w
  = after_records k nucleon (recorded w (boson_hotkey nucleon)).
Proof.
  unfold after_records. cbn [replicate serve].
  pose proof (record_request_timestamps_world nucleon w) as Hw.
  destruct (record_request_timestamps nucleon w) as [w1 o]. cbn [fst] in Hw. subst w1.
  destruct (serve record_request_timestamps (replicate k nucleon)
              (recorded w (boson_hotkey nucleon))) as [os w2].
  reflexivity.
Qed.

Lemma readings_S (k : nat) (w : World) (hotkey : string) :
  readings w (S k) = clock w (ticks w) :: readings (recorded w hotkey) k.
Proof.
  unfold readings. cbn [seq fmap list_fmap]. rewrite Nat.add_0_r. f_equal.
  rewrite <- fmap_S_seq, <- list_fmap_compose.
  apply list_fmap_ext. intros _ i _. cbn. f_equal. lia.
Qed.

Lemma length_readings (w : World) (k : nat) : length (readings w k) = k.
Proof.
  unfold readings. rewrite length_fmap, length_seq. reflexivity.
Qed.

Lemma lookup_readings (w : World) (k i : nat) :
  (i < k)%nat -> readings w k !! i = Some (clock w (ticks w + i)%nat).
Proof.
  intros Hi. unfold readings. rewrite list_lookup_fmap, lookup_seq_lt by exact Hi.
  reflexivity.
Qed.

Lemma after_records_history (k : nat) :
  forall (nucleon : Inference) (w : World),
    1 <= miner_priority_len_request_timestamps (config (self w)) ->
    (forall h, request_timestamps (self w) !! boson_hotkey nucleon = Some h ->
       Z.of_nat (length h) = miner_priority_len_request_timestamps (config (self w))) ->
    let zeros :=
      replicate (Z.to_nat (miner_priority_len_request_timestamps (config (self w)))) 0%Q in
    let h0 := default zeros (request_timestamps (self w) !! boson_hotkey nucleon) in
    let w' := after_records k nucleon w in
    self w' = set_request_timestamps (self w) (request_timestamps (self w'))
    /\ clock w' = clock w
    /\ ticks w' = (ticks w + k)%nat
    /\ default zeros (request_timestamps (self w') !! boson_hotkey nucleon)
       = drop k (h0 ++ readings w k)
    /\ (is_Some (request_timestamps (self w) !! boson_hotkey nucleon) ->
        is_Some (request_timestamps (self w') !! boson_hotkey nucleon)).
Proof.
  induction k as [|k IH]; intros nucleon w Hlen Hfull; cbv zeta.
  - change (after_records 0 nucleon w) with w. unfold readings. cbn [seq fmap list_fmap].
    rewrite app_nil_r. cbn [drop].
    split; [destruct w as [[] ? ?]; reflexivity|]. split; [reflexivity|].
    split; [lia|]. split; [reflexivity | auto].
  - rewrite after_records_S.
    set (hotkey := boson_hotkey nucleon) in *. set (w1 := recorded w hotkey).
    assert (config (self w1) = config (self w)) as Hcfg by reflexivity.
    assert (request_timestamps (self w1) !! hotkey
            = Some (recorded_history (self w) hotkey (clock w (ticks w)))) as Hlk
      by apply recorded_lookup.
    specialize (IH nucleon w1). fold hotkey in IH. rewrite Hcfg in IH.
    destruct IH as (Hs & Hc & Ht & Hh & Hsome); [exact Hlen | |].
    { intros h. rewrite Hlk. intros [= <-].
      apply recorded_history_length; [exact Hlen | exact Hfull]. }
    split; [rewrite Hs; reflexivity|]. split; [rewrite Hc; reflexivity|].
    split; [rewrite Ht; cbn; lia|]. split.
    + rewrite Hh, Hlk. cbn [default].
      rewrite (recorded_history_shift (self w) hotkey _ Hlen Hfull).
      rewrite (readings_S k w hotkey). fold w1. unfold id.
      assert (length (default
                        (replicate
                           (Z.to_nat (miner_priority_len_request_timestamps
                                        (config (self w)))) 0%Q)
                        (request_timestamps (self w) !! hotkey))
              = Z.to_nat (miner_priority_len_request_timestamps (config (self w)))) as Hl0.
      { destruct (request_timestamps (self w) !! hotkey) as [h|] eqn:E;
          cbn [default from_option]; unfold id.
        - specialize (Hfull h eq_refl). lia.
        - apply length_replicate. }
      destruct (default _ (request_timestamps (self w) !! hotkey)) as [|x h0];
        [cbn in Hl0; lia|].
      cbn [drop app]. rewrite <- app_assoc. reflexivity.
    + intros _. apply Hsome. rewrite Hlk. eauto.
Qed.

Lemma length_initial_history (w : World) (hotkey : string) :
  0 <= miner_priority_len_request_timestamps (config (self w)) ->
  (forall h, request_timestamps (self w) !! hotkey = Some h ->
     Z.of_nat (length h) = miner_priority_len_request_timestamps (config (self w))) ->
  length (default
            (replicate (Z.to_nat (miner_priority_len_request_timestamps (config (self w))))
               0%Q)
            (request_timestamps (self w) !! hotkey))
  = Z.to_nat (miner_priority_len_request_timestamps (config (self w))).
Proof.
  intros Hlen Hfull.
  destruct (request_timestamps (self w) !! hotkey) as [h|] eqn:E;
    cbn [default from_option]; unfold id.
  - specialize (Hfull h eq_refl). lia.
  - apply length_replicate.
Qed.

Lemma after_records_lookup (nucleon : Inference) (w : World) (k : nat) :
  1 <= miner_priority_len_request_timestamps (config (self w)) ->
  (forall h, request_timestamps (self w) !! boson_hotkey nucleon = Some h ->
     Z.of_nat (length h) = miner_priority_len_request_timestamps (config (self w))) ->
  request_timestamps (self (after_records (S k) nucleon w)) !! boson_hotkey nucleon
  = Some (drop (S k)
            (default
               (replicate
                  (Z.to_nat (miner_priority_len_request_timestamps (config (self w)))) 0%Q)
               (request_timestamps (self w) !! boson_hotkey nucleon)
             ++ readings w (S k))).
Proof.
  intros Hlen Hfull.
  destruct (after_records_history (S k) nucleon w Hlen Hfull) as (_ & _ & _ & Hh & _).
  assert (is_Some (request_timestamps (self (after_records (S k) nucleon w))
                     !! boson_hotkey nucleon)) as [h Hsome].
  { rewrite after_records_S.
    destruct (after_records_history k nucleon (recorded w (boson_hotkey nucleon)))
      as (_ & _ & _ & _ & Hs).
    - exact Hlen.
    - intros h'. rewrite recorded_lookup. intros [= <-].
      exact (recorded_history_length (self w) (boson_hotkey nucleon) _ Hlen Hfull).
    - apply Hs. rewrite recorded_lookup. eauto. }
  rewrite Hsome in Hh. cbn [default from_option] in Hh. unfold id in Hh. subst h.
  exact Hsome.
Qed.

(** X13. The history is a sliding window.  With a configured length of at
    least one, after [k+1] record operations in a row for one caller the
    stored history is what is left of the old history (the sentinel zeros
    for a new caller) followed by the [k+1] times read, once the [k+1]
    oldest entries are dropped.  As soon as the number of record operations
    reaches the configured length, no old entry and no sentinel is left: the
    history is exactly the last [len] times read, oldest first. *)
Theorem record_sliding_window (nucleon : Inference) (w : World) (k : nat) :
  let hotkey := boson_hotkey nucleon in
  let len := miner_priority_len_request_timestamps (config (self w)) in
  let h0 := default (replicate (Z.to_nat len) 0%Q) (request_timestamps (self w) !! hotkey) in
  let w' := after_records (S k) nucleon w in
  1 <= len ->
  (forall h, request_timestamps (self w) !! hotkey = Some h -> Z.of_nat (length h) = len) ->
  request_timestamps (self w') !! hotkey = Some (drop (S k) (h0 ++ readings w (S k)))
  /\ (Z.to_nat len <= S k ->
      request_timestamps (self w') !! hotkey
      = Some (drop (S k - Z.to_nat len) (readings w (S k))))%nat
  /\ ticks w' = (ticks w + S k)%nat.
Proof.
  intros hotkey len h0 w' Hlen Hfull.
  pose proof (after_records_lookup nucleon w k Hlen Hfull) as Hsome.
  destruct (after_records_history (S k) nucleon w Hlen Hfull) as (_ & _ & Ht & _ & _).
  pose proof (length_initial_history w (boson_hotkey nucleon)
                ltac:(unfold len in Hlen; lia) Hfull) as Hl0.
  fold hotkey len h0 w' in Hsome, Ht, Hl0.
  split; [exact Hsome|]. split; [|exact Ht].
  intros Hk. rewrite Hsome. f_equal. rewrite drop_app_ge by lia. rewrite Hl0. reflexivity.
Qed.

Lemma record_sliding_window_witness :
  request_timestamps
    (self (after_records 2 (Example.request "bob")
             (Example.world (Example.with_len Example.cfg 2) (Some Example.snapshot))))
    !! "bob"
  = Some [Example.seconds 0; Example.seconds 1].
Proof.
  destruct (record_sliding_window (Example.request "bob")
              (Example.world (Example.with_len Example.cfg 2) (Some Example.snapshot)) 1)
    as (_ & H & _).
  - vm_compute. intros Habs. discriminate Habs.
  - intros h Hh. cbn in Hh. rewrite lookup_empty in Hh. discriminate Hh.
  - apply H. cbn. lia.
Defined.

(** ** The request-period rule over the sliding window *)

Lemma py_getitem_0_of_lookup {A} (l : list A) (x : A) :
  l !! 0%nat = Some x -> py_getitem l 0 = Returned x.
Proof.
  destruct l as [|y l]; [discriminate|]. intros [= ->]. apply py_getitem_0.
Qed.

(** X14. The request-period rule looks back exactly [len] recorded requests.
    Once at least [len] requests of a caller have been recorded in a row, the
    default admission policy (for a caller that passes the four earlier
    rules) compares the time it reads with the time of the [len]-th most
    recent recorded request: it rejects when less than
    [min_request_period * 60] seconds lie between them and admits
    otherwise. *)
Theorem request_period_window (nucleon : Inference) (w : World) (k : nat) :
  let hotkey := boson_hotkey nucleon in
  let cfg := config (self w) in
  let len := miner_priority_len_request_timestamps cfg in
  let period := miner_blacklist_min_request_period cfg in
  let w' := after_records (S k) nucleon w in
  let oldest := clock w (ticks w + (S k - Z.to_nat len))%nat in
  let now := clock w (ticks w + S k)%nat in
  1 <= len ->
  (forall h, request_timestamps (self w) !! hotkey = Some h -> Z.of_nat (length h) = len) ->
  (Z.to_nat len <= S k)%nat ->
  hotkey ∉ miner_blacklist_whitelist cfg ->
  hotkey ∉ miner_blacklist_blacklist cfg ->
  registration_passes (self w) hotkey ->
  permit_passes (self w) hotkey ->
  ((now - oldest < inject_Z (period * 60))%Q ->
     (default_blacklist nucleon w').2
     = Returned (true, frequency_reason hotkey
                         (drop (S k - Z.to_nat len) (readings w (S k))) period))
  /\ ((inject_Z (period * 60) <= now - oldest)%Q ->
      (default_blacklist nucleon w').2 = Returned (false, "passed blacklist")).
Proof.
  intros hotkey cfg len period w' oldest now Hlen Hfull Hk Hwl Hbl Hreg Hpermit.
  destruct (after_records_history (S k) nucleon w Hlen Hfull) as (Hs & Hc & Ht & _ & _).
  pose proof (after_records_lookup nucleon w k Hlen Hfull) as Hwin.
  pose proof (length_initial_history w (boson_hotkey nucleon)
                ltac:(unfold len, cfg in Hlen; lia) Hfull) as Hl0.
  rewrite drop_app_ge in Hwin by (rewrite Hl0; exact Hk).
  rewrite Hl0 in Hwin.
  fold hotkey len w' in Hs, Hc, Ht, Hwin.
  assert (config (self w') = cfg) as Hcfg by (rewrite Hs; reflexivity).
  assert (megastring (self w') = megastring (self w)) as Hm by (rewrite Hs; reflexivity).
  assert (default_blacklist nucleon w'
          = (tick w',
             Returned
               (if Qltb (now - oldest) (inject_Z (period * 60))
                then (true, frequency_reason hotkey
                              (drop (S k - Z.to_nat len) (readings w (S k))) period)
                else (false, "passed blacklist")))) as Hrun.
  { rewrite default_blacklist_request_period.
    - fold hotkey. rewrite Hwin, Hcfg, Hc, Ht. fold period now.
      assert (py_getitem (drop (S k - Z.to_nat len) (readings w (S k))) 0 = Returned oldest)
        as Hget.
      { apply py_getitem_0_of_lookup. rewrite lookup_drop, Nat.add_0_r.
        apply lookup_readings. lia. }
      unfold len, cfg in Hget. rewrite Hget. reflexivity.
    - rewrite Hcfg. exact Hwl.
    - rewrite Hcfg. exact Hbl.
    - unfold registration_passes in *. rewrite Hcfg, Hm. exact Hreg.
    - unfold permit_passes in *. rewrite Hcfg, Hm. exact Hpermit. }
  rewrite Hrun. cbn [snd]. split; intros Hcmp.
  - rewrite (proj2 (Qltb_lt _ _) Hcmp). reflexivity.
  - rewrite (proj2 (Qltb_ge _ _) Hcmp). reflexivity.
Qed.

Lemma request_period_window_witness :
  (default_blacklist (Example.request "bob")
     (after_records 2 (Example.request "bob")
        (Example.world (Example.with_len Example.cfg 2) (Some Example.snapshot)))).2
  = Returned (true, frequency_reason "bob" [Example.seconds 0; Example.seconds 1] 5).
Proof.
  apply (proj1 (request_period_window (Example.request "bob")
                  (Example.world (Example.with_len Example.cfg 2) (Some Example.snapshot))
                  1
                  ltac:(vm_compute; intros Habs; discriminate Habs)
                  ltac:(intros h Hh; cbn in Hh; rewrite lookup_empty in Hh; discriminate Hh)
                  ltac:(cbn; lia)
                  ltac:(by_compute)
                  ltac:(by_compute)
                  ltac:(right; right; exists Example.snapshot; split;
                        [reflexivity | by_compute])
                  ltac:(left; reflexivity))).
  vm_compute. reflexivity.
Defined.

(** ** Histories are in time order *)

Lemma ordered_until_replicate (n : nat) (now : Q) :
  (0 <= now)%Q -> ordered_until now (replicate n 0%Q).
Proof.
  intros Hnow. split.
  - intros i j x y _ Hx Hy.
    apply lookup_replicate in Hx as [-> _]. apply lookup_replicate in Hy as [-> _].
    apply Qle_refl.
  - intros i x Hx. apply lookup_replicate in Hx as [-> _].
    split; [apply Qle_refl | exact Hnow].
Qed.

Lemma ordered_until_snoc (now : Q) (history : list Q) :
  (0 <= now)%Q -> ordered_until now history -> ordered_until now (history ++ [now]).
Proof.
  intros Hnow [Hord Hbound]. split.
  - intros i j x y Hij Hx Hy.
    apply lookup_app_Some in Hy as [Hy | [Hlen Hy]].
    + apply lookup_app_Some in Hx as [Hx | [Hlenx _]].
      * apply (Hord i j x y Hij Hx Hy).
      * apply lookup_lt_Some in Hy. lia.
    + assert (y = now) as ->.
      { destruct (j - length history)%nat; [injection Hy as <-; reflexivity|].
        discriminate Hy. }
      apply lookup_app_Some in Hx as [Hx | [_ Hx]].
      * apply (Hbound i x Hx).
      * destruct (i - length history)%nat; [injection Hx as <-; apply Qle_refl|].
        discriminate Hx.
  - intros i x Hx. apply lookup_app_Some in Hx as [Hx | [_ Hx]].
    + apply (Hbound i x Hx).
    + destruct (i - length history)%nat; [|discriminate Hx].
      injection Hx as <-. split; [exact Hnow | apply Qle_refl].
Qed.

Lemma ordered_until_drop (n : nat) (now : Q) (history : list Q) :
  ordered_until now history -> ordered_until now (drop n history).
Proof.
  intros [Hord Hbound]. split.
  - intros i j x y Hij Hx Hy. rewrite lookup_drop in Hx, Hy.
    apply (Hord (n + i)%nat (n + j)%nat x y); [lia | exact Hx | exact Hy].
  - intros i x Hx. rewrite lookup_drop in Hx. apply (Hbound _ _ Hx).
Qed.

Lemma ordered_until_le (now now' : Q) (history : list Q) :
  (now <= now')%Q -> ordered_until now history -> ordered_until now' history.
Proof.
  intros Hle [Hord Hbound]. split; [exact Hord|].
  intros i x Hx. destruct (Hbound i x Hx) as [H0 H1].
  split; [exact H0 | apply (Qle_trans _ _ _ H1 Hle)].
Qed.

Lemma histories_ordered_later (w w' : World) :
  monotone_clock (clock w) ->
  request_timestamps (self w') = request_timestamps (self w) ->
  clock w' = clock w ->
  (ticks w <= ticks w')%nat ->
  histories_ordered w -> histories_ordered w'.
Proof.
  intros [Hmono _] Hrt Hc Ht Hord hotkey history Hh. rewrite Hrt in Hh.
  apply (ordered_until_le (clock w (ticks w))); [|apply (Hord _ _ Hh)].
  rewrite Hc. apply Hmono. exact Ht.
Qed.

Lemma histories_ordered_recorded (w : World) (hotkey : string) :
  monotone_clock (clock w) ->
  histories_ordered w -> histories_ordered (recorded w hotkey).
Proof.
  intros [Hmono Hpos] Hord other history. unfold recorded. cbn [self request_timestamps
    set_request_timestamps clock ticks].
  destruct (decide (other = hotkey)) as [->|Hne].
  - rewrite lookup_insert_eq. intros [= <-]. unfold recorded_history, py_slice_from.
    apply ordered_until_drop.
    apply (ordered_until_le (clock w (ticks w))); [apply Hmono; lia|].
    apply ordered_until_snoc; [apply Hpos|].
    destruct (request_timestamps (self w) !! hotkey) as [h|] eqn:Hh;
      cbn [default from_option]; unfold id.
    + apply (Hord _ _ Hh).
    + apply ordered_until_replicate. apply Hpos.
  - rewrite lookup_insert_ne by congruence. intros Hh.
    apply (ordered_until_le (clock w (ticks w))); [apply Hmono; lia|].
    apply (Hord _ _ Hh).
Qed.

Lemma histories_ordered_default_priority (nucleon : Inference) (w : World) :
  monotone_clock (clock w) ->
  histories_ordered w ->
  clock (default_priority nucleon w).1 = clock w
  /\ histories_ordered (default_priority nucleon w).1.
Proof.
  intros Hmono Hord.
  assert (histories_ordered (tick w)) as Htick.
  { apply (histories_ordered_later w); try reflexivity; try assumption; cbn; lia. }
  destruct (default_priority_world nucleon w) as [-> | [-> | [-> | ->]]].
  - split; [reflexivity | exact Hord].
  - split; [reflexivity | exact Htick].
  - split; [reflexivity|]. apply histories_ordered_recorded; assumption.
  - split; [reflexivity|]. apply histories_ordered_recorded; assumption.
Qed.

Lemma priority_not_implemented_clock (nucleon : Inference) (w : World) :
  clock (priority not_implemented nucleon w).1 = clock w.
Proof.
  destruct (only_history_of_default_priority nucleon w) as (_ & _ & _ & Hc1 & _).
  destruct (priority_not_implemented_world nucleon w) as [-> | ->]; [exact Hc1|].
  destruct (only_history_of_default_priority nucleon (default_priority nucleon w).1)
    as (_ & _ & _ & Hc2 & _).
  congruence.
Qed.

Lemma seconds_monotone : monotone_clock Example.seconds.
Proof.
  unfold monotone_clock, Example.seconds. split.
  - intros i j Hij. rewrite <- Zle_Qle. lia.
  - intros i. change 0%Q with (inject_Z 0). rewrite <- Zle_Qle. lia.
Qed.

Section OrderedFacts.

Variable json_dumps : list string -> string.
Variable sha256_hexdigest : string -> string.
Variable float_of_str : string -> option Q.

Lemma blacklist_not_implemented_clock (nucleon : Inference) (w : World) :
  clock (blacklist float_of_str not_implemented nucleon w).1 = clock w
  /\ (ticks w <= ticks (blacklist float_of_str not_implemented nucleon w).1)%nat.
Proof.
  assert (forall d r w0,
            clock (blacklist_finally float_of_str nucleon d r w0).1 = clock w0
            /\ (ticks w0 <= ticks (blacklist_finally float_of_str nucleon d r w0).1)%nat)
    as Hfin.
  { intros d r w0. unfold blacklist_finally. py_unfold. py_red.
    destruct (default_blacklist_clock nucleon w0) as (Hc & Ht & _).
    destruct (eq_None d); py_red.
    - destruct (default_blacklist nucleon w0) as [w2 [br|e]]; cbn [fst] in Hc, Ht; py_red;
        [|split; assumption].
      destruct (truthy _ && _); py_red; [|split; assumption].
      destruct (py_float _ _); split; assumption.
    - destruct (truthy _ && _); py_red; [|split; [reflexivity | lia]].
      destruct (py_float _ _); split; first [reflexivity | cbn; lia]. }
  unfold blacklist, blacklist_try, not_implemented, raise, blacklist_except.
  destruct (default_blacklist_clock nucleon w) as (Hc & Ht & _).
  destruct (default_blacklist nucleon w) as [w2 [[b r]|e]]; cbn [fst] in Hc, Ht.
  - destruct (Hfin (PyBool b) (PyStr r) w2) as [Hc2 Ht2]. split; [congruence | lia].
  - destruct (Hfin PyNone PyNone w2) as [Hc2 Ht2]. split; [congruence | lia].
Qed.

Lemma step_ordered (w w' : World) :
  step json_dumps sha256_hexdigest float_of_str w w' ->
  monotone_clock (clock w) ->
  histories_ordered w ->
  clock w' = clock w /\ histories_ordered w'.
Proof.
  intros Hstep Hmono Hord. destruct Hstep as [n w|n w|n w|n w|m w].
  - destruct (blacklist_not_implemented_clock n w) as [Hc Ht]. split; [exact Hc|].
    apply (histories_ordered_later w); try assumption.
    rewrite blacklist_not_implemented_self. reflexivity.
  - destruct (histories_ordered_default_priority n w Hmono Hord) as [Hc1 Hord1].
    destruct (priority_not_implemented_world n w) as [-> | ->]; [split; assumption|].
    rewrite <- Hc1 in Hmono.
    destruct (histories_ordered_default_priority n _ Hmono Hord1) as [Hc2 Hord2].
    split; [congruence | exact Hord2].
  - destruct (megastring (self w)) as [m|] eqn:Hm.
    + rewrite (is_request_in_cache_run _ _ n w m Hm). cbn [fst]. split; [reflexivity|].
      apply (histories_ordered_later w); try assumption; try reflexivity; cbn; lia.
    + unfold is_request_in_cache. py_unfold. py_red. rewrite Hm.
      split; [reflexivity | exact Hord].
  - rewrite record_request_timestamps_world. split; [reflexivity|].
    apply histories_ordered_recorded; assumption.
  - split; [reflexivity|].
    apply (histories_ordered_later w); try assumption; try reflexivity; cbn; lia.
Qed.

End OrderedFacts.

(** X15. Histories stay in time order.  Under a clock that never runs
    backwards and never reads a negative time, in every world the serving
    process reaches from construction every stored history is in time order
    (so [history[0]] is its oldest entry), and every entry lies between the
    sentinel zero and the next reading of the clock (so the periods computed
    by the admission policy and by the scorer are never negative).  This
    holds for every configured history length. *)
Theorem histories_time_ordered
  (json_dumps : list string -> string) (sha256_hexdigest : string -> string)
  (float_of_str : string -> option Q) (cfg : Config) (w : World) :
  reachable json_dumps sha256_hexdigest float_of_str cfg w ->
  monotone_clock (clock w) ->
  histories_ordered w
  /\ forall hotkey history i x,
       request_timestamps (self w) !! hotkey = Some history ->
       history !! i = Some x ->
       (0 <= clock w (ticks w) - x)%Q
       /\ forall oldest, history !! 0%nat = Some oldest -> (oldest <= x)%Q.
Proof.
  intros Hreach Hmono.
  assert (histories_ordered w) as Hord.
  { induction Hreach as [m clk | w w' Hreach IH Hstep].
    - intros hotkey history Hh. cbn in Hh. rewrite lookup_empty in Hh. discriminate Hh.
    - assert (clock w' = clock w) as Hc.
      { clear IH Hmono. destruct Hstep as [n w|n w|n w|n w|m w].
        - apply blacklist_not_implemented_clock.
        - apply priority_not_implemented_clock.
        - destruct (megastring (self w)) as [m|] eqn:Hm.
          + rewrite (is_request_in_cache_run _ _ n w m Hm). reflexivity.
          + unfold is_request_in_cache. py_unfold. py_red. rewrite Hm. reflexivity.
        - rewrite record_request_timestamps_world. reflexivity.
        - reflexivity. }
      rewrite Hc in Hmono.
      apply (step_ordered _ _ _ w w' Hstep Hmono (IH Hmono)). }
  split; [exact Hord|].
  intros hotkey history i x Hh Hx. destruct (Hord hotkey history Hh) as [Htime Hbound].
  split.
  - destruct (Hbound i x Hx) as [_ Hle]. lra.
  - intros oldest H0. apply (Htime 0%nat i oldest x); [lia | exact H0 | exact Hx].
Qed.

Lemma histories_time_ordered_witness :
  exists history,
    request_timestamps (self PriorityExample.w_scored) !! "bob" = Some history
    /\ ordered_until (clock PriorityExample.w_scored (ticks PriorityExample.w_scored)) history.
Proof.
  assert (reachable CacheExample.toy_json_dumps CacheExample.toy_digest
            DispatchExample.no_float Example.cfg PriorityExample.w_scored) as Hreach.
  { eapply reachable_step; [apply reachable_initial | apply step_priority]. }
  assert (monotone_clock (clock PriorityExample.w_scored)) as Hmono.
  { unfold PriorityExample.w_scored. rewrite priority_not_implemented_clock.
    exact seconds_monotone. }
  destruct (histories_time_ordered _ _ _ _ _ Hreach Hmono) as [Hord _].
  destruct (request_timestamps (self PriorityExample.w_scored) !! "bob") as [history|] eqn:E.
  - exists history. split; [reflexivity | apply (Hord "bob" history E)].
  - exfalso. vm_compute in E. discriminate E.
Defined.

(** ** A negative history length *)

Lemma recorded_history_negative (s : Miner) (hotkey : string) (now : Q) :
  miner_priority_len_request_timestamps (config s) < 0 ->
  request_timestamps s !! hotkey = None \/ request_timestamps s !! hotkey = Some [] ->
  recorded_history s hotkey now = [].
Proof.
  intros Hlen Hstored. unfold recorded_history, py_repeat, py_slice_from.
  assert (default (replicate (Z.to_nat (miner_priority_len_request_timestamps (config s)))
                     0%Q) (request_timestamps s !! hotkey) = []) as ->.
  { destruct Hstored as [-> | ->]; cbn [default from_option]; unfold id; [|reflexivity].
    replace (Z.to_nat (miner_priority_len_request_timestamps (config s))) with O by lia.
    reflexivity. }
  cbn [app length].
  destruct (Z.ltb_spec (- miner_priority_len_request_timestamps (config s)) 0); [lia|].
  replace (Z.to_nat (Z.min (- miner_priority_len_request_timestamps (config s))
                       (Z.of_nat 1))) with 1%nat by lia.
  reflexivity.
Qed.

(** The miner has a negative history length and an empty history for
    [hotkey]. *)
Lemma locked_out_recorded (w : World) (hotkey other : string) :
  miner_priority_len_request_timestamps (config (self w)) < 0 ->
  request_timestamps (self w) !! hotkey = Some [] ->
  request_timestamps (self (recorded w other)) !! hotkey = Some [].
Proof.
  intros Hlen Hempty. destruct (decide (other = hotkey)) as [->|Hne].
  - rewrite recorded_lookup. f_equal.
    apply recorded_history_negative; [exact Hlen | right; exact Hempty].
  - unfold recorded. cbn [self request_timestamps set_request_timestamps].
    rewrite lookup_insert_ne by exact Hne. exact Hempty.
Qed.

Lemma locked_out_default_priority (nucleon : Inference) (w : World) (hotkey : string) :
  miner_priority_len_request_timestamps (config (self w)) < 0 ->
  request_timestamps (self w) !! hotkey = Some [] ->
  request_timestamps (self (default_priority nucleon w).1) !! hotkey = Some [].
Proof.
  intros Hlen Hempty.
  destruct (default_priority_world nucleon w) as [-> | [-> | [-> | ->]]].
  - exact Hempty.
  - exact Hempty.
  - apply locked_out_recorded; assumption.
  - apply (locked_out_recorded (tick w)); assumption.
Qed.

Section LockedOut.

Variable json_dumps : list string -> string.
Variable sha256_hexdigest : string -> string.
Variable float_of_str : string -> option Q.

Lemma locked_out_step (w w' : World) (hotkey : string) :
  step json_dumps sha256_hexdigest float_of_str w w' ->
  miner_priority_len_request_timestamps (config (self w)) < 0 ->
  request_timestamps (self w) !! hotkey = Some [] ->
  miner_priority_len_request_timestamps (config (self w')) < 0
  /\ request_timestamps (self w') !! hotkey = Some [].
Proof.
  intros Hstep Hlen Hempty.
  destruct (step_invariant json_dumps sha256_hexdigest float_of_str w w' Hstep) as [Hcfg _].
  split; [rewrite Hcfg; exact Hlen|].
  destruct Hstep as [n w|n w|n w|n w|m w].
  - rewrite blacklist_not_implemented_self. exact Hempty.
  - destruct (priority_not_implemented_world n w) as [-> | ->].
    + apply locked_out_default_priority; assumption.
    + apply locked_out_default_priority.
      * rewrite config_default_priority. exact Hlen.
      * apply locked_out_default_priority; assumption.
  - destruct (is_request_in_cache_same_histories json_dumps sha256_hexdigest n w) as [_ Ht].
    rewrite Ht. exact Hempty.
  - rewrite record_request_timestamps_world. apply locked_out_recorded; assumption.
  - exact Hempty.
Qed.

Lemma locked_out_reachable (w w' : World) (hotkey : string) :
  reachable_from json_dumps sha256_hexdigest float_of_str w w' ->
  miner_priority_len_request_timestamps (config (self w)) < 0 ->
  request_timestamps (self w) !! hotkey = Some [] ->
  miner_priority_len_request_timestamps (config (self w')) < 0
  /\ request_timestamps (self w') !! hotkey = Some [].
Proof.
  intros Hreach Hlen Hempty. induction Hreach as [|w1 w2 Hreach [IHlen IHempty] Hstep].
  - split; assumption.
  - apply (locked_out_step w1 w2 hotkey Hstep IHlen IHempty).
Qed.

End LockedOut.

(** X16. A negative configured history length locks callers out.  The
    sentinel list [[0] * len] is empty and the slice [[-len:]] cuts from the
    front, so the first record operation for a caller stores an empty
    history, and nothing the serving process does afterwards (admission,
    scoring, cache checks, further record operations, new snapshots) puts
    an entry into it.  So in every world reached after that first record
    operation, the request-period rule of the default admission policy,
    reached by every caller that passes the four earlier rules, raises
    [IndexError] on [history[0]], and so does [Miner.blacklist]. *)
Theorem negative_length_locks_out
  (json_dumps : list string -> string) (sha256_hexdigest : string -> string)
  (float_of_str : string -> option Q) (nucleon : Inference) (w w' : World) :
  let hotkey := boson_hotkey nucleon in
  miner_priority_len_request_timestamps (config (self w)) < 0 ->
  request_timestamps (self w) !! hotkey = None ->
  reachable_from json_dumps sha256_hexdigest float_of_str
    (record_request_timestamps nucleon w).1 w' ->
  request_timestamps (self w') !! hotkey = Some []
  /\ (hotkey ∉ miner_blacklist_whitelist (config (self w')) ->
      hotkey ∉ miner_blacklist_blacklist (config (self w')) ->
      registration_passes (self w') hotkey ->
      permit_passes (self w') hotkey ->
      (default_blacklist nucleon w').2 = Raised IndexError
      /\ (Miner_blacklist float_of_str nucleon w').2 = Raised IndexError).
Proof.
  intros hotkey Hlen Hnone Hreach.
  assert (request_timestamps (self (record_request_timestamps nucleon w).1) !! hotkey
          = Some []) as Hfirst.
  { rewrite record_request_timestamps_world, recorded_lookup. f_equal.
    apply recorded_history_negative; [exact Hlen | left; exact Hnone]. }
  assert (miner_priority_len_request_timestamps
            (config (self (record_request_timestamps nucleon w).1)) < 0) as Hlen1
    by (rewrite record_request_timestamps_world; exact Hlen).
  destruct (locked_out_reachable json_dumps sha256_hexdigest float_of_str _ w' hotkey
              Hreach Hlen1 Hfirst) as [_ Hempty].
  split; [exact Hempty|].
  intros Hwl Hbl Hreg Hpermit.
  assert ((default_blacklist nucleon w').2 = Raised IndexError) as Hraise.
  { rewrite (default_blacklist_request_period nucleon w' Hwl Hbl Hreg Hpermit).
    fold hotkey. rewrite Hempty, py_getitem_nil. reflexivity. }
  split; [exact Hraise|].
  unfold Miner_blacklist.
  rewrite (blacklist_default_decides float_of_str not_implemented nucleon w' I).
  change (not_implemented nucleon w').1 with w'. rewrite Hraise. reflexivity.
Qed.

Lemma negative_length_locks_out_witness :
  let w1 := (record_request_timestamps (Example.request "bob")
               (Example.world (Example.with_len Example.cfg (-1))
                  (Some Example.snapshot))).1 in
  let w2 := (record_request_timestamps (Example.request "bob")
               (priority not_implemented (Example.request "bob") w1).1).1 in
  request_timestamps (self w2) !! "bob" = Some []
  /\ (Miner_blacklist DispatchExample.no_float (Example.request "bob") w2).2
     = Raised IndexError.
Proof.
  cbv zeta.
  set (w0 := Example.world (Example.with_len Example.cfg (-1)) (Some Example.snapshot)).
  set (w1 := (record_request_timestamps (Example.request "bob") w0).1).
  set (w2 := (record_request_timestamps (Example.request "bob")
                (priority not_implemented (Example.request "bob") w1).1).1).
  assert (reachable_from CacheExample.toy_json_dumps CacheExample.toy_digest
            DispatchExample.no_float w1 w2) as Hreach.
  { eapply reachable_from_step; [|apply step_record].
    eapply reachable_from_step; [apply reachable_from_here | apply step_priority]. }
  destruct (negative_length_locks_out CacheExample.toy_json_dumps CacheExample.toy_digest
              DispatchExample.no_float (Example.request "bob") w0 w2
              ltac:(vm_compute; reflexivity) eq_refl Hreach) as [Hempty Hraise].
  split; [exact Hempty|].
  apply Hraise.
  - by_compute.
  - by_compute.
  - right. right. exists Example.snapshot. split; [vm_compute; reflexivity | by_compute].
  - left. vm_compute. reflexivity.
Defined.

(** * The model miners *)

(** ** Strings *)

Lemma string_app_assoc (a b c : string) : (a ++ b) ++ c = a ++ (b ++ c).
Proof.
  induction a as [|x a IH]; [reflexivity|].
  change (String x ((a ++ b) ++ c) = String x (a ++ (b ++ c))). rewrite IH. reflexivity.
Qed.

Lemma string_app_nil_r (a : string) : a ++ EmptyString = a.
Proof.
  induction a as [|x a IH]; [reflexivity|].
  change (String x (a ++ EmptyString) = String x a). rewrite IH. reflexivity.
Qed.

Lemma occurs_app (c : Ascii.ascii) (a b : string) :
  occurs c (a ++ b) = occurs c a || occurs c b.
Proof.
  induction a as [|x a IH]; [reflexivity|].
  change (String x a ++ b) with (String x (a ++ b)). cbn [occurs]. rewrite IH.
  apply orb_assoc.
Qed.

Lemma occurs_count_char (c : Ascii.ascii) (s : string) :
  occurs c s = false <-> count_char c s = O.
Proof.
  induction s as [|x s IH]; [split; reflexivity|]. cbn.
  destruct (Ascii.eqb x c); cbn; [split; [discriminate | lia]|]. exact IH.
Qed.

Lemma py_getitem_last {A} (l : list A) :
  py_getitem l (-1) = match last l with
                      | Some x => Returned x
                      | None => Raised IndexError
                      end.
Proof.
  pose proof (py_getitem_neg l 1 ltac:(lia)) as Hget.
  change (Z.opp 1) with (Zneg 1) in Hget. rewrite Hget, last_lookup.
  destruct l as [|x l]; [reflexivity|].
  replace (Z.leb 1 (Z.of_nat (length (x :: l)))) with true
    by (symmetry; apply Z.leb_le; cbn [length]; lia).
  replace (Z.to_nat (Z.of_nat (length (x :: l)) - 1)) with (pred (length (x :: l)))
    by (cbn [length]; lia).
  reflexivity.
Qed.

Lemma length_py_split (sep : Ascii.ascii) (s : string) :
  length (py_split sep s) = S (count_char sep s).
Proof.
  induction s as [|c s IH]; [reflexivity|]. cbn [py_split count_char].
  destruct (Ascii.eqb c sep); cbn [length]; [rewrite IH; reflexivity|].
  destruct (py_split sep s) as [|segment segments]; [discriminate IH|].
  cbn [length] in *. lia.
Qed.

Lemma py_split_absent (sep : Ascii.ascii) (s : string) :
  occurs sep s = false -> py_split sep s = [s].
Proof.
  induction s as [|c s IH]; [reflexivity|]. cbn [occurs py_split].
  destruct (Ascii.eqb c sep); [discriminate|]. cbn [orb]. intros H.
  rewrite (IH H). reflexivity.
Qed.

Lemma py_split_app (sep : Ascii.ascii) (a b : string) :
  occurs sep a = false ->
  py_split sep (a ++ String sep b) = a :: py_split sep b.
Proof.
  induction a as [|c a IH].
  - intros _. change (EmptyString ++ String sep b) with (String sep b).
    cbn [py_split]. rewrite Ascii.eqb_refl. reflexivity.
  - cbn [occurs]. destruct (Ascii.eqb c sep) eqn:E; [discriminate|]. cbn [orb]. intros H.
    change (String c a ++ String sep b) with (String c (a ++ String sep b)).
    cbn [py_split]. rewrite E, (IH H). reflexivity.
Qed.

Lemma last_py_split (sep : Ascii.ascii) (before answer : string) :
  occurs sep answer = false ->
  last (py_split sep (before ++ String sep answer)) = Some answer.
Proof.
  intros Hanswer. induction before as [|c before IH].
  - change (EmptyString ++ String sep answer) with (String sep answer).
    cbn [py_split]. rewrite Ascii.eqb_refl, (py_split_absent sep answer Hanswer).
    reflexivity.
  - change (String c before ++ String sep answer)
      with (String c (before ++ String sep answer)).
    cbn [py_split].
    pose proof (length_py_split sep (before ++ String sep answer)) as Hlen.
    assert (count_char sep (before ++ String sep answer) <> O) as Hcount.
    { intros Hz. apply occurs_count_char in Hz. rewrite occurs_app in Hz.
      cbn [occurs] in Hz. rewrite Ascii.eqb_refl in Hz. cbn [orb] in Hz.
      rewrite orb_true_r in Hz. discriminate Hz. }
    destruct (py_split sep (before ++ String sep answer)) as [|seg1 [|seg2 segs]];
      cbn [length] in Hlen; try lia.
    destruct (Ascii.eqb c sep); exact IH.
Qed.

Lemma prefix_occurs (c : Ascii.ascii) (old : string) :
  forall s, String.prefix old s = true -> occurs c old = true -> occurs c s = true.
Proof.
  induction old as [|a old IH]; intros s Hp Ho; [discriminate Ho|].
  destruct s as [|b s]; [discriminate Hp|]. cbn [String.prefix] in Hp.
  destruct (Ascii.ascii_dec a b) as [->|]; [|discriminate Hp].
  cbn [occurs] in *. destruct (Ascii.eqb b c); [reflexivity|]. cbn [orb] in *.
  apply (IH s Hp Ho).
Qed.

Lemma replace_from_absent (c : Ascii.ascii) (old new s : string) :
  occurs c old = true -> occurs c s = false -> replace_from old new 0 s = s.
Proof.
  intros Hold. induction s as [|a s IH]; [reflexivity|]. intros Hs.
  cbn [replace_from].
  destruct (String.prefix old (String a s)) eqn:Hp.
  - rewrite (prefix_occurs c old _ Hp Hold) in Hs. discriminate Hs.
  - cbn [occurs] in Hs. apply orb_false_iff in Hs as [_ Hs]. rewrite (IH Hs). reflexivity.
Qed.

(** ** [nblm/miner.py]: the stopping criterion *)

(** X17. [StopOnTokens.__call__] returns [True] exactly when the last
    token of the first row of [input_ids] is one of the stop tokens.  It
    raises [IndexError] when there is no such token (no row, or an empty
    first row), unless the list of stop tokens is empty: then it returns
    [False] without looking at [input_ids]. *)
Theorem StopOnTokens_call_value (stop_token_ids : list Z) (input_ids : list (list Z)) :
  NBLMMiner.StopOnTokens_call stop_token_ids input_ids =
    match stop_token_ids with
    | [] => Returned false
    | _ :: _ =>
        match input_ids with
        | [] => Raised IndexError
        | row :: _ =>
            match last row with
            | None => Raised IndexError
            | Some last_id => Returned (bool_decide (last_id ∈ stop_token_ids))
            end
        end
    end.
Proof.
  destruct stop_token_ids as [|stop_id rest]; [reflexivity|].
  destruct input_ids as [|row rows]; [reflexivity|].
  destruct (last row) as [last_id|] eqn:Hlast.
  - assert (forall stops,
              NBLMMiner.StopOnTokens_call stops (row :: rows)
              = Returned (bool_decide (last_id ∈ stops))) as Hloop.
    { induction stops as [|s stops IH]; [reflexivity|].
      cbn [NBLMMiner.StopOnTokens_call]. rewrite py_getitem_0. cbn [and_then].
      rewrite py_getitem_last, Hlast. cbn [and_then].
      destruct (Z.eqb_spec last_id s) as [->|Hne].
      - rewrite bool_decide_eq_true_2 by (left). reflexivity.
      - rewrite IH. f_equal. apply bool_decide_ext. rewrite elem_of_cons. tauto. }
    apply Hloop.
  - cbn [NBLMMiner.StopOnTokens_call]. rewrite py_getitem_0. cbn [and_then].
    rewrite py_getitem_last, Hlast. reflexivity.
Qed.

Lemma StopOnTokens_call_value_witness :
  NBLMMiner.StopOnTokens_call [50256] [[11; 50256]] = Returned true
  /\ NBLMMiner.StopOnTokens_call [50256] [[]] = Raised IndexError
  /\ NBLMMiner.StopOnTokens_call [] [] = Returned false.
Proof.
  rewrite !StopOnTokens_call_value. repeat split.
Defined.

(** ** [nblm/miner.py]: the device *)

(** X18. The device id of the NBLM miner.  ["cuda"] becomes [0].  A string
    with exactly one colon becomes [int] of what follows the colon,
    whatever precedes it (so ["cpu:1"] selects device 1), and [ValueError]
    when that is not a number.  Every other string, with no colon or with
    more than one, is handed to the pipeline unchanged. *)
Theorem init_device_cases (int_of_str : string -> option Z) :
  NBLMMiner.init_device int_of_str "cuda" = Returned (NBLMMiner.DeviceInt 0)
  /\ (forall prefix part,
        occurs colon prefix = false -> occurs colon part = false ->
        NBLMMiner.init_device int_of_str (prefix ++ String colon part)
        = match int_of_str part with
          | Some id => Returned (NBLMMiner.DeviceInt id)
          | None => Raised ValueError
          end)
  /\ (forall config_nblm_device,
        config_nblm_device <> "cuda" ->
        count_char colon config_nblm_device <> 1%nat ->
        NBLMMiner.init_device int_of_str config_nblm_device
        = Returned (NBLMMiner.DeviceStr config_nblm_device)).
Proof.
  split; [reflexivity|]. split.
  - intros prefix part Hprefix Hpart. unfold NBLMMiner.init_device.
    destruct (String.eqb_spec (prefix ++ String colon part) "cuda") as [Heq|_].
    + exfalso. assert (occurs colon (prefix ++ String colon part) = false) as Hno
        by (rewrite Heq; reflexivity).
      rewrite occurs_app in Hno. cbn [occurs] in Hno. rewrite Ascii.eqb_refl in Hno.
      cbn [orb] in Hno. rewrite orb_true_r in Hno. discriminate Hno.
    + rewrite (py_split_app colon prefix part Hprefix), (py_split_absent colon part Hpart).
      cbn [length Nat.eqb].
      change (py_getitem [prefix; part] 1) with (Returned part). cbn [and_then].
      destruct (int_of_str part); reflexivity.
  - intros device Hne Hcount. unfold NBLMMiner.init_device.
    destruct (String.eqb_spec device "cuda") as [Heq|_]; [contradiction|].
    rewrite length_py_split.
    destruct (Nat.eqb_spec (S (count_char colon device)) 2) as [Heq|_]; [lia|].
    reflexivity.
Qed.

Lemma init_device_cases_witness :
  NBLMMiner.init_device toy_int_of_str "cpu:1" = Returned (NBLMMiner.DeviceInt 1)
  /\ NBLMMiner.init_device toy_int_of_str "cuda:first" = Raised ValueError
  /\ NBLMMiner.init_device toy_int_of_str "cpu" = Returned (NBLMMiner.DeviceStr "cpu").
Proof.
  destruct (init_device_cases toy_int_of_str) as (_ & Hone & Hother).
  split; [|split].
  - apply (Hone "cpu" "1"); reflexivity.
  - apply (Hone "cuda" "first"); reflexivity.
  - apply (Hother "cpu"); [discriminate | vm_compute; intros Habs; discriminate Habs].
Defined.

(** ** [nblm/miner.py]: the completion *)

(** X19. The completion the NBLM miner stores is the generated text after
    its last colon.  The prompt handed to the pipeline ends in
    ["assistant: "], so it contains a colon and cannot occur in a text
    without one: the [replace] that is meant to remove the prompt from the
    generated text never removes anything, and an answer that itself
    contains a colon is cut at its last colon. *)
Theorem predict_completion_after_last_colon (processed_history generated_text : string) :
  let history := processed_history ++ "assistant: " in
  (occurs colon generated_text = false ->
     NBLMMiner.predict_completion history generated_text = Returned generated_text)
  /\ (forall before answer,
        occurs colon answer = false ->
        generated_text = before ++ String colon answer ->
        NBLMMiner.predict_completion history generated_text = Returned answer).
Proof.
  cbv zeta.
  assert (occurs colon (processed_history ++ "assistant: ") = true) as Hhistory.
  { rewrite occurs_app. apply orb_true_iff. right. reflexivity. }
  assert (forall s, occurs colon s = false ->
            py_replace s (processed_history ++ "assistant: ") EmptyString = s) as Hreplace.
  { intros s Hs. unfold py_replace.
    destruct (processed_history ++ "assistant: ") as [|a old] eqn:E; [discriminate Hhistory|].
    apply (replace_from_absent colon); assumption. }
  unfold NBLMMiner.predict_completion. split.
  - intros Hno. rewrite (py_split_absent colon _ Hno), py_getitem_last. cbn [last and_then].
    rewrite (Hreplace _ Hno). reflexivity.
  - intros before answer Hanswer ->.
    rewrite py_getitem_last, (last_py_split colon before answer Hanswer). cbn [and_then].
    rewrite (Hreplace _ Hanswer). reflexivity.
Qed.

Lemma predict_completion_after_last_colon_witness :
  NBLMMiner.predict_completion ("user: hi" ++ newline ++ "assistant: ")
    ("user: hi" ++ newline ++ "assistant: at noon: yes")
  = Returned " yes".
Proof.
  apply (proj2 (predict_completion_after_last_colon ("user: hi" ++ newline)
                  ("user: hi" ++ newline ++ "assistant: at noon: yes"))
           ("user: hi" ++ newline ++ "assistant: at noon") " yes").
  - reflexivity.
  - reflexivity.
Defined.

(** ** The prompts built from the conversation *)

Lemma concat_empty_cons (x : string) (xs : list string) :
  String.concat EmptyString (x :: xs) = x ++ String.concat EmptyString xs.
Proof.
  destruct xs as [|y xs]; [cbn; rewrite string_app_nil_r; reflexivity|]. reflexivity.
Qed.

Lemma concat_empty_app (xs ys : list string) :
  String.concat EmptyString (xs ++ ys)
  = String.concat EmptyString xs ++ String.concat EmptyString ys.
Proof.
  induction xs as [|x xs IH]; [reflexivity|].
  change ((x :: xs) ++ ys)%list with (x :: (xs ++ ys))%list.
  rewrite !concat_empty_cons, IH, string_app_assoc. reflexivity.
Qed.

(** A loop whose body appends the text of the entries it keeps and fails on
    the entries in [fails]. *)
Lemma for_pairs_value (body : string -> string -> string -> outcome string)
  (kept fails : string * string -> bool) (text : string * string -> string)
  (pairs : list (string * string)) :
  (forall processed_history role message,
     (role, message) ∈ pairs ->
     body processed_history role message
     = if fails (role, message) then Raised IndexError
       else Returned (if kept (role, message)
                      then processed_history ++ text (role, message)
                      else processed_history)) ->
  forall processed_history,
    for_pairs body pairs processed_history
    = if existsb fails pairs then Raised IndexError
      else Returned (processed_history
                     ++ String.concat EmptyString (text <$> List.filter kept pairs)).
Proof.
  induction pairs as [|[role message] pairs IH]; intros Hbody processed_history.
  - cbn. rewrite string_app_nil_r. reflexivity.
  - cbn [for_pairs existsb List.filter].
    rewrite (Hbody processed_history role message) by left.
    destruct (fails (role, message)); [reflexivity|]. cbn [and_then orb].
    rewrite IH by (intros p r m Hin; apply Hbody; right; exact Hin).
    destruct (existsb fails pairs); [reflexivity|].
    destruct (kept (role, message)); [|reflexivity].
    rewrite fmap_cons, concat_empty_cons, string_app_assoc. reflexivity.
Qed.

Lemma nblm_history_body_value (do_request_injection : bool) (first : string)
  (others : list string) (processed_history role message : string) :
  NBLMMiner.history_body do_request_injection (first :: others) processed_history
    role message
  = Returned (if nblm_kept do_request_injection (first :: others) (role, message)
              then processed_history ++ nblm_line (role, message)
              else processed_history).
Proof.
  unfold NBLMMiner.history_body, nblm_kept, nblm_line. cbn [fst snd head].
  rewrite py_getitem_0.
  destruct (String.eqb_spec role "system") as [->|Hsystem].
  - change (String.eqb "system" "assistant") with false.
    change (String.eqb "system" "user") with false.
    destruct do_request_injection; cbn [negb andb and_then]; [|reflexivity].
    destruct (String.eqb message first); reflexivity.
  - cbn [and_then].
    destruct (String.eqb_spec role "assistant") as [->|Hassistant].
    + change (String.eqb "assistant" "user") with false. reflexivity.
    + destruct (String.eqb_spec role "user") as [->|Huser]; reflexivity.
Qed.

(** X20. The prompt of the NBLM miner.  [_process_history] never raises
    (the lookup [messages[0]] is only made inside the loop, where a message
    exists).  Its result is the injected system request, when injection is
    on, followed by one line ["role: message\n"] for every entry of
    [zip(roles, messages)] that it keeps: entries of other roles than
    [system], [assistant] and [user] are ignored, and so are roles or
    messages without a partner.  With injection on, a system entry is left
    out exactly when its message equals the first message of the request,
    wherever the entry stands and whatever the role of the first message: a
    system entry that repeats the text of a leading user message is dropped
    as well. *)
Theorem nblm_process_history_value (do_request_injection : bool) (system_request : string)
  (roles messages : list string) :
  NBLMMiner._process_history do_request_injection system_request roles messages
  = Returned ((if do_request_injection then system_request else EmptyString)
              ++ String.concat EmptyString
                   (nblm_line <$> List.filter (nblm_kept do_request_injection messages)
                                    (zip roles messages)))
  /\ (forall message,
        NBLMMiner._process_history true system_request
          ("user" :: "system" :: roles) (message :: message :: messages)
        = NBLMMiner._process_history true system_request
            ("user" :: roles) (message :: messages)).
Proof.
  assert (forall (inj : bool) roles messages,
            NBLMMiner._process_history inj system_request roles messages
            = Returned ((if inj then system_request else EmptyString)
                        ++ String.concat EmptyString
                             (nblm_line <$> List.filter (nblm_kept inj messages)
                                              (zip roles messages)))) as Hvalue.
  { clear. intros inj roles messages. unfold NBLMMiner._process_history.
    rewrite (for_pairs_value _ (nblm_kept inj messages) (fun _ => false) nblm_line).
    - replace (existsb (fun _ => false) (zip roles messages)) with false
        by (induction (zip roles messages); [reflexivity | assumption]).
      destruct inj; reflexivity.
    - intros processed_history role message Hin.
      destruct messages as [|first others].
      + destruct roles; inversion Hin.
      + apply nblm_history_body_value. }
  split; [apply Hvalue|].
  intros message. rewrite !Hvalue. cbn [zip zip_with List.filter].
  unfold nblm_kept at 1 3. cbn [fst snd head].
  change (String.eqb "user" "system") with false.
  change (String.eqb "user" "assistant") with false.
  change (String.eqb "user" "user") with true. cbn [orb].
  cbn [List.filter]. unfold nblm_kept at 1. cbn [fst snd head].
  change (String.eqb "system" "system") with true.
  rewrite String.eqb_refl. cbn [andb negb].
  assert (forall pairs,
            List.filter (nblm_kept true (message :: message :: messages)) pairs
            = List.filter (nblm_kept true (message :: messages)) pairs) as Hfilter.
  { intros pairs. induction pairs as [|p pairs IH]; [reflexivity|].
    cbn [List.filter]. rewrite IH. reflexivity. }
  rewrite Hfilter. reflexivity.
Qed.

Lemma nblm_process_history_value_witness :
  NBLMMiner._process_history true "Be brief. " ["user"; "system"; "critic"] ["hi"; "hi"]
  = Returned ("Be brief. " ++ "user: hi" ++ newline).
Proof.
  rewrite (proj1 (nblm_process_history_value true "Be brief. "
                    ["user"; "system"; "critic"] ["hi"; "hi"])).
  reflexivity.
Defined.

Section VicunaFacts.

Variable strip : string -> string.

Lemma vicuna_history_body_value (do_prompt_injection : bool)
  (processed_history role message : string) :
  VicunaMiner.history_body strip do_prompt_injection processed_history role message
  = if do_prompt_injection && empty_system_message (role, message)
    then Raised IndexError
    else Returned (if vicuna_kept do_prompt_injection (role, message)
                   then processed_history ++ vicuna_text strip (role, message)
                   else processed_history).
Proof.
  unfold VicunaMiner.history_body, vicuna_kept, vicuna_text, empty_system_message.
  cbn [fst snd].
  destruct (String.eqb_spec role "system") as [->|Hsystem].
  - change (String.eqb "system" "Assistant") with false.
    change (String.eqb "system" "user") with false.
    destruct do_prompt_injection; cbn [negb andb and_then]; [|reflexivity].
    destruct message as [|c message]; [reflexivity|].
    cbn [str_getitem_0 and_then String.eqb String.length Nat.eqb].
    rewrite Ascii.eqb_refl.
    destruct message; reflexivity.
  - cbn [and_then andb]. rewrite andb_false_r.
    destruct (String.eqb_spec role "Assistant") as [->|Hassistant].
    + change (String.eqb "Assistant" "user") with false. reflexivity.
    + destruct (String.eqb_spec role "user") as [->|Huser]; reflexivity.
Qed.

End VicunaFacts.

(** X21. The prompt of the Vicuna miner.  Its loop compares a system
    message with its own first character ([message[0]]), not with the first
    message.  So with injection on, [_process_history] raises [IndexError]
    as soon as the conversation holds an empty system message, and
    otherwise leaves out exactly the system messages of one character: every
    longer system message stays in the prompt, after the injected system
    prompt.  With injection off it never raises and keeps every system
    message. *)
Theorem vicuna_process_history_value (strip : string -> string)
  (do_prompt_injection : bool) (system_prompt : string) (roles messages : list string) :
  VicunaMiner._process_history strip do_prompt_injection system_prompt roles messages
  = if do_prompt_injection && existsb empty_system_message (zip roles messages)
    then Raised IndexError
    else Returned ((if do_prompt_injection then system_prompt else EmptyString)
                   ++ String.concat EmptyString
                        (vicuna_text strip
                           <$> List.filter (vicuna_kept do_prompt_injection)
                                 (zip roles messages))).
Proof.
  unfold VicunaMiner._process_history.
  rewrite (for_pairs_value _ (vicuna_kept do_prompt_injection)
             (fun entry => do_prompt_injection && empty_system_message entry)
             (vicuna_text strip)).
  - destruct do_prompt_injection; cbn [andb].
    + destruct (existsb empty_system_message (zip roles messages)); reflexivity.
    + replace (existsb (fun _ => false) (zip roles messages)) with false
        by (induction (zip roles messages); [reflexivity | assumption]).
      reflexivity.
  - intros processed_history role message _. apply vicuna_history_body_value.
Qed.

Lemma vicuna_process_history_value_witness :
  VicunaMiner._process_history toy_strip true "Be polite. " ["system"; "user"] [""; "hi"]
  = Raised IndexError
  /\ VicunaMiner._process_history toy_strip true "Be polite. " ["system"; "system"; "user"]
       ["x"; "You are a pirate."; "hi"]
     = Returned "Be polite. You are a pirate. USER: hi ".
Proof.
  rewrite !vicuna_process_history_value. split; reflexivity.
Defined.

(** ** [streaming_template/miner.py]: the stream of messages *)

Lemma list_ind3 {A} (P : list A -> Prop) :
  P [] -> (forall a, P [a]) -> (forall a b, P [a; b]) ->
  (forall a b c l, P l -> P (a :: b :: c :: l)) ->
  forall l, P l.
Proof.
  intros H0 H1 H2 H3 l.
  assert (P l /\ (forall a, P (a :: l)) /\ (forall a b, P (a :: b :: l))) as [H _].
  { induction l as [|x l (IH0 & IH1 & IH2)]; [auto|].
    split; [apply IH1|]. split; [intros a; apply IH2|]. intros a b. apply H3, IH0. }
  exact H.
Qed.

Lemma prompt_loop_sent (N : nat) (tokens : list string) :
  forall buffer sent,
    StreamingTemplateMiner.prompt_loop N tokens buffer sent
    = ((StreamingTemplateMiner.prompt_loop N tokens buffer []).1,
       (sent ++ (StreamingTemplateMiner.prompt_loop N tokens buffer []).2)%list).
Proof.
  induction tokens as [|token rest IH]; intros buffer sent.
  - cbn. rewrite app_nil_r. reflexivity.
  - cbn [StreamingTemplateMiner.prompt_loop].
    destruct (Nat.eqb (length (buffer ++ [token])) N).
    + rewrite IH. rewrite (IH [] ([] ++ _)%list). cbn [fst snd app].
      rewrite <- app_assoc. reflexivity.
    + apply IH.
Qed.

Lemma prompt_cons3 (a b c : string) (tokens : list string) :
  StreamingTemplateMiner.prompt_sends (a :: b :: c :: tokens)
  = {| StreamingTemplateMiner.body := String.concat EmptyString [a; b; c];
       StreamingTemplateMiner.more_body := true |}
      :: StreamingTemplateMiner.prompt_sends tokens.
Proof.
  unfold StreamingTemplateMiner.prompt_sends.
  cbn [StreamingTemplateMiner.prompt_loop app length Nat.eqb].
  rewrite prompt_loop_sent.
  destruct (StreamingTemplateMiner.prompt_loop 3 tokens [] []) as [buffer sent].
  cbn [fst snd app]. destruct (negb (Nat.eqb (length buffer) 0)); reflexivity.
Qed.

Lemma prompt_sends_stream (tokens : list string) :
  String.concat EmptyString
    (StreamingTemplateMiner.body <$> StreamingTemplateMiner.prompt_sends tokens)
  = String.concat EmptyString tokens
  /\ length (StreamingTemplateMiner.prompt_sends tokens) = ((length tokens + 2) / 3)%nat
  /\ (forall i message,
        StreamingTemplateMiner.prompt_sends tokens !! i = Some message ->
        StreamingTemplateMiner.body message
        = String.concat EmptyString (take 3 (drop (3 * i) tokens))
        /\ StreamingTemplateMiner.more_body message
           = Nat.leb (3 * i + 3) (length tokens))
  /\ ((length tokens mod 3 = 0)%nat ->
      forall message,
        message ∈ StreamingTemplateMiner.prompt_sends tokens ->
        StreamingTemplateMiner.more_body message = true).
Proof.
  split; [|split; [|split]].
  - induction tokens as [|a|a b|a b c tokens IH] using list_ind3; try reflexivity.
    rewrite prompt_cons3, fmap_cons, !concat_empty_cons, IH.
    cbn [StreamingTemplateMiner.body]. rewrite ?concat_empty_cons.
    change (String.concat EmptyString []) with EmptyString.
    rewrite string_app_nil_r, !string_app_assoc. reflexivity.
  - induction tokens as [|a|a b|a b c tokens IH] using list_ind3; try reflexivity.
    rewrite prompt_cons3. cbn [length]. rewrite IH.
    replace (S (S (S (length tokens))) + 2)%nat with ((length tokens + 2) + 1 * 3)%nat by lia.
    rewrite Nat.div_add by lia. lia.
  - induction tokens as [|a|a b|a b c tokens IH] using list_ind3; intros i message Hi.
    + discriminate Hi.
    + destruct i as [|i]; [|destruct i; discriminate Hi].
      injection Hi as <-. split; reflexivity.
    + destruct i as [|i]; [|destruct i; discriminate Hi].
      injection Hi as <-. split; reflexivity.
    + rewrite prompt_cons3 in Hi. destruct i as [|i].
      * injection Hi as <-. split; reflexivity.
      * cbn [lookup list_lookup] in Hi. destruct (IH i message Hi) as [Hbody Hmore].
        replace (3 * S i)%nat with (3 + 3 * i)%nat by lia.
        split; [exact Hbody|]. rewrite Hmore. cbn [length].
        destruct (Nat.leb_spec (3 * i + 3) (length tokens));
          destruct (Nat.leb_spec (3 + 3 * i + 3) (S (S (S (length tokens))))); lia.
  - induction tokens as [|a|a b|a b c tokens IH] using list_ind3; intros Hmod message Hin.
    + inversion Hin.
    + discriminate Hmod.
    + discriminate Hmod.
    + rewrite prompt_cons3 in Hin. apply elem_of_cons in Hin as [-> | Hin]; [reflexivity|].
      apply IH; [|exact Hin]. cbn [length] in Hmod.
      replace (S (S (S (length tokens)))) with (length tokens + 1 * 3)%nat in Hmod by lia.
      rewrite Nat.Div0.mod_add in Hmod. exact Hmod.
Qed.

(** X22. The stream of the streaming miner.  For a text of exactly one
    token, [squeeze()] leaves a tensor without dimensions, the iteration over
    it raises [TypeError], and [_prompt] sends nothing.  For every other
    text [_prompt] returns after sending the decoded tokens in order, three
    to a message: the [i]-th message carries the tokens [3i, 3i+1, 3i+2]
    (fewer in a last, incomplete message), so the bodies put together are
    the tokens put together, and [(n + 2) / 3] messages are sent for [n]
    tokens.  A message has [more_body = True] exactly when it is complete.
    Hence the stream is closed by a message with [more_body = False] only
    when the number of tokens is not a multiple of three: when it is, and
    in particular when there is no token, every message sent announces
    more. *)
Theorem prompt_stream (tokenizer_decode : Z -> string) (input_ids : list Z) :
  let tokens := tokenizer_decode <$> input_ids in
  let sent := (StreamingTemplateMiner._prompt tokenizer_decode input_ids).1 in
  (length input_ids = 1%nat ->
     StreamingTemplateMiner._prompt tokenizer_decode input_ids = ([], Raised TypeError))
  /\ (length input_ids <> 1%nat ->
      (StreamingTemplateMiner._prompt tokenizer_decode input_ids).2 = Returned tt
      /\ String.concat EmptyString (StreamingTemplateMiner.body <$> sent)
         = String.concat EmptyString tokens
      /\ length sent = ((length input_ids + 2) / 3)%nat
      /\ (forall i message,
            sent !! i = Some message ->
            StreamingTemplateMiner.body message
            = String.concat EmptyString (take 3 (drop (3 * i) tokens))
            /\ StreamingTemplateMiner.more_body message
               = Nat.leb (3 * i + 3) (length input_ids))
      /\ ((length input_ids mod 3 = 0)%nat ->
          forall message,
            message ∈ sent -> StreamingTemplateMiner.more_body message = true)).
Proof.
  cbv zeta. split.
  - intros Hone. destruct input_ids as [|id [|id' ids]]; try discriminate Hone.
    reflexivity.
  - intros Hmany.
    assert (StreamingTemplateMiner._prompt tokenizer_decode input_ids
            = (StreamingTemplateMiner.prompt_sends (tokenizer_decode <$> input_ids),
               Returned tt)) as ->.
    { destruct input_ids as [|id [|id' ids]]; [reflexivity | contradiction | reflexivity]. }
    cbn [fst snd].
    destruct (prompt_sends_stream (tokenizer_decode <$> input_ids))
      as (Hconcat & Hlength & Hmessage & Hmore).
    rewrite length_fmap in Hlength, Hmessage, Hmore.
    split; [reflexivity|]. split; [exact Hconcat|]. split; [exact Hlength|].
    split; [exact Hmessage | exact Hmore].
Qed.

Lemma prompt_stream_witness :
  StreamingTemplateMiner._prompt toy_decode [464%Z] = ([], Raised TypeError)
  /\ (StreamingTemplateMiner._prompt toy_decode [1%Z; 2%Z; 3%Z]).1
     = [{| StreamingTemplateMiner.body := "123";
           StreamingTemplateMiner.more_body := true |}]
  /\ length (StreamingTemplateMiner._prompt toy_decode [1%Z; 2%Z; 3%Z; 4%Z]).1 = 2%nat.
Proof.
  split; [|split].
  - apply (proj1 (prompt_stream toy_decode [464%Z])). reflexivity.
  - reflexivity.
  - destruct (proj2 (prompt_stream toy_decode [1%Z; 2%Z; 3%Z; 4%Z])
                ltac:(cbn; lia)) as (_ & _ & Hlength & _).
    rewrite Hlength. reflexivity.
Defined.
